(** * Universal Stockfish Compiler: a shallow embedding of
      [universal-stockfish-compiler.py] and the properties of its
      detection-and-build pipeline.

    The Python class [StockfishCompiler] is embedded as follows.

    - The fields of [self], the keystrokes still waiting on the console, the
      console/effect log and the set of staging directories on disk form one
      [State] record; every method is a function in the state-and-exception
      monad [M].
    - The host (platform facts, file system queries, child processes, network)
      is an [Env] record of answers; it is a variable of the development, so
      every theorem holds for every host.  A query gets the same answer each
      time it is asked; the one directory whose presence changes during a run,
      the staging directory, is tracked in the state ([created]).
    - [input()] reads the next [Key]: a line of text, a Ctrl-C (which raises
      [KeyboardInterrupt]), or nothing at all (end of input, [EOFError]).
      The [while True] menus recurse on the keystrokes that remain.
    - Child processes and file operations fail with [Exception] subclasses
      only (a time-out is one of them); user interrupts are modelled where the
      user is asked something.
    - [pathlib.Path] values are their strings; [p / c] joins with the host's
      separator, also after a bare drive such as [C:].
    - Strings are byte strings: [lower], [strip] and [int] follow Python on
      the ASCII range.
    - Console text keeps one log event per [print]; blank-line decorations
      and column padding of the f-strings are left out, the output of the
      builder that [compile_stockfish] passes through is logged as [Echo].
      The [PATH] variable handed to the builder is not part of the model. *)

From Stdlib Require Import String Ascii List ZArith Bool Lia DecimalString.
Import ListNotations.
Open Scope list_scope.
Open Scope string_scope.

(** ** Python string primitives *)

Module Py.

(** [needle in hay] on strings. *)
Fixpoint contains (needle hay : string) : bool :=
  String.prefix needle hay ||
  match hay with
  | EmptyString => false
  | String _ rest => contains needle rest
  end.

Definition lower_char (c : ascii) : ascii :=
  let n := nat_of_ascii c in
  if andb (Nat.leb 65 n) (Nat.leb n 90) then ascii_of_nat (n + 32) else c.

(** [s.lower()], on the ASCII range. *)
Fixpoint lower (s : string) : string :=
  match s with
  | EmptyString => EmptyString
  | String c rest => String (lower_char c) (lower rest)
  end.

Definition newline : ascii := ascii_of_nat 10.

(** [s.split('\n')] *)
Fixpoint split_lines (s : string) : list string :=
  match s with
  | EmptyString => [EmptyString]
  | String c rest =>
      if Ascii.eqb c newline then EmptyString :: split_lines rest
      else match split_lines rest with
           | [] => [String c EmptyString]
           | l :: ls => String c l :: ls
           end
  end.

(** [s.split('\n')[0]] *)
Definition first_line (s : string) : string := hd EmptyString (split_lines s).

(** [c.isspace()] for the characters a console line can hold. *)
Definition is_space (c : ascii) : bool :=
  let n := nat_of_ascii c in
  orb (andb (Nat.leb 9 n) (Nat.leb n 13))
      (orb (andb (Nat.leb 28 n) (Nat.leb n 32)) false).

Fixpoint lstrip (s : string) : string :=
  match s with
  | EmptyString => EmptyString
  | String c rest => if is_space c then lstrip rest else s
  end.

Fixpoint rev_string (s acc : string) : string :=
  match s with
  | EmptyString => acc
  | String c rest => rev_string rest (String c acc)
  end.

(** [s.strip()] *)
Definition strip (s : string) : string :=
  rev_string (lstrip (rev_string (lstrip s) EmptyString)) EmptyString.

Definition digit_of (c : ascii) : option Z :=
  let n := nat_of_ascii c in
  if andb (Nat.leb 48 n) (Nat.leb n 57) then Some (Z.of_nat (n - 48)) else None.

Definition underscore : ascii := ascii_of_nat 95.

(** Digits of an integer literal after the first digit was read:
    [acc] is the value so far, [after_us] tells that the previous character
    was an underscore (which must be followed by a digit). *)
Fixpoint int_digits (s : string) (acc : Z) (after_us : bool) : option Z :=
  match s with
  | EmptyString => if after_us then None else Some acc
  | String c rest =>
      match digit_of c with
      | Some d => int_digits rest (10 * acc + d) false
      | None =>
          if andb (Ascii.eqb c underscore) (negb after_us)
          then int_digits rest acc true
          else None
      end
  end.

Definition int_unsigned (s : string) : option Z :=
  match s with
  | EmptyString => None
  | String c rest =>
      match digit_of c with
      | Some d => int_digits rest d false
      | None => None
      end
  end.

(** [int(s)]: surrounding white space, one optional sign, decimal digits
    with single underscores between them.  [None] stands for
    [ValueError]. *)
Definition int (s : string) : option Z :=
  match strip s with
  | String "+" rest => int_unsigned rest
  | String "-" rest => option_map Z.opp (int_unsigned rest)
  | t => int_unsigned t
  end.

(** [str(n)] for a natural number. *)
Definition str_nat (n : nat) : string := NilEmpty.string_of_uint (Nat.to_uint n).

(** Truth value of an optional string: [None] and [''] are false. *)
Definition truthy (o : option string) : bool :=
  match o with
  | Some (String _ _) => true
  | _ => false
  end.

End Py.

(** ** Exceptions, results, console and host *)

Inductive exn : Type :=
| ValueError
| EOFError
| KeyboardInterrupt
| Error (msg : string).

(** [isinstance(e, Exception)]: everything but [KeyboardInterrupt]. *)
Definition is_Exception (e : exn) : bool :=
  match e with
  | KeyboardInterrupt => false
  | _ => true
  end.

Definition exn_str (e : exn) : string :=
  match e with
  | ValueError => "invalid literal for int()"
  | EOFError => "EOF when reading a line"
  | KeyboardInterrupt => ""
  | Error msg => msg
  end.

Inductive Result (A : Type) : Type :=
| Ok (a : A)
| Raise (e : exn).
Arguments Ok {A} a.
Arguments Raise {A} e.

(** What the user does at a prompt. *)
Inductive Key : Type :=
| Line (text : string)
| CtrlC.

(** Outcome of a child process: it ran to completion, or starting or waiting
    for it raised ([OSError], [TimeoutExpired], ...). *)
Inductive Proc : Type :=
| Completed (returncode : Z) (stdout stderr : string)
| Failed (msg : string).

(** Outcome of a library call on the host: its value, or the message of the
    exception it raised. *)
Inductive Outcome (A : Type) : Type :=
| Returned (a : A)
| Threw (msg : string).
Arguments Returned {A} a.
Arguments Threw {A} msg.

(** The JSON object of the release query, as far as it is read. *)
Record ReleaseData : Type := {
  tag_name : option string;
  zipball_url : option string;
  release_name : option string
}.

Inductive Event : Type :=
| Print (text : string)
| Echo (text : string)                  (* output of a child, passed through *)
| Input (prompt : string) (got : option Key)
| Clear
| Spawn (argv : list string)
| Mkdtemp (dir : string)
| Fetch (url dest : string)
| Unzip (archive dest : string)
| Copy (src dst : string)
| Chmod (path : string)
| Rmtree (dir : string) (ok : bool).

Record Env : Type := {
  system : string;                      (* platform.system() *)
  machine_raw : string;                 (* platform.machine() *)
  sep : string;                         (* os.sep *)
  home : string;                        (* Path.home() *)
  cwd : string;                         (* Path.cwd() *)
  cpu_count : nat;                      (* multiprocessing.cpu_count() *)
  which : string -> option string;      (* shutil.which(name) *)
  path_exists : string -> bool;         (* Path.exists() *)
  subprocess_run : list string -> Proc; (* subprocess.run / Popen + wait *)
  mkdtemp : Outcome string;             (* tempfile.mkdtemp(prefix=...) *)
  urlretrieve : string -> string -> option string;  (* Some msg: it raised *)
  extractall : string -> string -> Outcome (list string);
                                        (* raises, or the directories then
                                           found by iterdir() *)
  latest_release : Outcome ReleaseData; (* urlopen + json.loads *)
  copy2 : string -> string -> option string;
  chmod : string -> option string;
  stat_size : string -> Outcome Z;
  rmtree : string -> option string
}.

(** Candidate tuples [(comp_type, display_name, version, path)]. *)
Record Candidate : Type := {
  c_type : string;
  c_name : string;
  c_version : string;
  c_path : option string
}.

(** [{'url': ..., 'version': ..., 'name': ...}] *)
Record SourceInfo : Type := {
  url : string;
  version : string;
  name : option string
}.

Record State : Type := {
  temp_dir : option string;
  source_dir : option string;
  compiler_type : option string;
  compiler_path : option string;
  arch_detected : option string;
  comp_command : option string;
  stdin : list Key;
  log : list Event;          (* newest event first *)
  created : list string      (* staging directories now on disk *)
}.

(** [StockfishCompiler.__init__], with the keystrokes the user will type. *)
Definition init (keys : list Key) : State :=
  {| temp_dir := None; source_dir := None; compiler_type := None;
     compiler_path := None; arch_detected := None; comp_command := None;
     stdin := keys; log := []; created := [] |}.

Definition set_temp_dir (v : option string) (s : State) : State :=
  {| temp_dir := v; source_dir := source_dir s; compiler_type := compiler_type s;
     compiler_path := compiler_path s; arch_detected := arch_detected s;
     comp_command := comp_command s; stdin := stdin s; log := log s;
     created := created s |}.

Definition set_source_dir (v : option string) (s : State) : State :=
  {| temp_dir := temp_dir s; source_dir := v; compiler_type := compiler_type s;
     compiler_path := compiler_path s; arch_detected := arch_detected s;
     comp_command := comp_command s; stdin := stdin s; log := log s;
     created := created s |}.

Definition set_compiler (ty path cmd : option string) (s : State) : State :=
  {| temp_dir := temp_dir s; source_dir := source_dir s; compiler_type := ty;
     compiler_path := path; arch_detected := arch_detected s;
     comp_command := cmd; stdin := stdin s; log := log s;
     created := created s |}.

Definition set_arch_detected (v : option string) (s : State) : State :=
  {| temp_dir := temp_dir s; source_dir := source_dir s; compiler_type := compiler_type s;
     compiler_path := compiler_path s; arch_detected := v;
     comp_command := comp_command s; stdin := stdin s; log := log s;
     created := created s |}.

Definition set_stdin (v : list Key) (s : State) : State :=
  {| temp_dir := temp_dir s; source_dir := source_dir s; compiler_type := compiler_type s;
     compiler_path := compiler_path s; arch_detected := arch_detected s;
     comp_command := comp_command s; stdin := v; log := log s;
     created := created s |}.

Definition emit (ev : Event) (s : State) : State :=
  {| temp_dir := temp_dir s; source_dir := source_dir s; compiler_type := compiler_type s;
     compiler_path := compiler_path s; arch_detected := arch_detected s;
     comp_command := comp_command s; stdin := stdin s; log := ev :: log s;
     created := created s |}.

Definition set_created (v : list string) (s : State) : State :=
  {| temp_dir := temp_dir s; source_dir := source_dir s; compiler_type := compiler_type s;
     compiler_path := compiler_path s; arch_detected := arch_detected s;
     comp_command := comp_command s; stdin := stdin s; log := log s;
     created := v |}.

(** ** The monad *)

Definition M (A : Type) : Type := State -> Result A * State.

Definition ret {A} (a : A) : M A := fun s => (Ok a, s).

Definition raise {A} (e : exn) : M A := fun s => (Raise e, s).

Definition bind {A B} (m : M A) (f : A -> M B) : M B :=
  fun s =>
    match m s with
    | (Ok a, s') => f a s'
    | (Raise e, s') => (Raise e, s')
    end.

Notation "x <- m ;; k" := (bind m (fun x => k))
  (at level 61, m at next level, right associativity).
Notation "m ;; k" := (bind m (fun _ => k))
  (at level 61, right associativity).

(** [try: body  except Exception as e: handler(e)] *)
Definition try_except {A} (body : M A) (handler : exn -> M A) : M A :=
  fun s =>
    match body s with
    | (Ok a, s') => (Ok a, s')
    | (Raise e, s') => if is_Exception e then handler e s' else (Raise e, s')
    end.

Definition get {A} (f : State -> A) : M A := fun s => (Ok (f s), s).

Definition modify (f : State -> State) : M unit := fun s => (Ok tt, f s).

Definition print (text : string) : M unit := modify (emit (Print text)).

Definition event (ev : Event) : M unit := modify (emit ev).

(** [input(prompt)] *)
Definition input (prompt : string) : M string :=
  fun s =>
    match stdin s with
    | [] => (Raise EOFError, emit (Input prompt None) s)
    | Line text :: rest =>
        (Ok text, emit (Input prompt (Some (Line text))) (set_stdin rest s))
    | CtrlC :: rest =>
        (Raise KeyboardInterrupt, emit (Input prompt (Some CtrlC)) (set_stdin rest s))
    end.

(** One turn of a [while True] menu: the line read is accepted, and the
    loop is left through [leave], or it is refused, with or without a
    message, and the prompt comes again. *)
Inductive Turn (A : Type) : Type :=
| Accept (leave : M A)
| Refuse (message : option string).
Arguments Accept {A} leave.
Arguments Refuse {A} message.

(** [while True: choice = input(prompt).strip(); ...] over the keystrokes
    [keys] that remain. *)
Fixpoint prompt_loop {A} (prompt : string) (turn : string -> Turn A)
    (keys : list Key) (s : State) : Result A * State :=
  match keys with
  | [] => (Raise EOFError, emit (Input prompt None) s)
  | CtrlC :: rest =>
      (Raise KeyboardInterrupt, emit (Input prompt (Some CtrlC)) (set_stdin rest s))
  | Line text :: rest =>
      let s1 := emit (Input prompt (Some (Line text))) (set_stdin rest s) in
      match turn (Py.strip text) with
      | Accept leave => leave s1
      | Refuse None => prompt_loop prompt turn rest s1
      | Refuse (Some msg) => prompt_loop prompt turn rest (emit (Print msg) s1)
      end
  end.

Definition menu {A} (prompt : string) (turn : string -> Turn A) : M A :=
  fun s => prompt_loop prompt turn (stdin s) s.

(** [for x in xs: acc = body(x, acc)] *)
Fixpoint for_each {A B} (xs : list A) (body : A -> B -> M B) (acc : B) : M B :=
  match xs with
  | [] => ret acc
  | x :: rest => acc' <- body x acc ;; for_each rest body acc'
  end.

(** ** The methods of [StockfishCompiler] *)

Section Compiler.

Variable E : Env.

Definition is_windows : bool := String.eqb (system E) "Windows".

(** [platform.machine().lower()] *)
Definition machine : string := Py.lower (machine_raw E).

(** [p / c] *)
Definition joinpath (p c : string) : string := p ++ sep E ++ c.

Notation "p // c" := (joinpath p c) (at level 40, left associativity).

Fixpoint cut_component (sep_char : ascii) (reversed : string) : option string :=
  match reversed with
  | EmptyString => None
  | String c rest =>
      if Ascii.eqb c sep_char then Some rest else cut_component sep_char rest
  end.

(** [p.parent], for a path of at least two components. *)
Definition parent (p : string) : string :=
  match sep E with
  | String sep_char EmptyString =>
      match cut_component sep_char (Py.rev_string p EmptyString) with
      | Some r => Py.rev_string r EmptyString
      | None => "."
      end
  | _ => "."
  end.

Definition opt_str_eqb (a b : option string) : bool :=
  match a, b with
  | Some x, Some y => String.eqb x y
  | None, None => true
  | _, _ => false
  end.

Definition run_process (argv : list string) : M Proc :=
  event (Spawn argv) ;; ret (subprocess_run E argv).

Definition clear_screen : M unit := event Clear.

Definition rule (c : string) : string :=
  String.concat "" (repeat c 70).

Definition print_header (text : string) : M unit :=
  print (rule "=") ;; print ("  " ++ text) ;; print (rule "=").

Definition print_section (text : string) : M unit :=
  print (rule "-") ;; print ("  " ++ text) ;; print (rule "-").

(** [find_make_executable] *)
Definition find_make_executable (s : State) : string :=
  if negb (Py.truthy (compiler_path s)) || negb is_windows then "make"
  else
    match compiler_path s with
    | None => "make"
    | Some compiler_path =>
        let make_exe := compiler_path // "make.exe" in
        if path_exists E make_exe then make_exe
        else
          let mingw_make := compiler_path // "mingw32-make.exe" in
          if path_exists E mingw_make then mingw_make
          else
            let msys2_root := parent (parent compiler_path) in
            let msys_make := msys2_root // "usr" // "bin" // "make.exe" in
            if path_exists E msys_make then msys_make
            else "make"
    end.

(** [find_msys2_installations] *)
Definition find_msys2_installations : list string :=
  let drives := ["C:"; "D:"; "E:"; "F:"] in
  let msys_names := ["msys64"; "msys2"] in
  (filter (path_exists E)
     (flat_map (fun drive => map (fun msys_name => drive // msys_name) msys_names) drives)
   ++ filter (path_exists E)
     (map (fun msys_name => home E // msys_name) msys_names))%list.

(** [check_compiler_in_path] *)
Definition check_compiler_in_path (compiler_path compiler_name : string)
  : M (option Candidate) :=
  let exe_name :=
    (compiler_name ++ "++") ++ (if is_windows then ".exe" else "") in
  let compiler_exe := compiler_path // exe_name in
  if path_exists E compiler_exe then
    result <- run_process [compiler_exe; "--version"] ;;
    match result with
    | Completed returncode stdout _ =>
        if (returncode =? 0)%Z then
          let version := Py.first_line stdout in
          let comp_type := if String.eqb compiler_name "g" then "gcc" else "clang" in
          let display_name :=
            if String.eqb comp_type "gcc" then "MinGW GCC" else "Clang/LLVM" in
          ret (Some {| c_type := comp_type; c_name := display_name;
                       c_version := version; c_path := Some compiler_path |})
        else ret None
    | Failed _ => ret None
    end
  else ret None.

(** The four search-path blocks of [detect_compiler]:
    [if shutil.which(exe): try: ... compilers.append((ty, display, version, None))]. *)
Definition check_search_path (exe ty display found : string)
    (compilers : list Candidate) : M (list Candidate) :=
  if Py.truthy (which E exe) then
    result <- run_process [exe; "--version"] ;;
    match result with
    | Completed returncode stdout _ =>
        if (returncode =? 0)%Z then
          let version := Py.first_line stdout in
          print (found ++ version) ;;
          ret (compilers ++ [{| c_type := ty; c_name := display;
                                c_version := version; c_path := None |}])%list
        else ret compilers
    | Failed _ => ret compilers
    end
  else ret compilers.

(** One sub-environment of an MSYS2 root in the automatic scan. *)
Definition scan_subenv (msys2_path subdir compiler_name found : string)
    (compilers : list Candidate) : M (list Candidate) :=
  let bin := msys2_path // subdir // "bin" in
  if path_exists E bin then
    comp_info <- check_compiler_in_path bin compiler_name ;;
    match comp_info with
    | Some ci =>
        if negb (existsb (fun c => opt_str_eqb (c_path c) (c_path ci)) compilers)
        then print (found ++ c_version ci) ;; ret (compilers ++ [ci])%list
        else ret compilers
    | None => ret compilers
    end
  else ret compilers.

Definition scan_install (msys2_path : string) (compilers : list Candidate)
  : M (list Candidate) :=
  print ("  Checking: " ++ msys2_path) ;;
  compilers <- scan_subenv msys2_path "mingw64" "g" "    ✓ Found MinGW64 GCC: " compilers ;;
  compilers <- scan_subenv msys2_path "ucrt64" "g" "    ✓ Found UCRT64 GCC: " compilers ;;
  scan_subenv msys2_path "clang64" "clang" "    ✓ Found Clang64: " compilers.

(** The automatic part of [detect_compiler] (up to [if not compilers]). *)
Definition locate : M (list Candidate) :=
  if is_windows then
    compilers <- check_search_path "g++" "gcc" "MinGW GCC" "✓ Found in PATH: " [] ;;
    compilers <- check_search_path "clang++" "clang" "Clang/LLVM" "✓ Found in PATH: " compilers ;;
    print "Searching for MSYS2 installations..." ;;
    for_each find_msys2_installations scan_install compilers
  else
    compilers <- check_search_path "g++" "gcc" "GCC" "✓ Found: " [] ;;
    check_search_path "clang++" "clang" "Clang" "✓ Found: " compilers.

(** One sub-directory of the manually given MSYS2 root. *)
Definition manual_subdir (msys2_path subdir : string) (compilers : list Candidate)
  : M (list Candidate) :=
  let bin_path := msys2_path // subdir // "bin" in
  if path_exists E bin_path then
    comp_info <-
      check_compiler_in_path bin_path
        (if negb (String.eqb subdir "clang64") then "g" else "clang") ;;
    match comp_info with
    | Some ci =>
        print ("  ✓ Found in " ++ subdir ++ ": " ++ c_version ci) ;;
        ret (compilers ++ [ci])%list
    | None => ret compilers
    end
  else ret compilers.

(** The [if not compilers:] block; [None] is its [return None]. *)
Definition manual_override : M (option (list Candidate)) :=
  print "✗ No suitable C++ compiler found automatically." ;;
  if is_windows then
    print "Would you like to manually specify the MSYS2 location?" ;;
    choice <- input "Enter 'y' to specify path, or 'n' to exit: " ;;
    if String.eqb (Py.lower (Py.strip choice)) "y" then
      manual_path <- input "Enter MSYS2 installation path (e.g., D:\msys2): " ;;
      let msys2_path := Py.strip manual_path in
      if negb (path_exists E msys2_path) then
        print ("✗ Path not found: " ++ msys2_path) ;; ret None
      else
        print ("Searching in: " ++ msys2_path) ;;
        compilers <- for_each ["mingw64"; "ucrt64"; "clang64"]
                       (manual_subdir msys2_path) [] ;;
        match compilers with
        | [] => print "✗ No compilers found in specified path." ;; ret None
        | _ => ret (Some compilers)
        end
    else ret None
  else
    print "Please install one of the following:" ;;
    print "  - GCC (g++)" ;;
    print "  - Clang (clang++)" ;;
    ret None.

(** The value of [self.comp_command] for a compiler kind. *)
Definition comp_tag (ty : string) : string :=
  if is_windows && String.eqb ty "gcc" then "mingw" else ty.

(** The three assignments and the report shared by the single-candidate
    branch and the menu branch. *)
Definition select_compiler (label : string) (c : Candidate) : M (option string) :=
  modify (set_compiler (Some (c_type c)) (c_path c) (Some (comp_tag (c_type c)))) ;;
  print (label ++ c_name c) ;;
  (if Py.truthy (c_path c)
   then print ("Location: " ++ match c_path c with Some p => p | None => "" end)
   else ret tt) ;;
  ret (Some (c_type c)).

Definition compiler_turn (compilers : list Candidate) (choice : string)
  : Turn (option string) :=
  match Py.int choice with
  | None => Refuse (Some "Invalid selection. Please try again.")
  | Some n =>
      let idx := (n - 1)%Z in
      if ((0 <=? idx) && (idx <? Z.of_nat (length compilers)))%Z then
        match nth_error compilers (Z.to_nat idx) with
        | Some c => Accept (select_compiler "Selected: " c)
        | None => Refuse (Some "Invalid selection. Please try again.")
        end
      else Refuse None
  end.

Definition list_compiler (ic : nat * Candidate) : M unit :=
  let (i, c) := ic in
  print ("  " ++ Py.str_nat i ++ ". " ++ c_name c) ;;
  print ("     " ++ c_version c) ;;
  if Py.truthy (c_path c)
  then print ("     Location: " ++ match c_path c with Some p => p | None => "" end)
  else ret tt.

(** The part of [detect_compiler] after a non-empty candidate list. *)
Definition choose_compiler (compilers : list Candidate) : M (option string) :=
  match compilers with
  | [c] => select_compiler "Using: " c
  | _ =>
      print "Multiple compilers detected:" ;;
      for_each (combine (seq 1 (length compilers)) compilers)
        (fun ic _ => list_compiler ic) tt ;;
      menu ("Select compiler (1-" ++ Py.str_nat (length compilers) ++ "): ")
        (compiler_turn compilers)
  end.

(** The candidate list [detect_compiler] goes on with; [None] when it
    returns [None] for lack of a compiler. *)
Definition find_candidates : M (option (list Candidate)) :=
  compilers <- locate ;;
  match compilers with
  | [] => manual_override
  | _ => ret (Some compilers)
  end.

(** [detect_compiler] *)
Definition detect_compiler : M (option string) :=
  print_header "Detecting Compiler" ;;
  found <- find_candidates ;;
  match found with
  | None => ret None
  | Some compilers => choose_compiler compilers
  end.

(** *** Architecture detection *)

(** A feature of the GCC target-help dump: the option is mentioned and some
    option is enabled. *)
Definition gcc_flag (token output : string) : bool :=
  Py.contains token output && Py.contains "[enabled]" output.

(** [bool([line for line in output.split('\n') if 'march' in line and 'znver' in line])] *)
Definition gcc_is_zen (output : string) : bool :=
  match filter (fun line => Py.contains "march" line && Py.contains "znver" line)
               (Py.split_lines output) with
  | [] => false
  | _ :: _ => true
  end.

(** ['znver1' in output or 'znver2' in output] *)
Definition clang_is_zen (output : string) : bool :=
  Py.contains "znver1" output || Py.contains "znver2" output.

(** The [if]/[elif] chain of the GCC branch: the line it prints, if any,
    and the value it leaves in [arch]. *)
Definition gcc_chain (output : string) : option string * string :=
  let is_zen := gcc_is_zen output in
  let has_bmi2 := gcc_flag "mbmi2" output in
  let has_avx2 := gcc_flag "mavx2" output in
  let has_avx512f := gcc_flag "mavx512f" output in
  let has_avx512vnni := gcc_flag "mavx512vnni" output in
  let has_popcnt := gcc_flag "mpopcnt" output in
  let has_sse41 := gcc_flag "msse4.1" output in
  if has_avx512vnni then (Some "  ✓ AVX-512 VNNI", "x86-64-vnni256")
  else if has_avx512f then (Some "  ✓ AVX-512", "x86-64-avx512")
  else if has_bmi2 && negb is_zen then (Some "  ✓ BMI2", "x86-64-bmi2")
  else if has_avx2 then (Some "  ✓ AVX2", "x86-64-avx2")
  else if has_sse41 && has_popcnt then (Some "  ✓ SSE4.1 + POPCNT", "x86-64-sse41-popcnt")
  else (None, "x86-64").

(** The [if]/[elif] chain of the Clang branch. *)
Definition clang_chain (output : string) : option string * string :=
  let has_avx512vnni := Py.contains "+avx512vnni" output in
  let has_avx512f := Py.contains "+avx512f" output in
  let has_avx512bw := Py.contains "+avx512bw" output in
  let has_bmi2 := Py.contains "+bmi2" output in
  let has_avx2 := Py.contains "+avx2" output in
  let has_sse41 := Py.contains "+sse4.1" output in
  let has_popcnt := Py.contains "+popcnt" output in
  let is_zen := clang_is_zen output in
  if has_avx512vnni && has_avx512f && has_avx512bw
  then (Some "  ✓ AVX-512 VNNI", "x86-64-vnni256")
  else if has_avx512f && has_avx512bw then (Some "  ✓ AVX-512", "x86-64-avx512")
  else if has_bmi2 && negb is_zen then (Some "  ✓ BMI2", "x86-64-bmi2")
  else if has_avx2 then (Some "  ✓ AVX2", "x86-64-avx2")
  else if has_sse41 && has_popcnt then (Some "  ✓ SSE4.1 + POPCNT", "x86-64-sse41-popcnt")
  else (None, "x86-64").

Definition report_chain (chosen : option string * string) : M string :=
  print "CPU Features Detected:" ;;
  match fst chosen with
  | Some line => print line
  | None => ret tt
  end ;;
  ret (snd chosen).

Definition is_kind (kind : string) (ty : option string) : bool :=
  match ty with
  | Some t => String.eqb t kind
  | None => false
  end.

(** The executable the probe runs, [None] when no kind is selected. *)
Definition compiler_exe (s : State) : option string :=
  if is_kind "gcc" (compiler_type s) then
    if Py.truthy (compiler_path s)
    then option_map (fun p => p // (if is_windows then "g++.exe" else "g++")) (compiler_path s)
    else Some "g++"
  else if is_kind "clang" (compiler_type s) then
    if Py.truthy (compiler_path s)
    then option_map (fun p => p // (if is_windows then "clang++.exe" else "clang++")) (compiler_path s)
    else Some "clang++"
  else None.

(** The body of the [try] of [detect_architecture]; its value is what the
    local [arch] holds at the end. *)
Definition probe_architecture : M string :=
  exe <- get compiler_exe ;;
  ty <- get compiler_type ;;
  match exe with
  | None => raise (Error "No compiler executable determined")
  | Some compiler_exe =>
      if is_kind "gcc" ty then
        result <- run_process [compiler_exe; "-Q"; "-march=native"; "--help=target"] ;;
        match result with
        | Failed msg => raise (Error msg)
        | Completed returncode stdout _ =>
            if (returncode =? 0)%Z
            then report_chain (gcc_chain (Py.lower stdout))
            else ret "x86-64"
        end
      else if is_kind "clang" ty then
        result <- run_process [compiler_exe; "-E"; "-"; "-march=native"; "-###"] ;;
        match result with
        | Failed msg => raise (Error msg)
        | Completed _ _ stderr => report_chain (clang_chain (Py.lower stderr))
        end
      else ret "x86-64"
  end.

Definition show_opt (o : option string) : string :=
  match o with
  | Some v => v
  | None => "None"
  end.

(** The [except Exception as e] block of [detect_architecture]; [arch] still
    holds its initial value. *)
Definition probe_failed (e : exn) : M string :=
  ty <- get compiler_type ;;
  path <- get compiler_path ;;
  print ("Note: Could not auto-detect CPU features using " ++ show_opt ty) ;;
  print ("Reason: " ++ exn_str e) ;;
  (if Py.truthy path then print ("Compiler path used: " ++ show_opt path)
   else print "Using compiler from system PATH") ;;
  print "Using generic x86-64 architecture" ;;
  (if Py.contains "The system cannot find the file specified" (exn_str e) then
     print "Troubleshooting:" ;;
     print "- Ensure the compiler is properly installed" ;;
     if is_windows then
       print "- If using MSYS2, make sure the mingw64/bin directory contains g++.exe" ;;
       print "- Try running the compiler manually to verify it works"
     else ret tt
   else ret tt) ;;
  ret "x86-64".

Definition detected (line arch : string) : M string :=
  print line ;; modify (set_arch_detected (Some arch)) ;; ret arch.

(** [detect_architecture] *)
Definition detect_architecture : M string :=
  print_header "Detecting CPU Architecture" ;;
  print ("System: " ++ system E) ;;
  print ("Machine: " ++ machine) ;;
  if Py.contains "arm" machine || Py.contains "aarch64" machine then
    if String.eqb (system E) "Darwin" then detected "Detected: Apple Silicon" "apple-silicon"
    else if Py.contains "aarch64" machine || Py.contains "arm64" machine
    then detected "Detected: ARMv8 64-bit" "armv8"
    else detected "Detected: ARMv7 32-bit" "armv7"
  else
    arch <- try_except probe_architecture probe_failed ;;
    detected ("Optimal Architecture: " ++ arch) arch.

Definition archs : list (string * string) :=
  [ ("x86-64-vnni512", "x86 64-bit with VNNI 512-bit (Intel Sapphire Rapids+, AMD Zen 4+)");
    ("x86-64-vnni256", "x86 64-bit with VNNI 256-bit (Intel Cascade Lake+)");
    ("x86-64-avx512", "x86 64-bit with AVX-512 (Intel Skylake-X+)");
    ("x86-64-bmi2", "x86 64-bit with BMI2 (Intel Haswell+, NOT AMD Zen 1/2)");
    ("x86-64-avx2", "x86 64-bit with AVX2 (Intel Haswell+, AMD Zen+)");
    ("x86-64-sse41-popcnt", "x86 64-bit with SSE4.1 + POPCNT (Intel Nehalem+)");
    ("x86-64", "x86 64-bit generic (maximum compatibility)");
    ("x86-32", "x86 32-bit generic");
    ("armv8", "ARMv8 64-bit");
    ("armv7", "ARMv7 32-bit");
    ("apple-silicon", "Apple Silicon (M1/M2/M3)") ].

Definition arch_turn (choice : string) : Turn string :=
  match Py.int choice with
  | None => Refuse (Some "Invalid selection. Please try again.")
  | Some n =>
      let idx := (n - 1)%Z in
      if ((0 <=? idx) && (idx <? Z.of_nat (length archs)))%Z then
        match nth_error archs (Z.to_nat idx) with
        | Some (selected, _) => Accept (print ("Selected: " ++ selected) ;; ret selected)
        | None => Refuse (Some "Invalid selection. Please try again.")
        end
      else Refuse None
  end.

(** [manual_architecture_selection] *)
Definition manual_architecture_selection : M string :=
  clear_screen ;;
  print_header "Manual Architecture Selection" ;;
  print "Available architectures:" ;;
  for_each (combine (seq 1 (length archs)) archs)
    (fun entry _ =>
       print ("  " ++ Py.str_nat (fst entry) ++ ". " ++ fst (snd entry)
                   ++ " - " ++ snd (snd entry))) tt ;;
  menu ("Select architecture (1-" ++ Py.str_nat (length archs) ++ "): ") arch_turn.

Definition architecture_turn (auto_arch choice : string) : Turn string :=
  if String.eqb choice "1" then Accept (ret auto_arch)
  else if String.eqb choice "2" then Accept manual_architecture_selection
  else Refuse (Some "Invalid choice. Please enter 1 or 2.").

(** [choose_architecture] *)
Definition choose_architecture : M string :=
  print_section "Architecture Selection" ;;
  detected_arch <- get arch_detected ;;
  let auto_arch := if Py.truthy detected_arch then show_opt detected_arch else "x86-64" in
  print ("Auto-detected architecture: " ++ auto_arch) ;;
  print "Options:" ;;
  print "  1. Use auto-detected architecture (recommended)" ;;
  print "  2. Choose different architecture" ;;
  menu "Your choice (1-2): " (architecture_turn auto_arch).

(** *** Source version *)

Definition master : SourceInfo :=
  {| url := "https://github.com/official-stockfish/Stockfish/archive/refs/heads/master.zip";
     version := "master"; name := None |}.

(** [get_latest_release] *)
Definition get_latest_release : M (option SourceInfo) :=
  try_except
    (print "Fetching latest release information..." ;;
     match latest_release E with
     | Threw msg => raise (Error msg)
     | Returned data =>
         let tag := match tag_name data with Some t => t | None => "unknown" end in
         if Py.truthy (zipball_url data) then
           print ("Latest release: " ++ tag) ;;
           ret (Some {| url := show_opt (zipball_url data); version := tag;
                        name := Some (match release_name data with
                                      | Some n => n
                                      | None => tag
                                      end) |})
         else ret None
     end)
    (fun e => print ("Error fetching release info: " ++ exn_str e) ;; ret None).

Definition version_turn (choice : string) : Turn (string * SourceInfo) :=
  if String.eqb choice "1" then
    Accept (release_info <- get_latest_release ;;
            match release_info with
            | Some info => ret ("release", info)
            | None =>
                print "Couldn't fetch release info. Using development version." ;;
                ret ("dev", master)
            end)
  else if String.eqb choice "2" then Accept (ret ("dev", master))
  else Refuse (Some "Invalid choice. Please enter 1 or 2.").

(** [choose_source_version] *)
Definition choose_source_version : M (string * SourceInfo) :=
  print_section "Source Version Selection" ;;
  print "Choose Stockfish version to compile:" ;;
  print "  1. Latest stable release (recommended for most users)" ;;
  print "  2. Development version (latest features, may be unstable)" ;;
  menu "Your choice (1-2): " version_turn.

(** *** The build pipeline *)

Definition on_disk (dir : string) (s : State) : bool :=
  existsb (String.eqb dir) (created s).

Definition remove_dir (dir : string) (s : State) : State :=
  set_created (filter (fun d => negb (String.eqb dir d)) (created s)) s.

(** The body of the [try] of [download_source]. *)
Definition fetch_and_extract (source_info : SourceInfo) (temp_dir : string)
  : M (option string) :=
  let zip_path := temp_dir // "stockfish.zip" in
  print ("Downloading from: " ++ url source_info) ;;
  print "Please wait..." ;;
  event (Fetch (url source_info) zip_path) ;;
  match urlretrieve E (url source_info) zip_path with
  | Some msg => raise (Error msg)
  | None =>
      print "✓ Download complete" ;;
      print "Extracting source code..." ;;
      event (Unzip zip_path temp_dir) ;;
      match extractall E zip_path temp_dir with
      | Threw msg => raise (Error msg)
      | Returned extracted_dirs =>
          match extracted_dirs with
          | [] => raise (Error "Could not find extracted source directory")
          | first :: _ =>
              let source_dir := first // "src" in
              modify (set_source_dir (Some source_dir)) ;;
              if negb (path_exists E source_dir)
              then raise (Error ("Source directory not found: " ++ source_dir))
              else
                print ("✓ Source extracted to: " ++ source_dir) ;;
                ret (Some source_dir)
          end
      end
  end.

(** [download_source] *)
Definition download_source (source_info : SourceInfo) : M (option string) :=
  print_header ("Downloading Stockfish " ++ version source_info) ;;
  match mkdtemp E with
  | Threw msg => raise (Error msg)
  | Returned dir =>
      event (Mkdtemp dir) ;;
      modify (fun s => set_temp_dir (Some dir) (set_created (dir :: created s) s)) ;;
      print ("Build directory: " ++ dir) ;;
      try_except (fetch_and_extract source_info dir)
        (fun e => print ("✗ Error downloading source: " ++ exn_str e) ;; ret None)
  end.

Definition continue_anyway : M bool :=
  choice <- input "Continue anyway? (y/n): " ;;
  ret (String.eqb (Py.lower (Py.strip choice)) "y").

(** [download_neural_network] *)
Definition download_neural_network : M bool :=
  print_section "Downloading Neural Network" ;;
  try_except
    (print "Downloading NNUE network file..." ;;
     make_cmd <- get find_make_executable ;;
     print ("Using make command: " ++ make_cmd) ;;
     result <- run_process [make_cmd; "net"] ;;
     match result with
     | Failed msg => raise (Error msg)
     | Completed returncode _ stderr =>
         if (returncode =? 0)%Z then
           print "✓ Neural network downloaded successfully" ;; ret true
         else
           print "Warning: Could not download network file" ;;
           print ("Error: " ++ stderr) ;;
           print "The compilation will continue, but you may need to download" ;;
           print "the network file manually later." ;;
           continue_anyway
     end)
    (fun e =>
       print ("Error downloading network: " ++ exn_str e) ;;
       path <- get compiler_path ;;
       (if is_windows && Py.contains "cannot find the file specified" (exn_str e) then
          print "Troubleshooting:" ;;
          print "- Make sure 'make' or 'mingw32-make' is available in your MSYS2 installation" ;;
          print "- You can install it with: pacman -S make mingw-w64-x86_64-toolchain" ;;
          if Py.truthy path then print ("- Checked compiler path: " ++ show_opt path)
          else ret tt
        else ret tt) ;;
       continue_anyway).

(** The [PATH] reports of [compile_stockfish]. *)
Definition report_build_path (make_cmd : string) : M unit :=
  path <- get compiler_path ;;
  if Py.truthy path && is_windows then
    print ("Added to PATH: " ++ show_opt path) ;;
    let msys_bin := parent (parent (show_opt path)) // "usr" // "bin" in
    (if path_exists E msys_bin then print ("Added MSYS2 tools to PATH: " ++ msys_bin)
     else ret tt) ;;
    print ("Using make: " ++ make_cmd)
  else ret tt.

(** [compile_stockfish] *)
Definition compile_stockfish (arch : string) : M bool :=
  print_header "Compiling Stockfish" ;;
  print ("Architecture: " ++ arch) ;;
  comp <- get comp_command ;;
  path <- get compiler_path ;;
  print ("Compiler: " ++ show_opt comp) ;;
  (if Py.truthy path then print ("Compiler Location: " ++ show_opt path) else ret tt) ;;
  print "This may take several minutes..." ;;
  print (rule "=") ;;
  try_except
    (make_cmd <- get find_make_executable ;;
     report_build_path make_cmd ;;
     let jobs := cpu_count E in
     let make_cmd_args :=
       [make_cmd; "-j" ++ Py.str_nat jobs; "profile-build";
        "ARCH=" ++ arch; "COMP=" ++ show_opt comp] in
     print ("Running: " ++ String.concat " " make_cmd_args) ;;
     process <- run_process make_cmd_args ;;
     match process with
     | Failed msg => raise (Error msg)
     | Completed returncode stdout _ =>
         event (Echo stdout) ;;
         if (returncode =? 0)%Z then
           print (rule "=") ;; print "✓ Compilation successful!" ;; ret true
         else
           print (rule "=") ;; print "✗ Compilation failed!" ;; ret false
     end)
    (fun e => print ("✗ Compilation error: " ++ exn_str e) ;; ret false).

(** [strip_executable] *)
Definition strip_executable : M bool :=
  print_section "Optimizing Executable" ;;
  try_except
    (print "Stripping debug symbols..." ;;
     make_cmd <- get find_make_executable ;;
     comp <- get comp_command ;;
     result <- run_process [make_cmd; "strip"; "COMP=" ++ show_opt comp] ;;
     match result with
     | Failed msg => raise (Error msg)
     | Completed returncode _ _ =>
         if (returncode =? 0)%Z then print "✓ Executable optimized" ;; ret true
         else print "Note: Could not strip executable (not critical)" ;; ret true
     end)
    (fun e => print ("Note: Strip failed: " ++ exn_str e ++ " (not critical)") ;; ret true).

Definition exe_name : string := if is_windows then "stockfish.exe" else "stockfish".

(** [copy_executable] *)
Definition copy_executable (arch version : string) : M (option string) :=
  print_section "Copying Executable" ;;
  try_except
    (src <- get source_dir ;;
     match src with
     | None => print "✗ Source directory not available" ;; ret None
     | Some source_dir =>
         let source_exe := source_dir // exe_name in
         if negb (path_exists E source_exe) then
           print ("✗ Could not find executable: " ++ source_exe) ;; ret None
         else
           let output_name :=
             "stockfish_" ++ version ++ "_" ++ arch ++ (if is_windows then ".exe" else "") in
           let output_path := cwd E // output_name in
           event (Copy source_exe output_path) ;;
           match copy2 E source_exe output_path with
           | Some msg => raise (Error msg)
           | None =>
               (if negb is_windows then
                  event (Chmod output_path) ;;
                  match chmod E output_path with
                  | Some msg => raise (Error msg)
                  | None => ret tt
                  end
                else ret tt) ;;
               print ("✓ Executable saved to: " ++ output_path) ;;
               match stat_size E output_path with
               | Threw msg => raise (Error msg)
               | Returned _ => print "File size" ;; ret (Some output_path)
               end
           end
     end)
    (fun e => print ("✗ Error copying executable: " ++ exn_str e) ;; ret None).

(** [cleanup] *)
Definition cleanup : M unit :=
  dir <- get temp_dir ;;
  match dir with
  | None => ret tt
  | Some temp_dir =>
      exists_now <- get (on_disk temp_dir) ;;
      if exists_now then
        match rmtree E temp_dir with
        | None =>
            event (Rmtree temp_dir true) ;;
            modify (remove_dir temp_dir) ;;
            print "✓ Temporary files cleaned up"
        | Some msg =>
            event (Rmtree temp_dir false) ;;
            print ("Note: Could not clean up temp files: " ++ msg) ;;
            print ("You may want to manually delete: " ++ temp_dir)
        end
      else ret tt
  end.

(** Steps 7 to 10 of [run] and its final message. *)
Definition build_and_publish (arch : string) (source_info : SourceInfo) : M Z :=
  built <- compile_stockfish arch ;;
  if negb built then
    cleanup ;; input "Press Enter to exit..." ;; ret 1%Z
  else
    strip_executable ;;
    output_path <- copy_executable arch (version source_info) ;;
    cleanup ;;
    print_header "Compilation Complete!" ;;
    match output_path with
    | Some path =>
        print "Your optimized Stockfish executable is ready!" ;;
        print ("Location: " ++ path) ;;
        print ("Architecture: " ++ arch) ;;
        print ("Version: " ++ version source_info) ;;
        print (rule "=") ;;
        print "To use Stockfish:" ;;
        print ("  1. Run: " ++ path) ;;
        print "  2. Or use it with a chess GUI (e.g., Arena, ChessBase)" ;;
        print "For command-line use, type 'uci' then 'quit' to test."
    | None => ret tt
    end ;;
    input "Press Enter to exit..." ;;
    ret 0%Z.

(** Steps 5 and 6 of [run], then the build. *)
Definition acquire_and_build (arch : string) (source_info : SourceInfo) : M Z :=
  clear_screen ;;
  source <- download_source source_info ;;
  match source with
  | None => input "Press Enter to exit..." ;; ret 1%Z
  | Some _ =>
      input "Press Enter to continue..." ;;
      clear_screen ;;
      net <- download_neural_network ;;
      if negb net then
        cleanup ;; input "Press Enter to exit..." ;; ret 1%Z
      else
        input "Press Enter to start compilation..." ;;
        clear_screen ;;
        build_and_publish arch source_info
  end.

(** Steps 2 to 4 of [run], then the rest. *)
Definition configure_and_build : M Z :=
  input "Press Enter to continue..." ;;
  clear_screen ;;
  detect_architecture ;;
  input "Press Enter to continue..." ;;
  clear_screen ;;
  arch <- choose_architecture ;;
  clear_screen ;;
  chosen <- choose_source_version ;;
  acquire_and_build arch (snd chosen).

(** The greeting of [run], up to the call of [detect_compiler]. *)
Definition greet : M unit :=
  clear_screen ;;
  print_header "Universal Stockfish Compiler" ;;
  print "This tool will automatically detect your system and compile" ;;
  print "Stockfish chess engine optimized for your CPU." ;;
  input "Press Enter to begin..." ;;
  clear_screen.

(** [run] *)
Definition run : M Z :=
  greet ;;
  compiler <- detect_compiler ;;
  if negb (Py.truthy compiler) then
    input "Press Enter to exit..." ;; ret 1%Z
  else configure_and_build.

(** [main]: [run] on a fresh [StockfishCompiler], inside the two handlers. *)
Definition main (keys : list Key) : Result Z * State :=
  match run (init keys) with
  | (Ok status, s) => (Ok status, s)
  | (Raise KeyboardInterrupt, s) =>
      (print "Operation cancelled by user." ;; ret 1%Z) s
  | (Raise e, s) =>
      (print ("Unexpected error: " ++ exn_str e) ;;
       input "Press Enter to exit..." ;;
       ret 1%Z) s
  end.

End Compiler.

(** ** Notions used by the statements *)

(** The tiers automatic detection can produce. *)
Definition auto_tiers : list string :=
  ["apple-silicon"; "armv8"; "armv7"; "x86-64-vnni256"; "x86-64-avx512";
   "x86-64-bmi2"; "x86-64-avx2"; "x86-64-sse41-popcnt"; "x86-64"].

(** The host machine is of the ARM family. *)
Definition is_arm (E : Env) : bool :=
  Py.contains "arm" (machine E) || Py.contains "aarch64" (machine E).

(** [s] with [prefix] removed from its front. *)
Fixpoint strip_prefix (prefix s : string) : option string :=
  match prefix, s with
  | EmptyString, _ => Some s
  | String a p, String b t => if Ascii.eqb a b then strip_prefix p t else None
  | String _ _, EmptyString => None
  end.

(** The values of the [COMP=] parameters of a command line. *)
Definition comp_params (argv : list string) : list string :=
  flat_map (fun arg => match strip_prefix "COMP=" arg with
                       | Some tag => [tag]
                       | None => []
                       end) (tl argv).

(** The install roots recorded in a candidate list. *)
Definition roots (compilers : list Candidate) : list string :=
  flat_map (fun c => match c_path c with
                     | Some p => [p]
                     | None => []
                     end) compilers.

(** A prompt that was not answered with a line: Ctrl-C, or end of input. *)
Definition bad_key (k : option Key) : bool :=
  match k with
  | Some (Line _) => false
  | _ => true
  end.

Definition bad_input (l : list Event) : Prop :=
  exists p k, In (Input p k) l /\ bad_key k = true.

(** Events a step may add: a [COMP=] parameter only with the tag [tag],
    directory creation and removal only when [staging] is set. *)
Definition ev_ok (tag : option string) (staging : bool) (ev : Event) : Prop :=
  match ev with
  | Spawn argv => Forall (fun c => Some c = tag) (comp_params argv)
  | Mkdtemp _ | Rmtree _ _ => staging = true
  | _ => True
  end.

(** A frame: what a step keeps ([view]), for which states ([pre]), and which
    events it may add to the log ([okev]). *)
Record Frame : Type := {
  V : Type;
  view : State -> V;
  pre : V -> Prop;
  okev : Event -> Prop
}.

Definition frame_ok (F : Frame) : Prop :=
  forall ev s, view F (emit ev s) = view F s.

Definition frame_io (F : Frame) : Prop :=
  (forall k s, view F (set_stdin k s) = view F s) /\
  (forall p k, okev F (Input p k)).

(** [m] respects the frame [F]; when it raises a [KeyboardInterrupt], or any
    exception at all if [strict], a prompt went unanswered. *)
Definition framed (F : Frame) (strict : bool) {A} (m : M A) : Prop :=
  forall s, pre F (view F s) ->
    view F (snd (m s)) = view F s /\
    (exists evs, log (snd (m s)) = (evs ++ log s)%list /\ Forall (okev F) evs) /\
    (forall e, fst (m s) = Raise e ->
               strict = true \/ is_Exception e = false ->
               bad_input (log (snd (m s)))).

(** [m] can only return values that satisfy [Q]. *)
Definition returns {A} (m : M A) (Q : A -> Prop) : Prop :=
  forall s a, fst (m s) = Ok a -> Q a.

(** When [m] returns, value and final state satisfy [Q]. *)
Definition post {A} (m : M A) (Q : A -> State -> Prop) : Prop :=
  forall s a s', m s = (Ok a, s') -> Q a s'.

(** [m] always returns. *)
Definition total {A} (m : M A) : Prop :=
  forall s, exists a, fst (m s) = Ok a.

Definition compiler_view (s : State) : option string * option string * option string :=
  (compiler_type s, compiler_path s, comp_command s).

Definition staging_view (s : State) : option string * list string :=
  (temp_dir s, created s).

(** Nothing is created or removed, no [COMP=] is passed; compiler and
    staging fields stay. *)
Definition F_quiet : Frame :=
  {| view := fun s => (compiler_view s, staging_view s);
     pre := fun _ => True;
     okev := ev_ok None false |}.

(** As [F_quiet], for the compiler fields may change. *)
Definition F_locate : Frame :=
  {| view := staging_view;
     pre := fun _ => True;
     okev := ev_ok None false |}.

(** The steps after compiler selection: the compiler fields stay, [COMP=]
    carries the tag [t]. *)
Definition F_build (t : string) : Frame :=
  {| view := compiler_view;
     pre := fun v => show_opt (snd v) = t;
     okev := ev_ok (Some t) true |}.

(** As [F_quiet], but a [COMP=] parameter may carry the tag [t]. *)
Definition F_tag (t : string) : Frame :=
  {| view := fun s => (compiler_view s, staging_view s);
     pre := fun v => show_opt (snd (fst v)) = t;
     okev := ev_ok (Some t) false |}.

(** A candidate of one of the two known kinds. *)
Definition known_kind (ty : string) : Prop := ty = "gcc" \/ ty = "clang".

(** The compiler fields after a selection of kind [ty]. *)
Definition selected (E : Env) (ty : string) (s : State) : Prop :=
  known_kind ty /\ compiler_type s = Some ty /\
  comp_command s = Some (comp_tag E ty).

(** A candidate list of known kinds that records no install root twice. *)
Definition good_list (l : list Candidate) : Prop :=
  NoDup (roots l) /\ Forall (fun c => known_kind (c_type c)) l.

(** Every [COMP=] parameter in the log carries the tag of the selected
    compiler; before a selection there is none. *)
Definition tagged (E : Env) (s : State) : Prop :=
  Forall (ev_ok None true) (log s) \/
  exists ty, selected E ty s /\ Forall (ev_ok (Some (comp_tag E ty)) true) (log s).

(** The source download reported a failure. *)
Definition download_failed (l : list Event) : Prop :=
  exists msg, In (Print ("✗ Error downloading source: " ++ msg)) l.

(** [d] is the only staging directory the log has seen created. *)
Definition only_staging (d : string) (l : list Event) : Prop :=
  forall d', In (Mkdtemp d') l -> d' = d.

(** No staging directory yet. *)
Definition unstaged (s : State) : Prop :=
  staging_view s = (None, []) /\ forall d, ~ In (Mkdtemp d) (log s).

(** The staging directory [d] is the one of the session, and on disk. *)
Definition staged (d : string) (s : State) : Prop :=
  temp_dir s = Some d /\ created s = [d] /\ only_staging d (log s).

(** After [cleanup]: [d] was removed, or its removal failed. *)
Definition cleaned (d : string) (s : State) : Prop :=
  only_staging d (log s) /\
  ((created s = [] /\ In (Rmtree d true) (log s)) \/
   (created s = [d] /\ In (Rmtree d false) (log s))).

(** A step that started with [d] staged ends cleaned, or a prompt went
    unanswered. *)
Definition ends_cleaned {A} (d : string) (out : Result A * State) : Prop :=
  match fst out with
  | Ok _ => cleaned d (snd out)
  | Raise _ => bad_input (log (snd out))
  end.

(** Every way a run can end, as far as staging directories go. *)
Definition accounted (s : State) : Prop :=
  unstaged s \/ bad_input (log s) \/ download_failed (log s) \/
  exists d, cleaned d s.

(** The x86 tiers of the two decision chains. *)
Definition x86_tiers : list string :=
  ["x86-64-vnni256"; "x86-64-avx512"; "x86-64-bmi2"; "x86-64-avx2";
   "x86-64-sse41-popcnt"; "x86-64"].

(** The value the local [arch] has after the [try] statement, given the
    outcome of its body. *)
Definition arch_after (probe : Result string) : string :=
  match probe with
  | Ok arch => arch
  | Raise _ => "x86-64"
  end.

(** A verdict on the build: one of the two failure reports of
    [compile_stockfish], or the success report of [run]. *)
Definition verdict (ev : Event) : Prop :=
  ev = Print "✗ Compilation failed!" \/
  (exists msg, ev = Print ("✗ Compilation error: " ++ msg)) \/
  ev = Print "Your optimized Stockfish executable is ready!".

(** The steps that say nothing about the outcome of the build, and neither
    read the console nor move the source directory. *)
Definition F_report : Frame :=
  {| view := fun s => (source_dir s, stdin s);
     pre := fun _ => True;
     okev := fun ev => ~ verdict ev |}.

(** The option (counted from 0) that a stripped line picks in a menu of [n]
    options: it must read as a number from 1 to [n]. *)
Definition picks (n : nat) (choice : string) : option nat :=
  match Py.int choice with
  | Some k =>
      if ((1 <=? k) && (k <=? Z.of_nat n))%Z then Some (Z.to_nat (k - 1)) else None
  | None => None
  end.

(** The steps that leave the console input and the detected tier alone. *)
Definition F_stdin : Frame :=
  {| view := fun s => (stdin s, arch_detected s);
     pre := fun _ => True;
     okev := fun _ => True |}.

(** What a selection can change. *)
Definition choice_view (s : State)
  : option string * option string * option string * option string :=
  (compiler_type s, compiler_path s, comp_command s, arch_detected s).

(** The install root a candidate resolves to: the recorded one, or the
    directory of the executable the search path resolves its name to. *)
Definition resolved_root (E : Env) (c : Candidate) : option string :=
  match c_path c with
  | Some p => Some p
  | None =>
      option_map (parent E)
        (which E (if String.eqb (c_type c) "gcc" then "g++" else "clang++"))
  end.

(** The candidate list in the outcome of [find_candidates]. *)
Definition found_list (r : Result (option (list Candidate))) : list Candidate :=
  match r with
  | Ok (Some l) => l
  | _ => []
  end.

(** *** Concrete hosts *)

Definition same_argv (a b : list string) : bool :=
  if list_eq_dec string_dec a b then true else false.

(** A host whose downloads, copies and removals succeed; the source archive
    unpacks to [/tmp/sf/Stockfish-master]. *)
Definition host (sys mach : string) (found : string -> option string)
    (present : string -> bool) (run : list string -> Proc) : Env :=
  {| system := sys; machine_raw := mach;
     sep := if String.eqb sys "Windows"
            then String (ascii_of_nat 92) EmptyString else "/";
     home := if String.eqb sys "Windows" then "C:\Users\u" else "/home/u";
     cwd := if String.eqb sys "Windows" then "C:\Users\u\out" else "/home/u/out";
     cpu_count := 4;
     which := found;
     path_exists := present;
     subprocess_run := run;
     mkdtemp := Returned "/tmp/sf";
     urlretrieve := fun _ _ => None;
     extractall := fun _ _ => Returned ["/tmp/sf/Stockfish-master"];
     latest_release := Threw "offline";
     copy2 := fun _ _ => None;
     chmod := fun _ => None;
     stat_size := fun _ => Returned 100%Z;
     rmtree := fun _ => None |}.

(** A Linux host with [g++] on the search path, whose CPU has AVX2; the
    builder exits 0 on every target but leaves no executable behind. *)
Definition linux_gcc : Env :=
  host "Linux" "x86_64"
    (fun exe => if String.eqb exe "g++" then Some "/usr/bin/g++" else None)
    (fun p => String.eqb p "/tmp/sf/Stockfish-master/src")
    (fun argv =>
       if same_argv argv ["g++"; "--version"] then Completed 0 "g++ (GCC) 13.2.0" ""
       else if same_argv argv ["g++"; "-Q"; "-march=native"; "--help=target"]
            then Completed 0 "  -mavx2    [enabled]" ""
            else Completed 0 "" "").

(** The user accepts every default and builds the development version. *)
Definition keys_default : list Key :=
  [Line ""; Line ""; Line ""; Line "1"; Line "2"; Line ""; Line ""; Line ""].

(** The user presses Ctrl-C at the prompt that follows the download. *)
Definition keys_interrupt : list Key :=
  [Line ""; Line ""; Line ""; Line "1"; Line "2"; CtrlC].

(** A host without any compiler. *)
Definition bare_linux : Env :=
  host "Linux" "x86_64" (fun _ => None) (fun _ => false) (fun _ => Failed "not found").

(** A host on which every child process answers [out] on both streams. *)
Definition probe_host (sys mach out : string) : Env :=
  host sys mach (fun _ => None) (fun _ => false) (fun _ => Completed 0 out out).

(** What a Clang probe reports on a Zen 2 CPU, as far as the chain reads. *)
Definition zen2_report : string :=
  "-target-cpu znver2 -target-feature +bmi2 -target-feature +avx2".

Definition zen2_host : Env := probe_host "Linux" "x86_64" zen2_report.

(** What a Clang probe reports on a Zen 3 CPU. *)
Definition zen3_report : string :=
  "-target-cpu znver3 -target-feature +bmi2 -target-feature +avx2".

Definition zen3_host : Env := probe_host "Linux" "x86_64" zen3_report.

(** A Clang probe that reports every feature the chain reads. *)
Definition full_report : string :=
  "+avx512vnni +avx512f +avx512bw +bmi2 +avx2 +sse4.1 +popcnt".

Definition full_host : Env := probe_host "Linux" "x86_64" full_report.

(** A GCC dump that mentions VNNI, not the foundation feature. *)
Definition vnni_only_report : string := "  -mavx512vnni   [enabled]".

Definition vnni_only_host : Env := probe_host "Linux" "x86_64" vnni_only_report.

(** A session that has selected a compiler of kind [ty] from the search
    path. *)
Definition with_compiler (ty : string) : State :=
  set_compiler (Some ty) None (Some ty) (init []).

(** A Windows host with MSYS2 under the home directory, whose [g++] is also
    the one the search path resolves to. *)
Definition windows_msys : Env :=
  host "Windows" "AMD64"
    (fun exe => if String.eqb exe "g++"
                then Some "C:\Users\u\msys64\mingw64\bin\g++.EXE" else None)
    (fun p => String.eqb p "C:\Users\u\msys64"
              || String.eqb p "C:\Users\u\msys64\mingw64\bin"
              || String.eqb p "C:\Users\u\msys64\mingw64\bin\g++.exe")
    (fun argv => Completed 0 "g++.exe (Rev2, Built by MSYS2 project) 13.2.0" "").

(** As [linux_gcc], but the download of the source archive fails. *)
Definition linux_offline : Env :=
  {| system := system linux_gcc; machine_raw := machine_raw linux_gcc;
     sep := sep linux_gcc; home := home linux_gcc; cwd := cwd linux_gcc;
     cpu_count := cpu_count linux_gcc; which := which linux_gcc;
     path_exists := path_exists linux_gcc;
     subprocess_run := subprocess_run linux_gcc;
     mkdtemp := mkdtemp linux_gcc;
     urlretrieve := fun _ _ => Some "network unreachable";
     extractall := extractall linux_gcc;
     latest_release := latest_release linux_gcc;
     copy2 := copy2 linux_gcc; chmod := chmod linux_gcc;
     stat_size := stat_size linux_gcc; rmtree := rmtree linux_gcc |}.

(** A session right before the build step on [linux_gcc]. *)
Definition before_build : State :=
  set_source_dir (Some "/tmp/sf/Stockfish-master/src")
    (set_compiler (Some "gcc") None (Some "gcc") (init [Line ""])).

(** *** Notions and hosts for the further properties *)

(** The steps that read nothing from the console. *)
Definition F_console : Frame :=
  {| view := stdin;
     pre := fun _ => True;
     okev := fun _ => True |}.

(** A Linux host whose [g++] probe lists AVX2 as enabled but exits with
    status 1. *)
Definition gcc_exit1_host : Env :=
  host "Linux" "x86_64" (fun _ => None) (fun _ => false)
    (fun _ => Completed 1 "  -mavx2    [enabled]" "").

(** The answer of the release query for a published release. *)
Definition sf17 : ReleaseData :=
  {| tag_name := Some "sf_17";
     zipball_url := Some "https://api.github.com/repos/official-stockfish/Stockfish/zipball/sf_17";
     release_name := Some "Stockfish 17" |}.

(** The source the menu offers for [sf17]. *)
Definition sf17_source : SourceInfo :=
  {| url := "https://api.github.com/repos/official-stockfish/Stockfish/zipball/sf_17";
     version := "sf_17"; name := Some "Stockfish 17" |}.

(** As [linux_gcc], with the release query answered by [sf17]. *)
Definition linux_online : Env :=
  {| system := system linux_gcc; machine_raw := machine_raw linux_gcc;
     sep := sep linux_gcc; home := home linux_gcc; cwd := cwd linux_gcc;
     cpu_count := cpu_count linux_gcc; which := which linux_gcc;
     path_exists := path_exists linux_gcc;
     subprocess_run := subprocess_run linux_gcc;
     mkdtemp := mkdtemp linux_gcc;
     urlretrieve := urlretrieve linux_gcc;
     extractall := extractall linux_gcc;
     latest_release := Returned sf17;
     copy2 := copy2 linux_gcc; chmod := chmod linux_gcc;
     stat_size := stat_size linux_gcc; rmtree := rmtree linux_gcc |}.

(** A 64-bit ARM board running Linux, without any compiler. *)
Definition arm_board : Env :=
  host "Linux" "aarch64" (fun _ => None) (fun _ => false) (fun _ => Failed "not found").


(** A Linux host on which every child process exits with status 2. *)
Definition failing_tools_host : Env :=
  host "Linux" "x86_64" (fun _ => None) (fun _ => false)
    (fun _ => Completed 2 "" "make: *** No rule to make target").

(** Any step at all: the log only grows. *)
Definition F_log : Frame :=
  {| view := fun _ => tt;
     pre := fun _ => True;
     okev := fun _ => True |}.

(** The log shows a run of the builder on the [profile-build] target that
    exited with status 0. *)
Definition built (E : Env) (l : list Event) : Prop :=
  exists argv out err,
    In (Spawn argv) l /\ In "profile-build" argv /\
    subprocess_run E argv = Completed 0 out err.

(** The user pressed Ctrl-C at some prompt. *)
Definition interrupted (l : list Event) : Prop :=
  exists p, In (Input p (Some CtrlC)) l.

(** [m] does not swallow a Ctrl-C: when one is typed at a prompt of [m],
    [m] ends with [KeyboardInterrupt]. *)
Definition unswallowed {A} (m : M A) : Prop :=
  forall s, ~ interrupted (log s) ->
    fst (m s) = Raise KeyboardInterrupt \/ ~ interrupted (log (snd (m s))).

(** The programs a host without MSYS2 installations is asked to run: the
    two compilers and the builder, each by its bare name. *)
Definition path_tools : list string := ["g++"; "clang++"; "make"].

(** No install root is recorded, and every child process is one of
    [path_tools], found through the search path. *)
Definition F_path : Frame :=
  {| view := compiler_path;
     pre := fun v => v = None;
     okev := fun ev => match ev with
                       | Spawn argv => In (hd "" argv) path_tools
                       | _ => True
                       end |}.

(** [exe] is found on the search path and answers [--version] with exit
    status 0. *)
Definition usable (E : Env) (exe : string) : bool :=
  Py.truthy (which E exe) &&
  match subprocess_run E [exe; "--version"] with
  | Completed rc _ _ => (rc =? 0)%Z
  | Failed _ => false
  end.

(** The MSYS2 sub-environments that are searched. *)
Definition subenvs : list string := ["mingw64"; "ucrt64"; "clang64"].

(** A candidate with a recorded install root stands for a compiler that was
    seen to work: the root is the [bin] directory of a sub-environment of an
    existing MSYS2 root, the kind is the one of the sub-environment, and
    the executable [exe] of that kind in it exists and answered [--version]
    with exit status 0. *)
Definition installed (E : Env) (c : Candidate) (p exe : string) : Prop :=
  (exists root sub,
      path_exists E root = true /\ In sub subenvs /\
      p = joinpath E (joinpath E root sub) "bin" /\
      c_type c = if String.eqb sub "clang64" then "clang" else "gcc") /\
  exe = joinpath E p ((if String.eqb (c_type c) "gcc" then "g++" else "clang++")
                      ++ (if is_windows E then ".exe" else "")) /\
  path_exists E exe = true /\
  exists out err,
    subprocess_run E [exe; "--version"] = Completed 0 out err /\
    c_version c = Py.first_line out.

(** Every recorded root of a candidate list is an installed compiler. *)
Definition all_installed (E : Env) (l : list Candidate) : Prop :=
  Forall (fun c => forall p, c_path c = Some p -> exists exe, installed E c p exe) l.

(** The candidates [windows_msys] has: the compiler of the search path and
    the same compiler as found by the scan. *)
Definition path_gcc : Candidate :=
  {| c_type := "gcc"; c_name := "MinGW GCC";
     c_version := "g++.exe (Rev2, Built by MSYS2 project) 13.2.0";
     c_path := None |}.

Definition msys_gcc : Candidate :=
  {| c_type := "gcc"; c_name := "MinGW GCC";
     c_version := "g++.exe (Rev2, Built by MSYS2 project) 13.2.0";
     c_path := Some "C:\Users\u\msys64\mingw64\bin" |}.

Definition backslash : string := String (ascii_of_nat 92) EmptyString.

(** [c] occurs in [s]. *)
Fixpoint occurs (c : ascii) (s : string) : bool :=
  match s with
  | EmptyString => false
  | String a rest => Ascii.eqb a c || occurs c rest
  end.

(** A Windows host whose MSYS2 installation keeps [make.exe] in [usr\bin]
    only. *)
Definition msys_make_host : Env :=
  host "Windows" "AMD64" (fun _ => None)
    (fun p => String.eqb p "C:\Users\u\msys64\usr\bin\make.exe")
    (fun _ => Failed "not run").

(** A session that has selected the MinGW64 compiler of that installation. *)
Definition with_msys_gcc : State :=
  set_compiler (Some "gcc") (Some "C:\Users\u\msys64\mingw64\bin") (Some "mingw")
    (init []).

(** A GCC dump in which AVX2 is listed as disabled and SSE2 as enabled. *)
Definition avx2_disabled_report : string :=
  "  -mavx2                      [disabled]"
  ++ String Py.newline "  -msse2                      [enabled]".

Definition avx2_disabled_host : Env :=
  probe_host "Linux" "x86_64" avx2_disabled_report.

(** The values of the [ARCH=] parameters of a command line. *)
Definition arch_params (argv : list string) : list string :=
  flat_map (fun arg => match strip_prefix "ARCH=" arg with
                       | Some a => [a]
                       | None => []
                       end) (tl argv).

(** Every [ARCH=] parameter of a child process names an architecture of
    the manual list. *)
Definition arch_ok (ev : Event) : Prop :=
  match ev with
  | Spawn argv => Forall (fun a => In a (map fst archs)) (arch_params argv)
  | _ => True
  end.

Definition F_spawn : Frame :=
  {| view := fun _ => tt;
     pre := fun _ => True;
     okev := arch_ok |}.

(** The steps after detection: the recorded tier stays, and is a known
    architecture. *)
Definition F_archs : Frame :=
  {| view := arch_detected;
     pre := fun v => forall t, v = Some t -> In t (map fst archs);
     okev := arch_ok |}.

(** A source the version menu can offer: the development archive, or the
    archive of the release the query answered with. *)
Definition known_source (E : Env) (u : string) : Prop :=
  u = url master \/
  exists data, latest_release E = Returned data /\ zipball_url data = Some u.

(** Downloads come from a known source and go to the archive file in the
    staging directory, which is also where the archive is unpacked. *)
Definition fetch_ok (E : Env) (ev : Event) : Prop :=
  match ev with
  | Fetch u dest =>
      known_source E u /\
      exists dir, mkdtemp E = Returned dir /\ dest = joinpath E dir "stockfish.zip"
  | Unzip archive dest =>
      exists dir, mkdtemp E = Returned dir /\
                  archive = joinpath E dir "stockfish.zip" /\ dest = dir
  | _ => True
  end.

Definition F_fetch (E : Env) : Frame :=
  {| view := fun _ => tt;
     pre := fun _ => True;
     okev := fetch_ok E |}.

(** [F'] asks no more than [F]. *)
Definition extends (F F' : Frame) : Prop :=
  (forall s s', view F s' = view F s -> view F' s' = view F' s) /\
  (forall s, pre F' (view F' s) -> pre F (view F s)) /\
  (forall ev, okev F ev -> okev F' ev).

(** ** Frame rules *)

Section FrameRules.

Variable F : Frame.
Hypothesis F_ok : frame_ok F.

Lemma framed_ret {A} b (a : A) : framed F b (ret a).
Proof.
  intros s _. cbn. split; [reflexivity|]. split.
  - exists []. split; [reflexivity | constructor].
  - discriminate.
Qed.

Lemma framed_get {A} b (f : State -> A) : framed F b (get f).
Proof.
  intros s _. cbn. split; [reflexivity|]. split.
  - exists []. split; [reflexivity | constructor].
  - discriminate.
Qed.

Lemma framed_raise {A} (e : exn) :
  is_Exception e = true -> framed F false (raise (A := A) e).
Proof.
  intros He s _. cbn. split; [reflexivity|]. split.
  - exists []. split; [reflexivity | constructor].
  - intros e' [= <-] [Hb | Hb]; congruence.
Qed.

Lemma framed_emit b (ev : Event) : okev F ev -> framed F b (modify (emit ev)).
Proof.
  intros Hev s _. cbn. split; [apply F_ok|]. split.
  - exists [ev]. split; [reflexivity | constructor; auto].
  - discriminate.
Qed.

Lemma framed_print b (t : string) : okev F (Print t) -> framed F b (print t).
Proof. apply framed_emit. Qed.

Lemma framed_event b (ev : Event) : okev F ev -> framed F b (event ev).
Proof. apply framed_emit. Qed.

Lemma framed_modify b (f : State -> State) :
  (forall s, view F (f s) = view F s) ->
  (forall s, log (f s) = log s) ->
  framed F b (modify f).
Proof.
  intros Hv Hl s _. cbn. split; [apply Hv|]. split.
  - exists []. split; [apply Hl | constructor].
  - discriminate.
Qed.

Lemma framed_weaken {A} b (m : M A) : framed F true m -> framed F b m.
Proof.
  intros H s Hs. destruct (H s Hs) as (Hv & Hl & Hr).
  split; [exact Hv|]. split; [exact Hl|].
  intros e He _. apply (Hr e He). left. reflexivity.
Qed.

Lemma framed_bind {A B} b (m : M A) (f : A -> M B) :
  framed F b m -> (forall a, framed F b (f a)) -> framed F b (bind m f).
Proof.
  intros Hm Hf s Hs. unfold bind.
  destruct (Hm s Hs) as (Hv & (evs & Hl & Hok) & Hr).
  destruct (m s) as [[a | e] s1]; cbn in *.
  - assert (Hs1 : pre F (view F s1)) by (rewrite Hv; exact Hs).
    destruct (Hf a s1 Hs1) as (Hv2 & (evs2 & Hl2 & Hok2) & Hr2).
    split; [congruence|]. split; [|exact Hr2].
    exists (evs2 ++ evs)%list. split.
    + rewrite Hl2, Hl. apply app_assoc.
    + apply Forall_app; auto.
  - split; [exact Hv|]. split; [eauto|].
    intros e' [= <-] Hb. apply (Hr e eq_refl Hb).
Qed.

Lemma framed_try {A} b (body : M A) (handler : exn -> M A) :
  framed F false body -> (forall e, framed F b (handler e)) ->
  framed F b (try_except body handler).
Proof.
  intros Hm Hh s Hs. unfold try_except.
  destruct (Hm s Hs) as (Hv & (evs & Hl & Hok) & Hr).
  destruct (body s) as [[a | e] s1]; cbn in *.
  - split; [exact Hv|]. split; [eauto|discriminate].
  - destruct (is_Exception e) eqn:He.
    + assert (Hs1 : pre F (view F s1)) by (rewrite Hv; exact Hs).
      destruct (Hh e s1 Hs1) as (Hv2 & (evs2 & Hl2 & Hok2) & Hr2).
      split; [congruence|]. split; [|exact Hr2].
      exists (evs2 ++ evs)%list. split.
      * rewrite Hl2, Hl. apply app_assoc.
      * apply Forall_app; auto.
    + cbn. split; [exact Hv|]. split; [eauto|].
      intros e' [= <-] _. apply (Hr e eq_refl). right. exact He.
Qed.

Lemma framed_for_each {A B} b (xs : list A) (body : A -> B -> M B) :
  (forall x acc, framed F b (body x acc)) ->
  forall acc, framed F b (for_each xs body acc).
Proof.
  intros Hb. induction xs as [|x xs IH]; intros acc; cbn.
  - apply framed_ret.
  - apply framed_bind; auto.
Qed.

Lemma framed_get_bind {A B} b (f : State -> A) (k : A -> M B) :
  (forall a, (exists s, pre F (view F s) /\ f s = a) -> framed F b (k a)) ->
  framed F b (bind (get f) k).
Proof.
  intros Hk s Hs. unfold bind, get.
  apply (Hk (f s)); eauto.
Qed.

Hypothesis F_io : frame_io F.

Lemma framed_input b (p : string) : framed F b (input p).
Proof.
  destruct F_io as [Hin Hok]. intros s _. unfold input.
  destruct (stdin s) as [|[text|] rest]; cbn.
  - split; [apply F_ok|]. split.
    + exists [Input p None]. split; [reflexivity | constructor; auto].
    + intros _ _ _. exists p, None. cbn. auto.
  - split; [rewrite F_ok; apply Hin|]. split.
    + exists [Input p (Some (Line text))]. split; [reflexivity | constructor; auto].
    + discriminate.
  - split; [rewrite F_ok; apply Hin|]. split.
    + exists [Input p (Some CtrlC)]. split; [reflexivity | constructor; auto].
    + intros _ _ _. exists p, (Some CtrlC). cbn. auto.
Qed.

Lemma framed_prompt_loop {A} b (p : string) (turn : string -> Turn A) :
  (forall c leave, turn c = Accept leave -> framed F b leave) ->
  (forall c msg, turn c = Refuse (Some msg) -> okev F (Print msg)) ->
  forall keys s, pre F (view F s) ->
    view F (snd (prompt_loop p turn keys s)) = view F s /\
    (exists evs, log (snd (prompt_loop p turn keys s)) = (evs ++ log s)%list /\
                 Forall (okev F) evs) /\
    (forall e, fst (prompt_loop p turn keys s) = Raise e ->
               b = true \/ is_Exception e = false ->
               bad_input (log (snd (prompt_loop p turn keys s)))).
Proof.
  destruct F_io as [Hin Hok]. intros Hacc Hmsg.
  induction keys as [|[text|] rest IH]; intros s Hs; cbn.
  - split; [apply F_ok|]. split.
    + exists [Input p None]. split; [reflexivity | constructor; auto].
    + intros _ _ _. exists p, None. cbn. auto.
  - set (s1 := emit (Input p (Some (Line text))) (set_stdin rest s)).
    assert (Hv1 : view F s1 = view F s) by (unfold s1; rewrite F_ok; apply Hin).
    assert (Hs1 : pre F (view F s1)) by (rewrite Hv1; exact Hs).
    destruct (turn (Py.strip text)) as [leave | [msg|]] eqn:Ht.
    + destruct (Hacc _ _ Ht s1 Hs1) as (Hv & (evs & Hl & Hev) & Hr).
      split; [congruence|]. split; [|exact Hr].
      exists (evs ++ [Input p (Some (Line text))])%list. split.
      * rewrite Hl. unfold s1. cbn. rewrite <- app_assoc. reflexivity.
      * apply Forall_app. split; [exact Hev | constructor; auto].
    + assert (Hs2 : pre F (view F (emit (Print msg) s1))) by (rewrite F_ok; exact Hs1).
      destruct (IH _ Hs2) as (Hv & (evs & Hl & Hev) & Hr).
      split; [rewrite Hv, F_ok; exact Hv1|]. split; [|exact Hr].
      exists (evs ++ [Print msg; Input p (Some (Line text))])%list. split.
      * rewrite Hl. unfold s1. cbn. rewrite <- app_assoc. reflexivity.
      * apply Forall_app. split; [exact Hev|].
        constructor; [eapply Hmsg; eauto | constructor; auto].
    + destruct (IH _ Hs1) as (Hv & (evs & Hl & Hev) & Hr).
      split; [congruence|]. split; [|exact Hr].
      exists (evs ++ [Input p (Some (Line text))])%list. split.
      * rewrite Hl. unfold s1. cbn. rewrite <- app_assoc. reflexivity.
      * apply Forall_app. split; [exact Hev | constructor; auto].
  - split; [rewrite F_ok; apply Hin|]. split.
    + exists [Input p (Some CtrlC)]. split; [reflexivity | constructor; auto].
    + intros _ _ _. exists p, (Some CtrlC). cbn. auto.
Qed.

Lemma framed_menu {A} b (p : string) (turn : string -> Turn A) :
  (forall c leave, turn c = Accept leave -> framed F b leave) ->
  (forall c msg, turn c = Refuse (Some msg) -> okev F (Print msg)) ->
  framed F b (menu p turn).
Proof.
  intros Hacc Hmsg s Hs. unfold menu.
  apply (framed_prompt_loop b p turn Hacc Hmsg (stdin s) s Hs).
Qed.

End FrameRules.

Lemma framed_mono (F F' : Frame) b {A} (m : M A) :
  extends F F' -> framed F b m -> framed F' b m.
Proof.
  intros (Hv & Hp & He) H s Hs.
  destruct (H s (Hp s Hs)) as (Hv1 & (evs & Hl & Hok) & Hr).
  split; [apply Hv; exact Hv1|]. split; [|exact Hr].
  exists evs. split; [exact Hl|].
  eapply Forall_impl; [|exact Hok]. auto.
Qed.

Lemma ev_ok_quiet tag staging ev : ev_ok None false ev -> ev_ok tag staging ev.
Proof.
  destruct ev; cbn; auto; try discriminate.
  intros H. eapply Forall_impl; [|exact H]. cbn. discriminate.
Qed.

Lemma ev_ok_staging tag ev : ev_ok tag false ev -> ev_ok tag true ev.
Proof. destruct ev; cbn; auto. Qed.

Lemma F_quiet_ok : frame_ok F_quiet.
Proof. intros ev s. reflexivity. Qed.

Lemma F_quiet_io : frame_io F_quiet.
Proof. split; intros; [reflexivity | exact I]. Qed.

Lemma F_locate_ok : frame_ok F_locate.
Proof. intros ev s. reflexivity. Qed.

Lemma F_locate_io : frame_io F_locate.
Proof. split; intros; [reflexivity | exact I]. Qed.

Lemma F_tag_ok t : frame_ok (F_tag t).
Proof. intros ev s. reflexivity. Qed.

Lemma F_tag_io t : frame_io (F_tag t).
Proof. split; intros; [reflexivity | exact I]. Qed.

Lemma F_build_ok t : frame_ok (F_build t).
Proof. intros ev s. reflexivity. Qed.

Lemma F_build_io t : frame_io (F_build t).
Proof. split; intros; [reflexivity | exact I]. Qed.

Lemma quiet_locate : extends F_quiet F_locate.
Proof.
  split; [|split]; cbn; auto.
  intros s s' [= _ _ _ H1 H2]. unfold staging_view. congruence.
Qed.

Lemma quiet_tag t : extends F_quiet (F_tag t).
Proof.
  split; [|split]; cbn; auto. intros ev. apply ev_ok_quiet.
Qed.

Lemma tag_build t : extends (F_tag t) (F_build t).
Proof.
  split; [|split]; cbn; auto.
  - intros s s' [= H1 H2 H3 _ _]. unfold compiler_view. congruence.
  - intros ev. apply ev_ok_staging.
Qed.

Lemma quiet_build t : extends F_quiet (F_build t).
Proof.
  split; [|split]; cbn; auto.
  - intros s s' [= H1 H2 H3 _ _]. unfold compiler_view. congruence.
  - intros ev. apply ev_ok_quiet.
Qed.

Create HintDb frame.
#[local] Hint Resolve F_quiet_ok F_quiet_io F_locate_ok F_locate_io
  F_tag_ok F_tag_io F_build_ok F_build_io : frame.

Ltac not_verdict :=
  let H := fresh "H" in
  intros [H | [(? & H) | H]]; cbn in H; discriminate H.

Ltac side :=
  intros;
  lazymatch goal with
  | |- framed _ _ _ => idtac
  | |- okev F_report _ => try solve [not_verdict]
  | |- _ =>
      try solve [ exact I | assumption | reflexivity | auto with frame
                | cbn in *; subst; repeat constructor; auto; congruence ]
  end.

Ltac turn_cases H :=
  repeat match type of H with
         | context [if ?c then _ else _] => destruct c eqn:?
         | context [match ?x with _ => _ end] => destruct x eqn:?
         end;
  try discriminate H; try (injection H as <-).

Ltac framing :=
  repeat (intros; lazymatch goal with
  | |- framed _ _ (bind (get _) _) =>
      apply framed_get_bind; intros ? (? & ? & ?)
  | |- framed _ _ (bind _ _) => apply framed_bind; side
  | |- framed _ _ (ret _) => apply framed_ret; side
  | |- framed _ _ (get _) => apply framed_get; side
  | |- framed _ _ (raise _) => apply framed_raise; side
  | |- framed _ _ (print _) => apply framed_print; side
  | |- framed _ _ (event _) => apply framed_event; side
  | |- framed _ _ (modify _) => apply framed_modify; side
  | |- framed _ _ (input _) => apply framed_input; side
  | |- framed _ _ (menu _ _) => apply framed_menu; side
  | |- framed _ _ (try_except _ _) => apply framed_try; side
  | |- framed _ _ (for_each _ _ _) => apply framed_for_each; side
  | |- framed _ _ (if ?c then _ else _) => destruct c eqn:?
  | |- framed _ _ (match ?x with _ => _ end) => destruct x eqn:?
  | |- framed _ _ _ => solve [eauto with frame]
  end).

(** ** Rules for returned values *)

Lemma returns_ret {A} (a : A) (Q : A -> Prop) : Q a -> returns (ret a) Q.
Proof. intros H s a' [= <-]. exact H. Qed.

Lemma returns_raise {A} (e : exn) (Q : A -> Prop) : returns (raise e) Q.
Proof. intros s a. discriminate. Qed.

Lemma returns_bind {A B} (m : M A) (f : A -> M B) (P : A -> Prop) (Q : B -> Prop) :
  returns m P -> (forall a, P a -> returns (f a) Q) -> returns (bind m f) Q.
Proof.
  intros Hm Hf s b. unfold bind.
  destruct (m s) as [[a | e] s1] eqn:Hms; [|discriminate].
  apply Hf. apply (Hm s). rewrite Hms. reflexivity.
Qed.

Lemma returns_seq {A B} (m : M A) (k : M B) (Q : B -> Prop) :
  returns k Q -> returns (bind m (fun _ => k)) Q.
Proof.
  intros Hk. apply (returns_bind m _ (fun _ => True)); [intros s a _; exact I | auto].
Qed.

Lemma returns_for_each {A B} (xs : list A) (body : A -> B -> M B) (Q : B -> Prop) :
  (forall x acc, Q acc -> returns (body x acc) Q) ->
  forall acc, Q acc -> returns (for_each xs body acc) Q.
Proof.
  intros Hb. induction xs as [|x xs IH]; intros acc Hacc; cbn.
  - apply returns_ret. exact Hacc.
  - eapply returns_bind; [apply Hb; exact Hacc | auto].
Qed.

Lemma returns_impl {A} (m : M A) (P Q : A -> Prop) :
  returns m P -> (forall a, P a -> Q a) -> returns m Q.
Proof. intros H HPQ s a Ha. apply HPQ. exact (H s a Ha). Qed.

(** A menu returns what an accepted line leaves it with. *)
Lemma prompt_loop_accepts {A} (p : string) (turn : string -> Turn A) keys :
  forall s a s',
    prompt_loop p turn keys s = (Ok a, s') ->
    exists text leave s1,
      In (Line text) keys /\ turn (Py.strip text) = Accept leave /\
      leave s1 = (Ok a, s').
Proof.
  induction keys as [|[text|] rest IH]; intros s a s' H; cbn in H;
    try discriminate.
  destruct (turn (Py.strip text)) as [leave | [msg|]] eqn:Ht.
  - exists text, leave. eexists. split; [left; reflexivity|]. split; eauto.
  - destruct (IH _ _ _ H) as (t & l & s1 & Hin & Hl & Hrun).
    exists t, l, s1. split; [right; exact Hin | auto].
  - destruct (IH _ _ _ H) as (t & l & s1 & Hin & Hl & Hrun).
    exists t, l, s1. split; [right; exact Hin | auto].
Qed.

(** ** Rules for postconditions *)

Lemma post_ret {A} (a : A) (Q : A -> State -> Prop) :
  (forall s, Q a s) -> post (ret a) Q.
Proof. intros H s a' s' [= <- <-]. apply H. Qed.

Lemma post_bind {A B} (m : M A) (f : A -> M B) (Q : B -> State -> Prop) :
  (forall a, post (f a) Q) -> post (bind m f) Q.
Proof.
  intros Hf s b s'. unfold bind.
  destruct (m s) as [[a | e] s1]; [apply Hf | discriminate].
Qed.

Lemma post_bind_returns {A B} (m : M A) (f : A -> M B) (P : A -> Prop)
    (Q : B -> State -> Prop) :
  returns m P -> (forall a, P a -> post (f a) Q) -> post (bind m f) Q.
Proof.
  intros Hm Hf s b s'. unfold bind.
  destruct (m s) as [[a | e] s1] eqn:Hms; [|discriminate].
  apply Hf. apply (Hm s). rewrite Hms. reflexivity.
Qed.

Lemma post_menu {A} (p : string) (turn : string -> Turn A) (Q : A -> State -> Prop) :
  (forall c leave, turn c = Accept leave -> post leave Q) -> post (menu p turn) Q.
Proof.
  intros H s a s' Hrun. unfold menu in Hrun.
  destruct (prompt_loop_accepts _ _ _ _ _ _ Hrun) as (t & leave & s1 & _ & Ht & Hl).
  exact (H _ _ Ht _ _ _ Hl).
Qed.

(** ** The steps and their frames *)

Section Steps.

Variable E : Env.

Lemma print_header_quiet b t : framed F_quiet b (print_header t).
Proof. unfold print_header. framing. Qed.

Lemma print_section_quiet b t : framed F_quiet b (print_section t).
Proof. unfold print_section. framing. Qed.

Lemma clear_screen_quiet b : framed F_quiet b clear_screen.
Proof. unfold clear_screen. framing. Qed.

Lemma run_process_quiet b argv :
  comp_params argv = [] -> framed F_quiet b (run_process E argv).
Proof.
  intros H. unfold run_process. framing.
  change (Forall (fun c => Some c = None) (comp_params argv)).
  rewrite H. constructor.
Qed.

#[local] Hint Resolve print_header_quiet print_section_quiet clear_screen_quiet : frame.

Lemma greet_quiet b : framed F_quiet b greet.
Proof. unfold greet. framing. Qed.

Lemma check_compiler_in_path_quiet b p n :
  framed F_quiet b (check_compiler_in_path E p n).
Proof. unfold check_compiler_in_path, run_process. framing. Qed.

Lemma check_search_path_quiet b exe ty display found l :
  framed F_quiet b (check_search_path E exe ty display found l).
Proof. unfold check_search_path, run_process. framing. Qed.

#[local] Hint Resolve check_compiler_in_path_quiet check_search_path_quiet : frame.

Lemma scan_subenv_quiet b root sub n found l :
  framed F_quiet b (scan_subenv E root sub n found l).
Proof. unfold scan_subenv. framing. Qed.

#[local] Hint Resolve scan_subenv_quiet : frame.

Lemma locate_quiet b : framed F_quiet b (locate E).
Proof. unfold locate, scan_install. framing. Qed.

Lemma manual_override_quiet b : framed F_quiet b (manual_override E).
Proof. unfold manual_override, manual_subdir. framing. Qed.

#[local] Hint Resolve locate_quiet manual_override_quiet : frame.

Lemma find_candidates_quiet b : framed F_quiet b (find_candidates E).
Proof. unfold find_candidates. framing. Qed.

Lemma select_compiler_locate b label c : framed F_locate b (select_compiler E label c).
Proof. unfold select_compiler. framing. Qed.

#[local] Hint Extern 4 (framed F_locate _ _) =>
  apply (framed_mono F_quiet F_locate); [apply quiet_locate|] : frame.
#[local] Hint Resolve find_candidates_quiet select_compiler_locate : frame.

Lemma choose_compiler_locate b l : framed F_locate b (choose_compiler E l).
Proof.
  unfold choose_compiler, list_compiler. framing.
  all: match goal with H : compiler_turn _ _ _ = Accept _ |- _ =>
         unfold compiler_turn in H; cbv zeta in H; turn_cases H end.
  all: framing.
Qed.

#[local] Hint Resolve choose_compiler_locate : frame.

Lemma detect_compiler_locate b : framed F_locate b (detect_compiler E).
Proof. unfold detect_compiler. framing. Qed.

Lemma detect_architecture_quiet b : framed F_quiet b (detect_architecture E).
Proof.
  unfold detect_architecture, detected, probe_architecture, probe_failed,
    report_chain, run_process.
  framing.
Qed.

Lemma manual_architecture_selection_quiet b :
  framed F_quiet b manual_architecture_selection.
Proof.
  unfold manual_architecture_selection. framing.
  match goal with H : arch_turn _ = Accept _ |- _ =>
    unfold arch_turn in H; cbv zeta in H; turn_cases H end.
  all: framing.
Qed.

#[local] Hint Resolve manual_architecture_selection_quiet : frame.

Lemma choose_architecture_quiet b : framed F_quiet b choose_architecture.
Proof.
  unfold choose_architecture. framing.
  all: match goal with H : architecture_turn _ _ = _ |- _ =>
         unfold architecture_turn in H; turn_cases H end.
  all: framing.
Qed.

Lemma get_latest_release_quiet b : framed F_quiet b (get_latest_release E).
Proof. unfold get_latest_release. framing. Qed.

#[local] Hint Resolve get_latest_release_quiet : frame.

Lemma choose_source_version_quiet b : framed F_quiet b (choose_source_version E).
Proof.
  unfold choose_source_version. framing.
  all: match goal with H : version_turn _ _ = _ |- _ =>
         unfold version_turn in H; turn_cases H end.
  all: framing.
Qed.

Lemma download_neural_network_quiet b : framed F_quiet b (download_neural_network E).
Proof.
  unfold download_neural_network, continue_anyway, run_process. framing.
Qed.

Lemma copy_executable_quiet b arch v : framed F_quiet b (copy_executable E arch v).
Proof. unfold copy_executable. framing. Qed.

Lemma compile_stockfish_tag b t arch : framed (F_tag t) b (compile_stockfish E arch).
Proof.
  unfold compile_stockfish, report_build_path, print_header, run_process. framing.
Qed.

Lemma strip_executable_tag b t : framed (F_tag t) b (strip_executable E).
Proof.
  unfold strip_executable, print_section, run_process. framing.
Qed.

Lemma download_source_build t info : framed (F_build t) false (download_source E info).
Proof.
  unfold download_source, fetch_and_extract, print_header. framing.
Qed.

Lemma cleanup_build b t : framed (F_build t) b (cleanup E).
Proof. unfold cleanup. framing. Qed.

End Steps.

(** ** The candidate list *)

Ltac innermost x :=
  match x with
  | context [match ?y with _ => _ end] => innermost y
  | _ => x
  end.

(** Symbolic execution in [H], innermost test first. *)
Ltac exec_in H :=
  cbn in H;
  repeat match type of H with
         | context [match ?x with _ => _ end] =>
             let y := innermost x in destruct y eqn:?; cbn in H
         end.

(** Replace the call [t] of [c] in [H] by its body. *)
Ltac expose c t H :=
  let body := eval unfold c in t in
  let e := fresh "e" in
  assert (e : t = body) by reflexivity;
  rewrite e in H; clear e.

Ltac run_in H :=
  unfold bind, ret, raise, get, modify, print, event in H; cbn in H;
  repeat match type of H with
         | context [match ?x with _ => _ end] => destruct x eqn:?; cbn in H
         end;
  try discriminate H.

Lemma append_cancel (p x y : string) : p ++ x = p ++ y -> x = y.
Proof.
  induction p as [|c p IH]; cbn; intros H; [exact H|].
  injection H as H. auto.
Qed.

Lemma append_assoc (a b c : string) : (a ++ b) ++ c = a ++ b ++ c.
Proof. induction a as [|x a IH]; cbn; [reflexivity | rewrite IH; reflexivity]. Qed.

Lemma roots_snoc l c :
  roots (l ++ [c]) = (roots l ++ match c_path c with Some p => [p] | None => [] end)%list.
Proof. unfold roots. rewrite flat_map_app. cbn. rewrite app_nil_r. reflexivity. Qed.

Lemma not_recorded p l :
  existsb (fun c => opt_str_eqb (c_path c) (Some p)) l = false -> ~ In p (roots l).
Proof.
  induction l as [|c l IH]; cbn; [auto|].
  intros H. apply orb_false_iff in H. destruct H as [Hc Hl].
  destruct (c_path c) as [q|]; cbn in *; [|auto].
  intros [-> | Hin]; [|exact (IH Hl Hin)].
  rewrite String.eqb_refl in Hc. discriminate.
Qed.

Lemma good_snoc_path l c p :
  good_list l -> c_path c = Some p -> known_kind (c_type c) -> ~ In p (roots l) ->
  good_list (l ++ [c]).
Proof.
  intros [Hn Hk] Hp Hc Hnot. split.
  - rewrite roots_snoc, Hp. apply NoDup_app; auto.
    + constructor; [intros [] | constructor].
    + intros a Ha [<- | []]. exact (Hnot Ha).
  - apply Forall_app. split; [exact Hk | constructor; auto].
Qed.

Lemma good_snoc_none l c :
  good_list l -> c_path c = None -> known_kind (c_type c) -> good_list (l ++ [c]).
Proof.
  intros [Hn Hk] Hp Hc. split.
  - rewrite roots_snoc, Hp, app_nil_r. exact Hn.
  - apply Forall_app. split; [exact Hk | constructor; auto].
Qed.

Section Locator.

Variable E : Env.

Lemma check_compiler_in_path_returns p n :
  returns (check_compiler_in_path E p n)
    (fun r => forall ci, r = Some ci -> c_path ci = Some p /\ known_kind (c_type ci)).
Proof.
  intros s r H ci ->. unfold check_compiler_in_path, run_process in H.
  run_in H; injection H as <-; cbn; (split; [reflexivity|]);
    unfold known_kind; auto.
Qed.

Lemma check_search_path_good exe ty display found l :
  known_kind ty -> good_list l ->
  returns (check_search_path E exe ty display found l) good_list.
Proof.
  intros Hty Hl s r H. unfold check_search_path, run_process in H.
  run_in H; injection H as <-; auto.
  apply good_snoc_none; auto.
Qed.

Lemma scan_subenv_good root sub n found l :
  good_list l -> returns (scan_subenv E root sub n found l) good_list.
Proof.
  intros Hl. unfold scan_subenv.
  destruct (path_exists E _); [|apply returns_ret; exact Hl].
  eapply returns_bind; [apply check_compiler_in_path_returns|].
  intros [ci|] Hci; [|apply returns_ret; exact Hl].
  destruct (Hci ci eq_refl) as [Hp Hk].
  destruct (negb _) eqn:Hex; [|apply returns_ret; exact Hl].
  apply returns_seq, returns_ret.
  apply negb_true_iff in Hex. rewrite Hp in Hex.
  eapply good_snoc_path; eauto. apply not_recorded. exact Hex.
Qed.

Lemma locate_good : returns (locate E) good_list.
Proof.
  assert (H0 : good_list []) by (split; constructor).
  unfold locate. destruct (is_windows E).
  - eapply returns_bind; [apply check_search_path_good; [left; reflexivity | exact H0]|].
    intros l1 H1.
    eapply returns_bind; [apply check_search_path_good; [right; reflexivity | exact H1]|].
    intros l2 H2. apply returns_seq.
    apply returns_for_each; [|exact H2].
    intros root acc Hacc. unfold scan_install. apply returns_seq.
    eapply returns_bind; [apply scan_subenv_good; exact Hacc|]. intros l3 H3.
    eapply returns_bind; [apply scan_subenv_good; exact H3|]. intros l4 H4.
    apply scan_subenv_good. exact H4.
  - eapply returns_bind; [apply check_search_path_good; [left; reflexivity | exact H0]|].
    intros l1 H1. apply check_search_path_good; [right; reflexivity | exact H1].
Qed.

(** What one sub-directory of the manual root can add. *)
Lemma manual_subdir_returns root sub l :
  returns (manual_subdir E root sub l)
    (fun l' => l' = l \/
               exists ci, l' = (l ++ [ci])%list /\
                          c_path ci = Some (joinpath E (joinpath E root sub) "bin") /\
                          known_kind (c_type ci)).
Proof.
  unfold manual_subdir.
  destruct (path_exists E _); [|apply returns_ret; auto].
  eapply returns_bind; [apply check_compiler_in_path_returns|].
  intros [ci|] Hci; [|apply returns_ret; auto].
  destruct (Hci ci eq_refl) as [Hp Hk].
  apply returns_seq, returns_ret. right. exists ci. auto.
Qed.

Lemma manual_roots_differ root ca a cb b :
  ca <> cb ->
  joinpath E (joinpath E root (String ca a)) "bin"
  <> joinpath E (joinpath E root (String cb b)) "bin".
Proof.
  unfold joinpath. intros Hab H.
  rewrite !append_assoc in H. apply append_cancel in H. apply append_cancel in H.
  cbn in H. injection H as H _. exact (Hab H).
Qed.

Lemma manual_scan_good root :
  returns (for_each ["mingw64"; "ucrt64"; "clang64"] (manual_subdir E root) [])
    good_list.
Proof.
  assert (D1 : joinpath E (joinpath E root "mingw64") "bin"
               <> joinpath E (joinpath E root "ucrt64") "bin")
    by (apply manual_roots_differ; discriminate).
  assert (D2 : joinpath E (joinpath E root "mingw64") "bin"
               <> joinpath E (joinpath E root "clang64") "bin")
    by (apply manual_roots_differ; discriminate).
  assert (D3 : joinpath E (joinpath E root "ucrt64") "bin"
               <> joinpath E (joinpath E root "clang64") "bin")
    by (apply manual_roots_differ; discriminate).
  assert (H0 : good_list []) by (split; constructor).
  cbn [for_each].
  eapply returns_bind; [apply manual_subdir_returns|]. intros l1 H1.
  eapply returns_bind; [apply manual_subdir_returns|]. intros l2 H2.
  eapply returns_bind; [apply manual_subdir_returns|]. intros l3 H3.
  apply returns_ret.
  assert (G1 : good_list l1 /\ forall p, In p (roots l1) ->
                 p = joinpath E (joinpath E root "mingw64") "bin").
  { destruct H1 as [-> | (c & -> & Hp & Hk)].
    - split; [exact H0 | intros p []].
    - split; [eapply good_snoc_path; eauto; intros []|].
      rewrite roots_snoc, Hp. cbn. intros p [<- | []]. reflexivity. }
  destruct G1 as [G1 R1].
  assert (G2 : good_list l2 /\ forall p, In p (roots l2) ->
                 p = joinpath E (joinpath E root "mingw64") "bin" \/
                 p = joinpath E (joinpath E root "ucrt64") "bin").
  { destruct H2 as [-> | (c & -> & Hp & Hk)].
    - split; [exact G1 | auto].
    - split.
      + apply good_snoc_path with (p := joinpath E (joinpath E root "ucrt64") "bin"); auto.
        intros Hin. apply R1 in Hin. congruence.
      + rewrite roots_snoc, Hp. intros p Hin. apply in_app_or in Hin.
        destruct Hin as [Hin | [<- | []]]; auto. }
  destruct G2 as [G2 R2].
  destruct H3 as [-> | (c & -> & Hp & Hk)]; [exact G2|].
  apply good_snoc_path with (p := joinpath E (joinpath E root "clang64") "bin"); auto.
  intros Hin. apply R2 in Hin. destruct Hin; congruence.
Qed.

Lemma manual_override_good :
  returns (manual_override E) (fun r => forall l, r = Some l -> good_list l).
Proof.
  unfold manual_override. apply returns_seq.
  destruct (is_windows E).
  2: { repeat apply returns_seq. apply returns_ret. discriminate. }
  apply returns_seq.
  eapply returns_bind with (P := fun _ => True); [intros s a _; exact I|].
  intros choice _. destruct (_ =? "y"); [|apply returns_ret; discriminate].
  eapply returns_bind with (P := fun _ => True); [intros s a _; exact I|].
  intros manual_path _.
  destruct (negb _); [apply returns_seq, returns_ret; discriminate|].
  apply returns_seq.
  eapply returns_bind; [apply manual_scan_good|]. intros l Hl.
  destruct l; [apply returns_seq, returns_ret; discriminate|].
  apply returns_ret. intros l' [= <-]. exact Hl.
Qed.

Lemma find_candidates_good :
  returns (find_candidates E) (fun r => forall l, r = Some l -> good_list l).
Proof.
  unfold find_candidates.
  eapply returns_bind; [apply locate_good|]. intros l Hl.
  destruct l; [apply manual_override_good|].
  apply returns_ret. intros l' [= <-]. exact Hl.
Qed.

Lemma select_compiler_post label c :
  known_kind (c_type c) ->
  post (select_compiler E label c)
    (fun r s' => r = Some (c_type c) /\ selected E (c_type c) s').
Proof.
  intros Hk s r s' H.
  unfold select_compiler, bind, modify, print, ret in H. cbn in H.
  destruct (Py.truthy (c_path c)); cbn in H; injection H as <- <-;
    (split; [reflexivity|]); (split; [exact Hk | split; reflexivity]).
Qed.

Lemma choose_compiler_post l :
  Forall (fun c => known_kind (c_type c)) l ->
  post (choose_compiler E l)
    (fun r s' => exists ty, r = Some ty /\ selected E ty s').
Proof.
  intros Hl.
  assert (Hsel : forall label c, In c l ->
            post (select_compiler E label c)
              (fun r s' => exists ty, r = Some ty /\ selected E ty s')).
  { intros label c Hin s r s' H. exists (c_type c).
    apply (select_compiler_post label c) with (s := s); [|exact H].
    rewrite Forall_forall in Hl. auto. }
  assert (Hmenu : post (print "Multiple compilers detected:" ;;
                        for_each (combine (seq 1 (length l)) l)
                          (fun ic _ => list_compiler ic) tt ;;
                        menu ("Select compiler (1-" ++ Py.str_nat (length l) ++ "): ")
                          (compiler_turn E l))
                    (fun r s' => exists ty, r = Some ty /\ selected E ty s')).
  { apply post_bind. intros _. apply post_bind. intros _. apply post_menu.
    intros c leave Ht. unfold compiler_turn in Ht. cbv zeta in Ht.
    destruct (Py.int c); [|discriminate].
    destruct (_ && _)%bool; [|discriminate].
    destruct (nth_error l _) as [cand|] eqn:Hn; [|discriminate].
    injection Ht as <-. apply Hsel. eapply nth_error_In; eauto. }
  unfold choose_compiler. destruct l as [|c [|c' l']]; try exact Hmenu.
  apply Hsel. left. reflexivity.
Qed.

Lemma detect_compiler_post :
  post (detect_compiler E)
    (fun r s' => match r with
                 | Some ty => selected E ty s'
                 | None => True
                 end).
Proof.
  unfold detect_compiler. apply post_bind. intros _.
  eapply post_bind_returns; [apply find_candidates_good|].
  intros [l|] Hl; [|apply post_ret; auto].
  destruct (Hl l eq_refl) as [_ Hk].
  intros s r s' H. destruct (choose_compiler_post l Hk s r s' H) as (ty & -> & Hs).
  exact Hs.
Qed.

End Locator.

(** ** The pipeline after compiler selection *)

Section Pipeline.

Variable E : Env.

#[local] Hint Extern 4 (framed (F_build _) _ _) =>
  eapply framed_mono; [apply quiet_build|] : frame.
#[local] Hint Extern 4 (framed (F_build _) _ _) =>
  eapply framed_mono; [apply tag_build|] : frame.
#[local] Hint Resolve print_header_quiet print_section_quiet clear_screen_quiet
  greet_quiet detect_architecture_quiet choose_architecture_quiet
  choose_source_version_quiet download_neural_network_quiet copy_executable_quiet
  compile_stockfish_tag strip_executable_tag download_source_build cleanup_build
  : frame.

Lemma build_and_publish_build t arch info :
  framed (F_build t) false (build_and_publish E arch info).
Proof. unfold build_and_publish. framing. Qed.

#[local] Hint Resolve build_and_publish_build : frame.

Lemma acquire_and_build_build t arch info :
  framed (F_build t) false (acquire_and_build E arch info).
Proof. unfold acquire_and_build. framing. Qed.

#[local] Hint Resolve acquire_and_build_build : frame.

Lemma configure_and_build_build t : framed (F_build t) false (configure_and_build E).
Proof. unfold configure_and_build. framing. Qed.

Lemma ev_ok_untagged t ev : ev_ok None true ev -> ev_ok (Some t) true ev.
Proof.
  destruct ev; cbn; auto.
  intros H. eapply Forall_impl; [|exact H]. cbn. discriminate.
Qed.

Lemma locate_untagged {A} b (m : M A) s :
  framed F_locate b m -> Forall (ev_ok None true) (log s) ->
  Forall (ev_ok None true) (log (snd (m s))).
Proof.
  intros Hm Hs. destruct (Hm s I) as (_ & (evs & -> & Hev) & _).
  apply Forall_app. split; [|exact Hs].
  eapply Forall_impl; [|exact Hev]. apply ev_ok_staging.
Qed.

Lemma quiet_tagged {A} b (m : M A) s :
  framed F_quiet b m -> tagged E s -> tagged E (snd (m s)).
Proof.
  intros Hm Hs. destruct (Hm s I) as (Hv & (evs & Hl & Hev) & _).
  cbn in Hv. injection Hv as Hty _ Hcmd _ _.
  destruct Hs as [Hs | (ty & (Hk & Hc & Hcc) & Hs)].
  - left. rewrite Hl. apply Forall_app. split; [|exact Hs].
    eapply Forall_impl; [|exact Hev]. apply ev_ok_quiet.
  - right. exists ty. split; [split; [exact Hk | split; congruence]|].
    rewrite Hl. apply Forall_app. split; [|exact Hs].
    eapply Forall_impl; [|exact Hev]. apply ev_ok_quiet.
Qed.

Lemma run_tagged s :
  Forall (ev_ok None true) (log s) -> tagged E (snd (run E s)).
Proof.
  intros Hs. unfold run, bind.
  pose proof (locate_untagged true greet s
                (framed_mono _ _ _ _ quiet_locate (greet_quiet true)) Hs) as H1.
  destruct (greet s) as [[[] | e] s1]; cbn in H1; [|left; exact H1].
  pose proof (locate_untagged true _ s1 (detect_compiler_locate E true) H1) as H2.
  pose proof (detect_compiler_post E s1) as Hpost.
  destruct (detect_compiler E s1) as [[r | e] s2]; cbn in H2; [|left; exact H2].
  specialize (Hpost r s2 eq_refl).
  destruct r as [[|c ty]|]; cbn [Py.truthy negb].
  - apply (quiet_tagged true (input "Press Enter to exit..." ;; ret 1%Z)).
    + framing.
    + left. exact H2.
  - destruct Hpost as (Hk & Hc & Hcc).
    destruct (configure_and_build_build (comp_tag E (String c ty)) s2)
      as (Hv & (evs & Hl & Hev) & _).
    { cbn. rewrite Hcc. reflexivity. }
    right. exists (String c ty). cbn in Hv. injection Hv as Hty _ Hcmd.
    split; [split; [exact Hk | split; congruence]|].
    rewrite Hl. apply Forall_app. split; [exact Hev|].
    eapply Forall_impl; [|exact H2]. apply ev_ok_untagged.
  - apply (quiet_tagged true (input "Press Enter to exit..." ;; ret 1%Z)).
    + framing.
    + left. exact H2.
Qed.

Lemma main_tagged keys : tagged E (snd (main E keys)).
Proof.
  unfold main.
  pose proof (run_tagged (init keys) (Forall_nil _)) as H.
  destruct (run E (init keys)) as [[st | e] s]; cbn in H; [exact H|].
  destruct e.
  - apply (quiet_tagged true (print _ ;; input _ ;; ret 1%Z)); [framing | exact H].
  - apply (quiet_tagged true (print _ ;; input _ ;; ret 1%Z)); [framing | exact H].
  - apply (quiet_tagged true (print _ ;; ret 1%Z)); [framing | exact H].
  - apply (quiet_tagged true (print _ ;; input _ ;; ret 1%Z)); [framing | exact H].
Qed.

(** *** Staging directory *)

Lemma bad_input_grows evs l : bad_input l -> bad_input (evs ++ l).
Proof.
  intros (p & k & Hin & Hk). exists p, k. split; [|exact Hk].
  apply in_or_app. right. exact Hin.
Qed.

Lemma download_failed_grows evs l : download_failed l -> download_failed (evs ++ l).
Proof.
  intros (msg & Hin). exists msg. apply in_or_app. right. exact Hin.
Qed.

Lemma no_mkdtemp tag evs d : Forall (ev_ok tag false) evs -> ~ In (Mkdtemp d) evs.
Proof.
  intros H Hin. rewrite Forall_forall in H. specialize (H _ Hin). discriminate H.
Qed.

Lemma only_staging_grows tag d evs l :
  Forall (ev_ok tag false) evs -> only_staging d l -> only_staging d (evs ++ l).
Proof.
  intros Hev Hl d' Hin. apply in_app_or in Hin. destruct Hin as [Hin | Hin].
  - destruct (no_mkdtemp _ _ _ Hev Hin).
  - exact (Hl d' Hin).
Qed.

Lemma cleaned_grows tag d s s' evs :
  created s' = created s -> log s' = (evs ++ log s)%list ->
  Forall (ev_ok tag false) evs -> cleaned d s -> cleaned d s'.
Proof.
  intros Hc Hl Hev [Ho H]. split.
  - rewrite Hl. eapply only_staging_grows; eauto.
  - rewrite Hc, Hl.
    destruct H as [[H1 H2] | [H1 H2]]; [left | right];
      (split; [exact H1 | apply in_or_app; right; exact H2]).
Qed.

Lemma unstaged_grows tag s s' evs :
  staging_view s' = staging_view s -> log s' = (evs ++ log s)%list ->
  Forall (ev_ok tag false) evs -> unstaged s -> unstaged s'.
Proof.
  intros Hv Hl Hev [H1 H2]. split; [congruence|].
  intros d Hin. rewrite Hl in Hin. apply in_app_or in Hin.
  destruct Hin as [Hin | Hin]; [exact (no_mkdtemp _ _ _ Hev Hin) | exact (H2 d Hin)].
Qed.

Lemma accounted_grows tag s s' evs :
  staging_view s' = staging_view s -> log s' = (evs ++ log s)%list ->
  Forall (ev_ok tag false) evs -> accounted s -> accounted s'.
Proof.
  intros Hv Hl Hev [H | [H | [H | (d & H)]]].
  - left. eapply unstaged_grows; eauto.
  - right. left. rewrite Hl. apply bad_input_grows. exact H.
  - right. right. left. rewrite Hl. apply download_failed_grows. exact H.
  - right. right. right. exists d. injection Hv as _ Hc.
    exact (cleaned_grows tag d s s' evs Hc Hl Hev H).
Qed.

Lemma quiet_accounted {A} b (m : M A) s :
  framed F_quiet b m -> accounted s -> accounted (snd (m s)).
Proof.
  intros Hm Hs. destruct (Hm s I) as (Hv & (evs & Hl & Hev) & _).
  cbn in Hv. injection Hv as _ _ _ Ht Hc.
  apply (accounted_grows None s (snd (m s)) evs); auto.
  unfold staging_view. congruence.
Qed.

Lemma ends_cleaned_accounted {A} d (out : Result A * State) :
  ends_cleaned d out -> accounted (snd out).
Proof.
  unfold ends_cleaned. destruct out as [[a | e] s]; cbn.
  - intros H. right. right. right. exists d. exact H.
  - intros H. right. left. exact H.
Qed.

(** A step in [F_locate] on a state without staging directory. *)
Lemma unstaged_bind {A B} b (m : M A) (f : A -> M B) s :
  framed F_locate b m -> unstaged s ->
  (forall a s1, unstaged s1 -> accounted (snd (f a s1))) ->
  accounted (snd (bind m f s)).
Proof.
  intros Hm Hs Hf. unfold bind.
  destruct (Hm s I) as (Hv & (evs & Hl & Hev) & _). cbn in Hv.
  assert (Hs1 : unstaged (snd (m s)))
    by exact (unstaged_grows None s (snd (m s)) evs Hv Hl Hev Hs).
  destruct (m s) as [[a | e] s1]; cbn in *.
  - apply Hf. exact Hs1.
  - left. exact Hs1.
Qed.

(** A strict step in [F_tag] on a state with [d] staged. *)
Lemma staged_bind {A B} t d (m : M A) (f : A -> M B) s :
  framed (F_tag t) true m -> staged d s -> show_opt (comp_command s) = t ->
  (forall a s1, staged d s1 -> show_opt (comp_command s1) = t ->
                ends_cleaned (A := B) d (f a s1)) ->
  ends_cleaned d (bind m f s).
Proof.
  intros Hm (Ht & Hc & Ho) Hpre Hf. unfold bind.
  destruct (Hm s Hpre) as (Hv & (evs & Hl & Hev) & Hr). cbn in Hv.
  injection Hv as _ _ Hcmd Htd Hcr.
  destruct (m s) as [[a | e] s1]; cbn in *.
  - apply Hf; [|congruence].
    split; [congruence|]. split; [congruence|].
    rewrite Hl. exact (only_staging_grows _ d evs (log s) Hev Ho).
  - unfold ends_cleaned. cbn. apply (Hr e eq_refl). left. reflexivity.
Qed.

(** A strict quiet step after [cleanup]. *)
Lemma cleaned_quiet {A} d (m : M A) s :
  framed F_quiet true m -> cleaned d s -> ends_cleaned d (m s).
Proof.
  intros Hm Hs. destruct (Hm s I) as (Hv & (evs & Hl & Hev) & Hr).
  cbn in Hv. injection Hv as _ _ _ _ Hc. unfold ends_cleaned.
  destruct (m s) as [[a | e] s1]; cbn in *.
  - exact (cleaned_grows None d s s1 evs Hc Hl Hev Hs).
  - apply (Hr e eq_refl). left. reflexivity.
Qed.

Lemma cleanup_cleans d s :
  staged d s -> exists s1, cleanup E s = (Ok tt, s1) /\ cleaned d s1.
Proof.
  intros (Ht & Hc & Ho). unfold cleanup, bind, get, on_disk. rewrite Ht, Hc. cbn.
  rewrite String.eqb_refl. cbn.
  assert (Hgrow : forall evs, Forall (ev_ok None true) evs ->
                    (forall d', ~ In (Mkdtemp d') evs) ->
                    only_staging d (evs ++ log s)).
  { intros evs _ Hno d' Hin. apply in_app_or in Hin.
    destruct Hin as [Hin | Hin]; [destruct (Hno d' Hin) | exact (Ho d' Hin)]. }
  destruct (rmtree E d) as [msg|]; cbn; eexists; (split; [reflexivity|]).
  - split.
    + apply (Hgrow [_; _; _]); [repeat constructor|].
      intros d' [H | [H | [H | []]]]; discriminate H.
    + right. cbn. split; [exact Hc | auto].
  - split.
    + apply (Hgrow [_; _]); [repeat constructor|].
      intros d' [H | [H | []]]; discriminate H.
    + left. cbn. rewrite Hc. cbn. rewrite String.eqb_refl. cbn. auto.
Qed.

Lemma tag_of_quiet {A} t (m : M A) : framed F_quiet true m -> framed (F_tag t) true m.
Proof. apply framed_mono, quiet_tag. Qed.

Lemma locate_of_quiet {A} (m : M A) : framed F_quiet true m -> framed F_locate true m.
Proof. apply framed_mono, quiet_locate. Qed.

Lemma cleanup_then {A} d (k : M A) s :
  staged d s -> framed F_quiet true k ->
  ends_cleaned d (bind (cleanup E) (fun _ => k) s).
Proof.
  intros Hs Hk. destruct (cleanup_cleans d s Hs) as (s1 & Hrun & Hc).
  unfold bind. rewrite Hrun. apply cleaned_quiet; assumption.
Qed.

Lemma build_and_publish_cleaned d arch info s :
  staged d s -> ends_cleaned d (build_and_publish E arch info s).
Proof.
  intros Hs. unfold build_and_publish.
  eapply staged_bind; [apply compile_stockfish_tag | exact Hs | reflexivity |].
  intros built s1 Hs1 Ht1. destruct built; cbn [negb].
  - eapply staged_bind; [apply strip_executable_tag | exact Hs1 | exact Ht1 |].
    intros _ s2 Hs2 Ht2.
    eapply staged_bind;
      [apply tag_of_quiet, copy_executable_quiet | exact Hs2 | exact Ht2 |].
    intros output s3 Hs3 _.
    apply cleanup_then; [exact Hs3 | framing].
  - apply cleanup_then; [exact Hs1 | framing].
Qed.

(** After a successful download: steps 6 to 10. *)
Lemma build_after_download_cleaned d arch info s :
  staged d s ->
  ends_cleaned d
    ((input "Press Enter to continue..." ;;
      clear_screen ;;
      net <- download_neural_network E ;;
      if negb net then
        cleanup E ;; input "Press Enter to exit..." ;; ret 1%Z
      else
        input "Press Enter to start compilation..." ;;
        clear_screen ;;
        build_and_publish E arch info) s).
Proof.
  intros Hs.
  eapply staged_bind; [apply tag_of_quiet; framing | exact Hs | reflexivity |].
  intros _ s1 Hs1 Ht1.
  eapply staged_bind; [apply tag_of_quiet; framing | exact Hs1 | exact Ht1 |].
  intros _ s2 Hs2 Ht2.
  eapply staged_bind;
    [apply tag_of_quiet, download_neural_network_quiet | exact Hs2 | exact Ht2 |].
  intros net s3 Hs3 Ht3. destruct net; cbn [negb].
  - eapply staged_bind; [apply tag_of_quiet; framing | exact Hs3 | exact Ht3 |].
    intros _ s4 Hs4 Ht4.
    eapply staged_bind; [apply tag_of_quiet; framing | exact Hs4 | exact Ht4 |].
    intros _ s5 Hs5 _. apply build_and_publish_cleaned. exact Hs5.
  - apply cleanup_then; [exact Hs3 | framing].
Qed.

Lemma download_source_cases info s :
  unstaged s ->
  match download_source E info s with
  | (Ok (Some _), s1) => exists d, staged d s1
  | (Ok None, s1) => download_failed (log s1)
  | (Raise _, s1) => unstaged s1
  end.
Proof.
  intros [Hv Hno]. assert (Hv' := Hv). injection Hv' as Ht Hc.
  unfold download_source, fetch_and_extract, print_header, try_except, bind,
    modify, print, event, raise, ret. cbn.
  destruct (mkdtemp E) as [dir | msg]; cbn.
  2: { split; [exact Hv|]. cbn.
       intros d [H | [H | [H | H]]]; try discriminate H. exact (Hno d H). }
  assert (Hfail : forall msg l,
            download_failed (Print ("✗ Error downloading source: " ++ msg) :: l)).
  { intros msg l. exists msg. left. reflexivity. }
  destruct (urlretrieve E _ _); cbn; [apply Hfail|].
  destruct (extractall E _ _) as [[|first rest] | msg]; cbn; try apply Hfail.
  destruct (path_exists E _); cbn; [|apply Hfail].
  exists dir. split; cbn; [reflexivity|]. split; [rewrite Hc; reflexivity|].
  intros d' Hin. cbn in Hin.
  repeat (destruct Hin as [Hin | Hin]; [try discriminate Hin|]).
  - injection Hin as <-. reflexivity.
  - destruct (Hno d' Hin).
Qed.

Lemma acquire_and_build_accounted arch info s :
  unstaged s -> accounted (snd (acquire_and_build E arch info s)).
Proof.
  intros Hs. unfold acquire_and_build.
  eapply unstaged_bind; [apply locate_of_quiet; eauto with frame | exact Hs |].
  intros _ s1 Hs1. unfold bind at 1.
  pose proof (download_source_cases info s1 Hs1) as Hd.
  destruct (download_source E info s1) as [[[src|] | e] s2].
  - destruct Hd as (d & Hd).
    apply (ends_cleaned_accounted d). apply build_after_download_cleaned. exact Hd.
  - apply (quiet_accounted true (input "Press Enter to exit..." ;; ret 1%Z));
      [framing|].
    right. right. left. exact Hd.
  - left. exact Hd.
Qed.

Lemma configure_and_build_accounted s :
  unstaged s -> accounted (snd (configure_and_build E s)).
Proof.
  intros Hs. unfold configure_and_build.
  do 8 (eapply unstaged_bind;
          [apply locate_of_quiet; solve [framing | eauto with frame]
          | eassumption |];
        intros ? ? ?).
  apply acquire_and_build_accounted. assumption.
Qed.

Lemma run_accounted s :
  unstaged s -> accounted (snd (run E s)).
Proof.
  intros Hs. unfold run.
  eapply unstaged_bind; [apply locate_of_quiet; eauto with frame | exact Hs |].
  intros _ s1 Hs1.
  eapply unstaged_bind; [apply (detect_compiler_locate E true) | exact Hs1 |].
  intros r s2 Hs2. destruct (negb (Py.truthy r)).
  - apply (quiet_accounted true (input "Press Enter to exit..." ;; ret 1%Z));
      [framing|].
    left. exact Hs2.
  - apply configure_and_build_accounted. exact Hs2.
Qed.

Lemma main_accounted keys : accounted (snd (main E keys)).
Proof.
  unfold main.
  assert (H0 : unstaged (init keys)) by (split; [reflexivity | intros d []]).
  pose proof (run_accounted (init keys) H0) as H.
  destruct (run E (init keys)) as [[st | e] s]; cbn in H; [exact H|].
  destruct e.
  - apply (quiet_accounted true (print _ ;; input _ ;; ret 1%Z)); [framing | exact H].
  - apply (quiet_accounted true (print _ ;; input _ ;; ret 1%Z)); [framing | exact H].
  - apply (quiet_accounted true (print _ ;; ret 1%Z)); [framing | exact H].
  - apply (quiet_accounted true (print _ ;; input _ ;; ret 1%Z)); [framing | exact H].
Qed.

End Pipeline.

(** ** Architecture detection *)

Lemma gcc_chain_tier out : In (snd (gcc_chain out)) x86_tiers.
Proof.
  unfold gcc_chain, x86_tiers.
  repeat match goal with
         | |- context [if ?c then _ else _] => destruct c
         end; cbn; auto 10.
Qed.

Lemma clang_chain_tier out : In (snd (clang_chain out)) x86_tiers.
Proof.
  unfold clang_chain, x86_tiers.
  repeat match goal with
         | |- context [if ?c then _ else _] => destruct c
         end; cbn; auto 10.
Qed.

Lemma x86_auto arch : In arch x86_tiers -> In arch auto_tiers.
Proof. unfold x86_tiers, auto_tiers. cbn. intuition. Qed.

Lemma report_chain_runs chosen s :
  exists s', report_chain chosen s = (Ok (snd chosen), s').
Proof.
  unfold report_chain, bind, print, modify, ret. cbn.
  destruct (fst chosen); cbn; eexists; reflexivity.
Qed.

Section Detection.

Variable E : Env.

(** The probe reads the compiler fields only. *)
Lemma probe_architecture_fields s s' :
  compiler_type s' = compiler_type s -> compiler_path s' = compiler_path s ->
  fst (probe_architecture E s') = fst (probe_architecture E s).
Proof.
  intros Ht Hp.
  unfold probe_architecture, bind, get, compiler_exe, run_process, event, modify,
    raise, ret. cbn. rewrite Ht, Hp.
  destruct (if is_kind "gcc" (compiler_type s) then _ else _) as [exe|];
    [|reflexivity].
  destruct (is_kind "gcc" (compiler_type s)).
  - destruct (subprocess_run E _) as [rc out err | msg]; [|reflexivity].
    destruct (rc =? 0)%Z; [|reflexivity].
    destruct (report_chain_runs (gcc_chain (Py.lower out))
                (emit (Spawn [exe; "-Q"; "-march=native"; "--help=target"]) s'))
      as (s1 & ->).
    destruct (report_chain_runs (gcc_chain (Py.lower out))
                (emit (Spawn [exe; "-Q"; "-march=native"; "--help=target"]) s))
      as (s2 & ->).
    reflexivity.
  - destruct (is_kind "clang" (compiler_type s)); [|reflexivity].
    destruct (subprocess_run E _) as [rc out err | msg]; [|reflexivity].
    destruct (report_chain_runs (clang_chain (Py.lower err))
                (emit (Spawn [exe; "-E"; "-"; "-march=native"; "-###"]) s'))
      as (s1 & ->).
    destruct (report_chain_runs (clang_chain (Py.lower err))
                (emit (Spawn [exe; "-E"; "-"; "-march=native"; "-###"]) s))
      as (s2 & ->).
    reflexivity.
Qed.

(** What the probe returns is a tier; what it raises is an [Exception]. *)
Lemma probe_architecture_outcome s :
  match fst (probe_architecture E s) with
  | Ok arch => In arch x86_tiers
  | Raise e => is_Exception e = true
  end.
Proof.
  unfold probe_architecture, bind, get, run_process, event, modify, raise, ret. cbn.
  destruct (compiler_exe E s) as [exe|]; [|reflexivity].
  destruct (is_kind "gcc" (compiler_type s)).
  - destruct (subprocess_run E _) as [rc out err | msg]; [|reflexivity].
    destruct (rc =? 0)%Z; [|cbn; unfold x86_tiers; cbn; auto 10].
    destruct (report_chain_runs (gcc_chain (Py.lower out))
                (emit (Spawn [exe; "-Q"; "-march=native"; "--help=target"]) s))
      as (s2 & ->).
    apply gcc_chain_tier.
  - destruct (is_kind "clang" (compiler_type s));
      [|cbn; unfold x86_tiers; cbn; auto 10].
    destruct (subprocess_run E _) as [rc out err | msg]; [|reflexivity].
    destruct (report_chain_runs (clang_chain (Py.lower err))
                (emit (Spawn [exe; "-E"; "-"; "-march=native"; "-###"]) s))
      as (s2 & ->).
    apply clang_chain_tier.
Qed.

Lemma probe_failed_runs e s : exists s', probe_failed E e s = (Ok "x86-64", s').
Proof.
  unfold probe_failed, bind, get, print, modify, ret. cbn.
  destruct (Py.truthy (compiler_path s)); cbn;
    destruct (Py.contains _ (exn_str e)); cbn;
    try destruct (is_windows E); cbn; eexists; reflexivity.
Qed.

(** The [try] statement of [detect_architecture] always ends normally. *)
Lemma probe_handled s :
  exists s', try_except (probe_architecture E) (probe_failed E) s
             = (Ok (arch_after (fst (probe_architecture E s))), s').
Proof.
  unfold try_except.
  pose proof (probe_architecture_outcome s) as H.
  destruct (probe_architecture E s) as [[arch | e] s1]; cbn in *.
  - eexists; reflexivity.
  - rewrite H. apply probe_failed_runs.
Qed.

Lemma detect_architecture_x86 s :
  is_arm E = false ->
  exists s',
    detect_architecture E s = (Ok (arch_after (fst (probe_architecture E s))), s') /\
    arch_detected s' = Some (arch_after (fst (probe_architecture E s))).
Proof.
  intros Harm. unfold detect_architecture. unfold is_arm in Harm.
  rewrite Harm.
  unfold print_header, bind, print, modify. cbn.
  match goal with
  | |- context [try_except _ _ ?s0] =>
      destruct (probe_handled s0) as (s1 & Hrun);
      rewrite Hrun;
      rewrite (probe_architecture_fields s s0 eq_refl eq_refl)
  end.
  unfold detected, bind, print, modify, ret. cbn.
  eexists. split; reflexivity.
Qed.

Lemma detect_architecture_arm s :
  is_arm E = true ->
  exists arch s',
    detect_architecture E s = (Ok arch, s') /\ arch_detected s' = Some arch /\
    In arch ["apple-silicon"; "armv8"; "armv7"].
Proof.
  intros Harm. unfold detect_architecture. unfold is_arm in Harm.
  rewrite Harm.
  destruct (system E =? "Darwin");
    [|destruct (Py.contains "aarch64" (machine E) || Py.contains "arm64" (machine E))%bool];
    unfold print_header, bind, print, modify, detected, ret; cbn;
    do 2 eexists; (split; [reflexivity|]); (split; [reflexivity|]); cbn; auto.
Qed.

(** The value of the GCC branch. *)
Lemma probe_gcc s exe out err :
  compiler_exe E s = Some exe ->
  is_kind "gcc" (compiler_type s) = true ->
  subprocess_run E [exe; "-Q"; "-march=native"; "--help=target"]
  = Completed 0 out err ->
  fst (probe_architecture E s) = Ok (snd (gcc_chain (Py.lower out))).
Proof.
  intros Hexe Hty Hrun.
  unfold probe_architecture, bind, get, run_process, event, modify, raise, ret. cbn.
  rewrite Hexe, Hty, Hrun. cbn -[report_chain].
  destruct (report_chain_runs (gcc_chain (Py.lower out))
              (emit (Spawn [exe; "-Q"; "-march=native"; "--help=target"]) s))
    as (s2 & ->).
  reflexivity.
Qed.

(** The value of the Clang branch. *)
Lemma probe_clang s exe rc out err :
  compiler_exe E s = Some exe ->
  is_kind "clang" (compiler_type s) = true ->
  subprocess_run E [exe; "-E"; "-"; "-march=native"; "-###"]
  = Completed rc out err ->
  fst (probe_architecture E s) = Ok (snd (clang_chain (Py.lower err))).
Proof.
  intros Hexe Hty Hrun.
  assert (Hgcc : is_kind "gcc" (compiler_type s) = false).
  { destruct (compiler_type s) as [t|]; [|discriminate]. cbn in *.
    apply String.eqb_eq in Hty. subst t. reflexivity. }
  unfold probe_architecture, bind, get, run_process, event, modify, raise, ret. cbn.
  rewrite Hexe, Hgcc, Hty, Hrun. cbn -[report_chain].
  destruct (report_chain_runs (clang_chain (Py.lower err))
              (emit (Spawn [exe; "-E"; "-"; "-march=native"; "-###"]) s))
    as (s2 & ->).
  reflexivity.
Qed.

(** Detection ends normally, on a tier of [auto_tiers], which it records. *)
Lemma detect_architecture_tier s :
  exists arch s',
    detect_architecture E s = (Ok arch, s') /\ In arch auto_tiers /\
    arch_detected s' = Some arch /\
    (is_arm E = false -> arch = arch_after (fst (probe_architecture E s))).
Proof.
  destruct (is_arm E) eqn:Harm.
  - destruct (detect_architecture_arm s Harm) as (arch & s' & Hrun & Hd & Hin).
    exists arch, s'. repeat split; auto; [|discriminate].
    unfold auto_tiers. cbn in *. intuition.
  - destruct (detect_architecture_x86 s Harm) as (s' & Hrun & Hd).
    eexists. exists s'. repeat split; eauto.
    pose proof (probe_architecture_outcome s) as Ho.
    destruct (fst (probe_architecture E s)) as [a | e]; cbn.
    + apply x86_auto. exact Ho.
    + unfold auto_tiers. cbn. auto 10.
Qed.

End Detection.

(** ** The reports of the build *)

Lemma F_report_ok : frame_ok F_report.
Proof. intros ev s. reflexivity. Qed.

Section Reports.

Variable E : Env.

#[local] Hint Resolve F_report_ok : frame.

Lemma strip_executable_report b : framed F_report b (strip_executable E).
Proof. unfold strip_executable, print_section, run_process. framing. Qed.

Lemma cleanup_report b : framed F_report b (cleanup E).
Proof. unfold cleanup. framing. Qed.

Lemma strip_executable_runs s : exists s', strip_executable E s = (Ok true, s').
Proof.
  unfold strip_executable, print_section, run_process, try_except, bind, get,
    print, event, modify, raise, ret. cbn.
  destruct (subprocess_run E _) as [rc out err | msg]; cbn;
    [destruct (rc =? 0)%Z|]; cbn; eexists; reflexivity.
Qed.

Lemma cleanup_runs s : exists s', cleanup E s = (Ok tt, s').
Proof.
  unfold cleanup, bind, get, print, event, modify, ret. cbn.
  destruct (temp_dir s) as [d|]; cbn; [|eexists; reflexivity].
  destruct (on_disk d s); cbn; [|eexists; reflexivity].
  destruct (rmtree E d); cbn; eexists; reflexivity.
Qed.

Lemma report_cons ev l l0 :
  ~ verdict ev ->
  (exists evs, l = (evs ++ l0)%list /\ Forall (fun ev => ~ verdict ev) evs) ->
  exists evs, ev :: l = (evs ++ l0)%list /\ Forall (fun ev => ~ verdict ev) evs.
Proof.
  intros Hev (evs & -> & H). exists (ev :: evs). split; [reflexivity|].
  constructor; assumption.
Qed.

Lemma report_nil l0 :
  exists evs, l0 = (evs ++ l0)%list /\ Forall (fun ev => ~ verdict ev) evs.
Proof. exists []. split; [reflexivity | constructor]. Qed.

(** A build that reports success has printed no verdict so far. *)
Lemma compile_true_report arch s s1 :
  compile_stockfish E arch s = (Ok true, s1) ->
  source_dir s1 = source_dir s /\ stdin s1 = stdin s /\
  exists evs, log s1 = (evs ++ log s)%list /\ Forall (fun ev => ~ verdict ev) evs.
Proof.
  intros H.
  unfold compile_stockfish, report_build_path, print_header, run_process,
    try_except, bind, get, print, event, modify, raise, ret in H.
  exec_in H; try discriminate H.
  all: injection H as <-; cbn; (split; [reflexivity|]); (split; [reflexivity|]).
  all: repeat (apply report_cons; [not_verdict|]); apply report_nil.
Qed.

Lemma copy_executable_missing arch v d s :
  source_dir s = Some d ->
  path_exists E (joinpath E d (exe_name E)) = false ->
  copy_executable E arch v s
  = (Ok None,
     emit (Print ("✗ Could not find executable: " ++ joinpath E d (exe_name E)))
       (emit (Print (rule "-"))
          (emit (Print "  Copying Executable")
             (emit (Print (rule "-")) s)))).
Proof.
  intros Hd Hx.
  unfold copy_executable, print_section, try_except, bind, get, print, modify, ret.
  cbn. rewrite Hd, Hx. reflexivity.
Qed.

(** The end of [run] when nothing was published. *)
Lemma final_message_silent s :
  let out := (print_header "Compilation Complete!" ;;
              ret tt ;;
              input "Press Enter to exit..." ;;
              ret 0%Z) s in
  fst out = match stdin s with
            | Line _ :: _ => Ok 0%Z
            | CtrlC :: _ => Raise KeyboardInterrupt
            | [] => Raise EOFError
            end /\
  log (snd out)
  = Input "Press Enter to exit..." (hd_error (stdin s))
      :: Print (rule "=") :: Print "  Compilation Complete!" :: Print (rule "=")
      :: log s.
Proof.
  unfold print_header, bind, print, modify, ret, input. cbn.
  destruct (stdin s) as [|[text|] rest]; split; reflexivity.
Qed.

End Reports.

(** ** The menus *)

Lemma F_stdin_ok : frame_ok F_stdin.
Proof. intros ev s. reflexivity. Qed.

(** The next step sees the console input [m] found. *)
Lemma bind_stdin {A B} b (m : M A) (f : A -> M B) s r s' :
  framed F_stdin b m -> bind m f s = (Ok r, s') ->
  exists a s1,
    (stdin s1 = stdin s /\ arch_detected s1 = arch_detected s) /\
    f a s1 = (Ok r, s').
Proof.
  intros Hm H. unfold bind in H. destruct (Hm s I) as (Hv & _ & _). cbn in Hv.
  destruct (m s) as [[a | e] s1]; [|discriminate].
  cbn in Hv. injection Hv as H1 H2.
  exists a, s1. split; [split; assumption | exact H].
Qed.

Lemma menu_accepts {A} (p : string) (turn : string -> Turn A) s a s' :
  menu p turn s = (Ok a, s') ->
  exists text leave s1,
    In (Line text) (stdin s) /\ turn (Py.strip text) = Accept leave /\
    leave s1 = (Ok a, s').
Proof. apply prompt_loop_accepts. Qed.

(** A refused line changes nothing but the console: the prompt comes again
    for the next line. *)
Lemma prompt_loop_refused {A} (p : string) (turn : string -> Turn A) text rest s msg :
  turn (Py.strip text) = Refuse msg ->
  exists s1,
    prompt_loop p turn (Line text :: rest) s = prompt_loop p turn rest s1 /\
    stdin s1 = rest /\ choice_view s1 = choice_view s /\
    staging_view s1 = staging_view s.
Proof.
  intros H. cbn. rewrite H. destruct msg; eexists; (split; [reflexivity|]);
    repeat split.
Qed.

Lemma index_test n k :
  ((0 <=? k - 1) && (k - 1 <? Z.of_nat n))%Z = ((1 <=? k) && (k <=? Z.of_nat n))%Z.
Proof.
  destruct (Z.leb_spec 0 (k - 1)), (Z.leb_spec 1 k); try lia; cbn;
    destruct (Z.ltb_spec (k - 1) (Z.of_nat n)), (Z.leb_spec k (Z.of_nat n));
    try lia; reflexivity.
Qed.

Lemma picks_bound n choice i : picks n choice = Some i -> i < n.
Proof.
  unfold picks. destruct (Py.int choice) as [k|]; [|discriminate].
  destruct (_ && _)%bool eqn:H; [|discriminate]. intros [= <-].
  apply andb_true_iff in H. destruct H as [H1 H2].
  apply Z.leb_le in H1. apply Z.leb_le in H2. lia.
Qed.

Lemma arch_turn_accepts choice leave :
  arch_turn choice = Accept leave ->
  exists i selected desc,
    picks (length archs) choice = Some i /\
    nth_error archs i = Some (selected, desc) /\
    leave = (print ("Selected: " ++ selected) ;; ret selected).
Proof.
  unfold arch_turn, picks. cbv zeta.
  destruct (Py.int choice) as [k|]; [|discriminate].
  rewrite index_test. destruct (_ && _)%bool; [|discriminate].
  destruct (nth_error archs (Z.to_nat (k - 1))) as [[selected desc]|] eqn:Hn;
    [|discriminate].
  intros [= <-]. exists (Z.to_nat (k - 1)), selected, desc. auto.
Qed.

Lemma arch_turn_refuses choice :
  picks (length archs) choice = None -> exists msg, arch_turn choice = Refuse msg.
Proof.
  unfold arch_turn, picks. cbv zeta.
  destruct (Py.int choice) as [k|]; [|eexists; reflexivity].
  rewrite index_test. destruct (_ && _)%bool; [discriminate|].
  eexists; reflexivity.
Qed.

Lemma manual_architecture_selection_picks s arch s' :
  manual_architecture_selection s = (Ok arch, s') ->
  exists text i desc,
    In (Line text) (stdin s) /\
    picks (length archs) (Py.strip text) = Some i /\
    nth_error archs i = Some (arch, desc).
Proof.
  intros H. expose manual_architecture_selection manual_architecture_selection H.
  pose proof F_stdin_ok as Hok.
  apply (bind_stdin true) in H; [|unfold clear_screen; framing].
  destruct H as (_ & s1 & [Hs1 _] & H).
  apply (bind_stdin true) in H; [|unfold print_header; framing].
  destruct H as (_ & s2 & [Hs2 _] & H).
  apply (bind_stdin true) in H; [|framing].
  destruct H as (_ & s3 & [Hs3 _] & H).
  apply (bind_stdin true) in H; [|framing].
  destruct H as (_ & s4 & [Hs4 _] & H).
  apply menu_accepts in H. destruct H as (text & leave & s5 & Hin & Ht & Hrun).
  apply arch_turn_accepts in Ht. destruct Ht as (i & selected & desc & Hp & Hn & ->).
  unfold bind, print, modify, ret in Hrun. cbn in Hrun. injection Hrun as <- _.
  exists text, i, desc. split; [congruence | auto].
Qed.

Section CompilerMenu.

Variable E : Env.

Lemma compiler_turn_accepts l choice leave :
  compiler_turn E l choice = Accept leave ->
  exists i c,
    picks (length l) choice = Some i /\ nth_error l i = Some c /\
    leave = select_compiler E "Selected: " c.
Proof.
  unfold compiler_turn, picks. cbv zeta.
  destruct (Py.int choice) as [k|]; [|discriminate].
  rewrite index_test. destruct (_ && _)%bool; [|discriminate].
  destruct (nth_error l (Z.to_nat (k - 1))) as [c|] eqn:Hn; [|discriminate].
  intros [= <-]. exists (Z.to_nat (k - 1)), c. auto.
Qed.

Lemma compiler_turn_refuses l choice :
  picks (length l) choice = None -> exists msg, compiler_turn E l choice = Refuse msg.
Proof.
  unfold compiler_turn, picks. cbv zeta.
  destruct (Py.int choice) as [k|]; [|eexists; reflexivity].
  rewrite index_test. destruct (_ && _)%bool; [discriminate|].
  eexists; reflexivity.
Qed.

Lemma select_compiler_sets label c s r s' :
  select_compiler E label c s = (Ok r, s') ->
  r = Some (c_type c) /\ compiler_type s' = Some (c_type c) /\
  compiler_path s' = c_path c.
Proof.
  intros H. unfold select_compiler, bind, modify, print, ret in H. cbn in H.
  destruct (Py.truthy (c_path c)); cbn in H; injection H as <- <-; auto.
Qed.

Lemma choose_compiler_picks l s r s' :
  length l <> 1 ->
  choose_compiler E l s = (Ok r, s') ->
  exists text i c,
    In (Line text) (stdin s) /\
    picks (length l) (Py.strip text) = Some i /\ nth_error l i = Some c /\
    r = Some (c_type c) /\ compiler_type s' = Some (c_type c) /\
    compiler_path s' = c_path c.
Proof.
  intros Hlen H.
  assert (Hmenu : (print "Multiple compilers detected:" ;;
                   for_each (combine (seq 1 (length l)) l)
                     (fun ic _ => list_compiler ic) tt ;;
                   menu ("Select compiler (1-" ++ Py.str_nat (length l) ++ "): ")
                     (compiler_turn E l)) s = (Ok r, s')).
  { rewrite <- H. f_equal.
    destruct l as [|c [|c' l']]; [reflexivity | cbn in Hlen; congruence | reflexivity]. }
  clear H. pose proof F_stdin_ok as Hok.
  apply (bind_stdin true) in Hmenu; [|framing].
  destruct Hmenu as (_ & s1 & [Hs1 _] & H).
  apply (bind_stdin true) in H; [|unfold list_compiler; framing].
  destruct H as (_ & s2 & [Hs2 _] & H).
  apply menu_accepts in H. destruct H as (text & leave & s3 & Hin & Ht & Hrun).
  apply compiler_turn_accepts in Ht. destruct Ht as (i & c & Hp & Hn & ->).
  apply select_compiler_sets in Hrun. destruct Hrun as (-> & Hty & Hpath).
  exists text, i, c. split; [congruence | auto 6].
Qed.

Lemma version_turn_accepts choice leave :
  version_turn E choice = Accept leave ->
  choice = "1" \/ (choice = "2" /\ leave = ret ("dev", master)).
Proof.
  unfold version_turn.
  destruct (String.eqb_spec choice "1"); [auto|].
  destruct (String.eqb_spec choice "2"); [|discriminate].
  intros [= <-]. auto.
Qed.

Lemma version_turn_refuses choice :
  choice <> "1" -> choice <> "2" -> exists msg, version_turn E choice = Refuse msg.
Proof.
  intros H1 H2. unfold version_turn.
  destruct (String.eqb_spec choice "1"); [contradiction|].
  destruct (String.eqb_spec choice "2"); [contradiction|].
  eexists; reflexivity.
Qed.

Lemma choose_source_version_picks s r s' :
  choose_source_version E s = (Ok r, s') ->
  exists text,
    In (Line text) (stdin s) /\
    (Py.strip text = "1" \/ (Py.strip text = "2" /\ r = ("dev", master))).
Proof.
  intros H. expose choose_source_version (choose_source_version E) H.
  pose proof F_stdin_ok as Hok.
  apply (bind_stdin true) in H; [|unfold print_section; framing].
  destruct H as (_ & s1 & [Hs1 _] & H).
  do 3 (apply (bind_stdin true) in H; [|framing];
        destruct H as (_ & ? & [? _] & H)).
  apply menu_accepts in H. destruct H as (text & leave & s5 & Hin & Ht & Hrun).
  exists text. split; [congruence|].
  apply version_turn_accepts in Ht. destruct Ht as [Ht | [Ht ->]]; [auto|].
  right. split; [exact Ht|]. injection Hrun as <- _. reflexivity.
Qed.

End CompilerMenu.

Lemma architecture_turn_accepts auto_arch choice leave :
  architecture_turn auto_arch choice = Accept leave ->
  (choice = "1" /\ leave = ret auto_arch) \/
  (choice = "2" /\ leave = manual_architecture_selection).
Proof.
  unfold architecture_turn.
  destruct (String.eqb_spec choice "1"); [intros [= <-]; auto|].
  destruct (String.eqb_spec choice "2"); [|discriminate].
  intros [= <-]. auto.
Qed.

Lemma architecture_turn_refuses auto_arch choice :
  choice <> "1" -> choice <> "2" ->
  exists msg, architecture_turn auto_arch choice = Refuse msg.
Proof.
  intros H1 H2. unfold architecture_turn.
  destruct (String.eqb_spec choice "1"); [contradiction|].
  destruct (String.eqb_spec choice "2"); [contradiction|].
  eexists; reflexivity.
Qed.

Lemma choose_architecture_picks s arch s' :
  choose_architecture s = (Ok arch, s') ->
  exists text,
    In (Line text) (stdin s) /\
    ((Py.strip text = "1" /\
      arch = if Py.truthy (arch_detected s) then show_opt (arch_detected s)
             else "x86-64") \/
     (Py.strip text = "2" /\ In arch (map fst archs))).
Proof.
  intros H. expose choose_architecture choose_architecture H.
  pose proof F_stdin_ok as Hok.
  apply (bind_stdin true) in H; [|unfold print_section; framing].
  destruct H as (_ & s1 & [Hs1 Ha] & H).
  unfold bind at 1, get in H. rewrite Ha in H.
  do 4 (apply (bind_stdin true) in H; [|framing];
        destruct H as (_ & ? & [? _] & H)).
  apply menu_accepts in H. destruct H as (text & leave & s5 & Hin & Ht & Hrun).
  exists text. split; [congruence|].
  apply architecture_turn_accepts in Ht. destruct Ht as [[Ht ->] | [Ht ->]].
  - left. split; [exact Ht|]. injection Hrun as <- _. reflexivity.
  - right. split; [exact Ht|].
    apply manual_architecture_selection_picks in Hrun.
    destruct Hrun as (_ & i & desc & _ & _ & Hn).
    apply nth_error_In in Hn. apply (in_map fst) in Hn. exact Hn.
Qed.

(** ** The end of a run without compiler *)

Section NoCompiler.

Variable E : Env.

Lemma before_configuration keys s1 r s2 :
  greet (init keys) = (Ok tt, s1) ->
  detect_compiler E s1 = (r, s2) ->
  staging_view s2 = (None, []) /\ Forall (ev_ok None false) (log s2).
Proof.
  intros H1 H2.
  destruct (greet_quiet true (init keys) I) as (Hv1 & (evs1 & Hl1 & Hev1) & _).
  rewrite H1 in Hv1, Hl1. cbn in Hv1, Hl1. injection Hv1 as _ _ _ Ht1 Hc1.
  destruct (detect_compiler_locate E true s1 I) as (Hv2 & (evs2 & Hl2 & Hev2) & _).
  rewrite H2 in Hv2, Hl2. cbn in Hv2, Hl2. injection Hv2 as Ht2 Hc2.
  split.
  - unfold staging_view. congruence.
  - rewrite Hl2, Hl1, app_nil_r. apply Forall_app. split; assumption.
Qed.

(** The run after [detect_compiler] has returned [None]. *)
Lemma exit_without_compiler keys s1 s2 :
  greet (init keys) = (Ok tt, s1) ->
  detect_compiler E s1 = (Ok None, s2) ->
  (fst (main E keys) = Ok 1%Z \/
   (stdin s2 = [] /\ fst (main E keys) = Raise EOFError)) /\
  staging_view (snd (main E keys)) = (None, []) /\
  forall d, ~ In (Mkdtemp d) (log (snd (main E keys))).
Proof.
  intros H1 H2.
  destruct (before_configuration keys s1 (Ok None) s2 H1 H2) as [Hv Hev].
  assert (Hno : forall d, ~ In (Mkdtemp d) (log s2))
    by (intros d; apply (no_mkdtemp None); exact Hev).
  assert (Hrun : run E (init keys)
                 = (input "Press Enter to exit..." ;; ret 1%Z) s2).
  { unfold run. unfold bind at 1. rewrite H1. unfold bind at 1. rewrite H2.
    reflexivity. }
  unfold main. rewrite Hrun. unfold bind, input, print, modify, ret.
  destruct (stdin s2) as [|[text|] rest] eqn:Hin; cbn; rewrite ?Hin; cbn.
  - split; [right; split; reflexivity|]. split; [exact Hv|].
    intros d [H | [H | [H | H]]]; try discriminate H. exact (Hno d H).
  - split; [left; reflexivity|]. split; [exact Hv|].
    intros d [H | H]; [discriminate H | exact (Hno d H)].
  - split; [left; reflexivity|]. split; [exact Hv|].
    intros d [H | [H | H]]; try discriminate H. exact (Hno d H).
Qed.

End NoCompiler.

(** * The claims *)

(** ** Exit status and artifact *)




(** ** Staging directory *)




(** The path the amended cleanup statement leaves out: when the download fails, [run]
    returns 1 without calling [cleanup], unlike the two failure paths that
    follow it. *)
Example download_failure_skips_cleanup :
  fst (main linux_offline keys_default) = Ok 1%Z /\
  download_failed (log (snd (main linux_offline keys_default))) /\
  created (snd (main linux_offline keys_default)) = ["/tmp/sf"] /\
  forall ok, ~ In (Rmtree "/tmp/sf" ok) (log (snd (main linux_offline keys_default))).
Proof.
  split; [vm_compute; reflexivity|]. split.
  - exists "network unreachable". vm_compute. tauto.
  - split; [vm_compute; reflexivity|].
    intros ok. vm_compute. intuition discriminate.
Qed.

(** ** Architecture detection *)

(** C3. Architecture detection is total: on every host and in every state
    of the session, whatever the probe does, [detect_architecture] returns
    normally, with a tier of [auto_tiers] that it also records; on an x86
    host whose probe raises (process error, time-out, no compiler
    executable), the tier is the generic [x86-64]. *)
Theorem detect_architecture_total (E : Env) (s : State) :
  exists arch s',
    detect_architecture E s = (Ok arch, s') /\
    In arch auto_tiers /\
    arch_detected s' = Some arch /\
    (is_arm E = false ->
     forall e, fst (probe_architecture E s) = Raise e -> arch = "x86-64").
Proof.
  destruct (detect_architecture_tier E s) as (arch & s' & Hrun & Hin & Hd & Hx).
  exists arch, s'. repeat split; auto.
  intros Harm e He. rewrite (Hx Harm), He. reflexivity.
Qed.

Lemma detect_architecture_total_witness :
  is_arm bare_linux = false /\
  fst (probe_architecture bare_linux (with_compiler "gcc")) = Raise (Error "not found") /\
  fst (detect_architecture bare_linux (with_compiler "gcc")) = Ok "x86-64".
Proof.
  assert (H1 : is_arm bare_linux = false) by reflexivity.
  assert (H2 : fst (probe_architecture bare_linux (with_compiler "gcc"))
               = Raise (Error "not found")) by reflexivity.
  split; [exact H1|]. split; [exact H2|].
  destruct (detect_architecture_total bare_linux (with_compiler "gcc"))
    as (arch & s' & Hrun & _ & _ & Hfall).
  rewrite Hrun. cbn [fst]. f_equal. exact (Hfall H1 _ H2).
Defined.

(** C9. Automatic detection returns one of exactly nine tiers, each of
    which some host makes it return; [x86-64-vnni512] and [x86-32] are not
    among them, and are what the manual menu returns for its options 1
    and 8. *)
Theorem auto_detection_tiers :
  (forall E s, exists arch,
      fst (detect_architecture E s) = Ok arch /\ In arch auto_tiers) /\
  auto_tiers
  = ["apple-silicon"; "armv8"; "armv7"; "x86-64-vnni256"; "x86-64-avx512";
     "x86-64-bmi2"; "x86-64-avx2"; "x86-64-sse41-popcnt"; "x86-64"] /\
  length auto_tiers = 9 /\
  NoDup auto_tiers /\
  ~ In "x86-64-vnni512" auto_tiers /\
  ~ In "x86-32" auto_tiers /\
  Forall (fun arch => exists E s, fst (detect_architecture E s) = Ok arch)
    auto_tiers /\
  fst (manual_architecture_selection (init [Line "1"])) = Ok "x86-64-vnni512" /\
  fst (manual_architecture_selection (init [Line "8"])) = Ok "x86-32".
Proof.
  split.
  { intros E s.
    destruct (detect_architecture_tier E s) as (arch & s' & Hrun & Hin & _).
    exists arch. rewrite Hrun. auto. }
  split; [reflexivity|]. split; [reflexivity|].
  split.
  { unfold auto_tiers.
    repeat (constructor; [cbn; intuition discriminate|]). constructor. }
  split; [cbn; intuition discriminate|].
  split; [cbn; intuition discriminate|].
  split; [|split; vm_compute; reflexivity].
  unfold auto_tiers. repeat constructor.
  - exists (probe_host "Darwin" "arm64" ""), (init []). vm_compute. reflexivity.
  - exists (probe_host "Linux" "aarch64" ""), (init []). vm_compute. reflexivity.
  - exists (probe_host "Linux" "armv7l" ""), (init []). vm_compute. reflexivity.
  - exists (probe_host "Linux" "x86_64" "mavx512vnni [enabled]"), (with_compiler "gcc").
    vm_compute. reflexivity.
  - exists (probe_host "Linux" "x86_64" "mavx512f [enabled]"), (with_compiler "gcc").
    vm_compute. reflexivity.
  - exists (probe_host "Linux" "x86_64" "mbmi2 [enabled]"), (with_compiler "gcc").
    vm_compute. reflexivity.
  - exists (probe_host "Linux" "x86_64" "mavx2 [enabled]"), (with_compiler "gcc").
    vm_compute. reflexivity.
  - exists (probe_host "Linux" "x86_64" "msse4.1 mpopcnt [enabled]"),
      (with_compiler "gcc").
    vm_compute. reflexivity.
  - exists (probe_host "Linux" "x86_64" ""), (with_compiler "gcc").
    vm_compute. reflexivity.
Qed.

(** C4, as stated, fails: the Clang probe reports BMI2 and the Zen marker
    [znver3]; the BMI2 tier is selected. *)
Lemma clang_zen3_selects_bmi2 :
  Py.contains "+bmi2" (Py.lower zen3_report) = true /\
  Py.contains "znver" (Py.lower zen3_report) = true /\
  subprocess_run zen3_host ["clang++"; "-E"; "-"; "-march=native"; "-###"]
  = Completed 0 zen3_report zen3_report /\
  fst (detect_architecture zen3_host (with_compiler "clang")) = Ok "x86-64-bmi2".
Proof. repeat split; vm_compute; reflexivity. Qed.

(** C4 (amended). Zen exclusion: on the GCC path a [znver] marker of any
    generation on a [march] line, and on the Clang path the markers [znver1]
    and [znver2], keep the BMI2 tier from being selected; when no AVX-512
    tier applies either, the chain goes on to AVX2, then SSE4.1+POPCNT, then
    the generic tier. *)
Theorem zen_excludes_bmi2 (E : Env) (s : State) (exe : string) (rc : Z)
    (out err : string) :
  is_arm E = false ->
  compiler_exe E s = Some exe ->
  (is_kind "gcc" (compiler_type s) = true ->
   subprocess_run E [exe; "-Q"; "-march=native"; "--help=target"]
   = Completed 0 out err ->
   gcc_is_zen (Py.lower out) = true ->
   exists arch,
     fst (detect_architecture E s) = Ok arch /\ arch <> "x86-64-bmi2" /\
     (gcc_flag "mavx512vnni" (Py.lower out) = false ->
      gcc_flag "mavx512f" (Py.lower out) = false ->
      arch = if gcc_flag "mavx2" (Py.lower out) then "x86-64-avx2"
             else if gcc_flag "msse4.1" (Py.lower out)
                     && gcc_flag "mpopcnt" (Py.lower out)
                  then "x86-64-sse41-popcnt"
                  else "x86-64")) /\
  (is_kind "clang" (compiler_type s) = true ->
   subprocess_run E [exe; "-E"; "-"; "-march=native"; "-###"]
   = Completed rc out err ->
   clang_is_zen (Py.lower err) = true ->
   exists arch,
     fst (detect_architecture E s) = Ok arch /\ arch <> "x86-64-bmi2" /\
     (Py.contains "+avx512f" (Py.lower err)
      && Py.contains "+avx512bw" (Py.lower err) = false ->
      arch = if Py.contains "+avx2" (Py.lower err) then "x86-64-avx2"
             else if Py.contains "+sse4.1" (Py.lower err)
                     && Py.contains "+popcnt" (Py.lower err)
                  then "x86-64-sse41-popcnt"
                  else "x86-64")).
Proof.
  intros Harm Hexe.
  destruct (detect_architecture_tier E s) as (arch & s' & Hrun & _ & _ & Hx).
  specialize (Hx Harm). split.
  - intros Hty Hp Hzen. rewrite (probe_gcc E s exe out err Hexe Hty Hp) in Hx.
    exists arch. rewrite Hrun. split; [reflexivity|].
    subst arch. unfold gcc_chain, arch_after. rewrite Hzen. cbn [negb].
    rewrite andb_false_r.
    split.
    + repeat match goal with
             | |- context [if ?c then _ else _] => destruct c
             end; cbn; discriminate.
    + intros -> ->.
      destruct (gcc_flag "mavx2" (Py.lower out)); [reflexivity|].
      destruct (gcc_flag "msse4.1" (Py.lower out)
                && gcc_flag "mpopcnt" (Py.lower out))%bool; reflexivity.
  - intros Hty Hp Hzen. rewrite (probe_clang E s exe rc out err Hexe Hty Hp) in Hx.
    exists arch. rewrite Hrun. split; [reflexivity|].
    subst arch. unfold clang_chain, arch_after. rewrite Hzen. cbn [negb].
    rewrite andb_false_r.
    split.
    + repeat match goal with
             | |- context [if ?c then _ else _] => destruct c
             end; cbn; discriminate.
    + intros Hno. rewrite <- andb_assoc, Hno, andb_false_r.
      destruct (Py.contains "+avx2" (Py.lower err)); [reflexivity|].
      destruct (Py.contains "+sse4.1" (Py.lower err)
                && Py.contains "+popcnt" (Py.lower err))%bool; reflexivity.
Qed.

Lemma zen_excludes_bmi2_witness :
  is_arm zen2_host = false /\
  compiler_exe zen2_host (with_compiler "clang") = Some "clang++" /\
  is_kind "clang" (compiler_type (with_compiler "clang")) = true /\
  subprocess_run zen2_host ["clang++"; "-E"; "-"; "-march=native"; "-###"]
  = Completed 0 zen2_report zen2_report /\
  clang_is_zen (Py.lower zen2_report) = true /\
  Py.contains "+avx512f" (Py.lower zen2_report)
  && Py.contains "+avx512bw" (Py.lower zen2_report) = false /\
  fst (detect_architecture zen2_host (with_compiler "clang")) = Ok "x86-64-avx2".
Proof.
  assert (H1 : is_arm zen2_host = false) by reflexivity.
  assert (H2 : compiler_exe zen2_host (with_compiler "clang") = Some "clang++")
    by reflexivity.
  assert (H3 : is_kind "clang" (compiler_type (with_compiler "clang")) = true)
    by reflexivity.
  assert (H4 : subprocess_run zen2_host
                 ["clang++"; "-E"; "-"; "-march=native"; "-###"]
               = Completed 0 zen2_report zen2_report) by reflexivity.
  assert (H5 : clang_is_zen (Py.lower zen2_report) = true) by reflexivity.
  assert (H6 : Py.contains "+avx512f" (Py.lower zen2_report)
               && Py.contains "+avx512bw" (Py.lower zen2_report) = false)
    by reflexivity.
  repeat (split; [assumption|]).
  destruct (zen_excludes_bmi2 zen2_host (with_compiler "clang") "clang++" 0
              zen2_report zen2_report H1 H2) as [_ H].
  destruct (H H3 H4 H5) as (arch & Hrun & _ & Hnext).
  rewrite Hrun. f_equal. rewrite (Hnext H6). reflexivity.
Defined.




(** ** The compiler locator *)




(** C7. If no compiler is found and no manual path succeeds, so that
    [detect_compiler] returns [None], the run ends with status 1: [main]
    returns 1, or, when the console is closed at the last prompt, the
    [EOFError] leaves [main] (for which the interpreter exits with status 1
    as well).  No staging directory is created at any point. *)
Theorem no_compiler_exits_1 (E : Env) (keys : list Key) (s1 s2 : State) :
  greet (init keys) = (Ok tt, s1) ->
  detect_compiler E s1 = (Ok None, s2) ->
  (fst (main E keys) = Ok 1%Z \/
   (stdin s2 = [] /\ fst (main E keys) = Raise EOFError)) /\
  temp_dir (snd (main E keys)) = None /\
  created (snd (main E keys)) = [] /\
  forall d, ~ In (Mkdtemp d) (log (snd (main E keys))).
Proof.
  intros H1 H2.
  destruct (exit_without_compiler E keys s1 s2 H1 H2) as (Hres & Hv & Hno).
  injection Hv as Ht Hc. auto.
Qed.

Lemma no_compiler_exits_1_witness :
  greet (init [Line ""; Line ""]) = (Ok tt, snd (greet (init [Line ""; Line ""]))) /\
  detect_compiler bare_linux (snd (greet (init [Line ""; Line ""])))
  = (Ok None, snd (detect_compiler bare_linux (snd (greet (init [Line ""; Line ""]))))) /\
  fst (main bare_linux [Line ""; Line ""]) = Ok 1%Z /\
  created (snd (main bare_linux [Line ""; Line ""])) = [].
Proof.
  assert (H1 : greet (init [Line ""; Line ""])
               = (Ok tt, snd (greet (init [Line ""; Line ""]))))
    by (vm_compute; reflexivity).
  assert (H2 : detect_compiler bare_linux (snd (greet (init [Line ""; Line ""])))
               = (Ok None,
                  snd (detect_compiler bare_linux
                         (snd (greet (init [Line ""; Line ""]))))))
    by (vm_compute; reflexivity).
  assert (H3 : stdin (snd (detect_compiler bare_linux
                             (snd (greet (init [Line ""; Line ""])))))
               = [Line ""])
    by (vm_compute; reflexivity).
  split; [exact H1|]. split; [exact H2|].
  destruct (no_compiler_exits_1 bare_linux [Line ""; Line ""] _ _ H1 H2)
    as ([Hres | [Hin _]] & _ & Hc & _).
  - split; [exact Hres | exact Hc].
  - exfalso. rewrite H3 in Hin. discriminate Hin.
Defined.

(** ** The compiler tag *)

(** C10. Every [COMP=] parameter a run passes to a child process carries
    the tag of the compiler that was selected: [mingw] exactly when the
    host system is Windows and the selected kind is [gcc], and the selected
    kind ([gcc] or [clang]) otherwise.  All [COMP=] parameters of a run are
    therefore equal; the build and the strip step pass the same tag. *)
Theorem comp_tag_consistent (E : Env) (keys : list Key) (argv : list string)
    (c : string) :
  In (Spawn argv) (log (snd (main E keys))) ->
  In c (comp_params argv) ->
  (exists ty,
      compiler_type (snd (main E keys)) = Some ty /\ known_kind ty /\
      (c = "mingw" <-> (system E = "Windows" /\ ty = "gcc")) /\
      (c <> "mingw" -> c = ty)) /\
  (forall argv' c',
      In (Spawn argv') (log (snd (main E keys))) -> In c' (comp_params argv') ->
      c' = c).
Proof.
  intros Hspawn Hc.
  assert (Hany : forall tag, Forall (ev_ok tag true) (log (snd (main E keys))) ->
            forall argv' c', In (Spawn argv') (log (snd (main E keys))) ->
              In c' (comp_params argv') -> Some c' = tag).
  { intros tag Hall argv' c' Hin Hc'. rewrite Forall_forall in Hall.
    specialize (Hall _ Hin). cbn in Hall. rewrite Forall_forall in Hall. auto. }
  destruct (main_tagged E keys) as [Hnone | (ty & (Hk & Hty & Hcmd) & Hall)].
  - discriminate (Hany None Hnone argv c Hspawn Hc).
  - assert (Hc_eq : c = comp_tag E ty).
    { pose proof (Hany _ Hall argv c Hspawn Hc) as H. congruence. }
    split.
    + exists ty. split; [exact Hty|]. split; [exact Hk|].
      subst c. unfold comp_tag, is_windows.
      destruct (String.eqb_spec (system E) "Windows") as [Hw | Hw];
        destruct Hk as [-> | ->]; cbn;
        (split;
         [split;
          [intros H; try discriminate H; auto
          |intros [H1 H2]; try discriminate H2; try contradiction; auto]
         |intros H; try reflexivity; exfalso; apply H; reflexivity]).
    + intros argv' c' Hin Hc'.
      pose proof (Hany _ Hall argv' c' Hin Hc') as H. congruence.
Qed.

Lemma comp_tag_consistent_witness :
  In (Spawn ["make"; "-j4"; "profile-build"; "ARCH=x86-64-avx2"; "COMP=gcc"])
     (log (snd (main linux_gcc keys_default))) /\
  In (Spawn ["make"; "strip"; "COMP=gcc"]) (log (snd (main linux_gcc keys_default))) /\
  In "gcc" (comp_params ["make"; "-j4"; "profile-build"; "ARCH=x86-64-avx2"; "COMP=gcc"]) /\
  compiler_type (snd (main linux_gcc keys_default)) = Some "gcc".
Proof.
  assert (H1 : In (Spawn ["make"; "-j4"; "profile-build"; "ARCH=x86-64-avx2"; "COMP=gcc"])
                 (log (snd (main linux_gcc keys_default))))
    by (vm_compute; tauto).
  assert (H2 : In (Spawn ["make"; "strip"; "COMP=gcc"])
                 (log (snd (main linux_gcc keys_default))))
    by (vm_compute; tauto).
  assert (H3 : In "gcc" (comp_params ["make"; "-j4"; "profile-build";
                                        "ARCH=x86-64-avx2"; "COMP=gcc"]))
    by (vm_compute; tauto).
  split; [exact H1|]. split; [exact H2|]. split; [exact H3|].
  destruct (comp_tag_consistent linux_gcc keys_default _ _ H1 H3)
    as [(ty & Hty & _ & _ & Hsame) _].
  assert (Hne : "gcc" <> "mingw") by discriminate.
  rewrite Hty, <- (Hsame Hne). reflexivity.
Defined.

(** ** The menus *)

(** C8. Each of the four selection menus returns only what a line typed at
    its prompt selects among its options: a number from 1 to the number of
    options in the compiler menu and in the manual architecture list, [1] or
    [2] in the architecture and source-version menus.  A line that is not
    such a choice selects nothing: the prompt comes again for the next
    line, with the selection fields of the session unchanged, and nothing
    is raised. *)
Theorem menus_return_valid_choices (E : Env) :
  (forall l s r s',
      length l <> 1 -> choose_compiler E l s = (Ok r, s') ->
      exists text i c,
        In (Line text) (stdin s) /\
        picks (length l) (Py.strip text) = Some i /\ i < length l /\
        nth_error l i = Some c /\ r = Some (c_type c) /\
        compiler_type s' = Some (c_type c) /\ compiler_path s' = c_path c) /\
  (forall p l text rest s,
      picks (length l) (Py.strip text) = None ->
      exists s1,
        prompt_loop p (compiler_turn E l) (Line text :: rest) s
        = prompt_loop p (compiler_turn E l) rest s1 /\
        stdin s1 = rest /\ choice_view s1 = choice_view s) /\
  (forall s arch s',
      manual_architecture_selection s = (Ok arch, s') ->
      exists text i desc,
        In (Line text) (stdin s) /\
        picks (length archs) (Py.strip text) = Some i /\ i < length archs /\
        nth_error archs i = Some (arch, desc)) /\
  (forall p text rest s,
      picks (length archs) (Py.strip text) = None ->
      exists s1,
        prompt_loop p arch_turn (Line text :: rest) s
        = prompt_loop p arch_turn rest s1 /\
        stdin s1 = rest /\ choice_view s1 = choice_view s) /\
  (forall s arch s',
      choose_architecture s = (Ok arch, s') ->
      exists text,
        In (Line text) (stdin s) /\
        ((Py.strip text = "1" /\
          arch = if Py.truthy (arch_detected s) then show_opt (arch_detected s)
                 else "x86-64") \/
         (Py.strip text = "2" /\ In arch (map fst archs)))) /\
  (forall p auto_arch text rest s,
      Py.strip text <> "1" -> Py.strip text <> "2" ->
      exists s1,
        prompt_loop p (architecture_turn auto_arch) (Line text :: rest) s
        = prompt_loop p (architecture_turn auto_arch) rest s1 /\
        stdin s1 = rest /\ choice_view s1 = choice_view s) /\
  (forall s r s',
      choose_source_version E s = (Ok r, s') ->
      exists text,
        In (Line text) (stdin s) /\
        (Py.strip text = "1" \/ (Py.strip text = "2" /\ r = ("dev", master)))) /\
  (forall p text rest s,
      Py.strip text <> "1" -> Py.strip text <> "2" ->
      exists s1,
        prompt_loop p (version_turn E) (Line text :: rest) s
        = prompt_loop p (version_turn E) rest s1 /\
        stdin s1 = rest /\ choice_view s1 = choice_view s).
Proof.
  assert (Hagain : forall A (turn : string -> Turn A) p text rest s,
            (exists msg, turn (Py.strip text) = Refuse msg) ->
            exists s1,
              prompt_loop p turn (Line text :: rest) s = prompt_loop p turn rest s1 /\
              stdin s1 = rest /\ choice_view s1 = choice_view s).
  { intros A turn p text rest s (msg & Hmsg).
    destruct (prompt_loop_refused p turn text rest s msg Hmsg)
      as (s1 & H1 & H2 & H3 & _).
    exists s1. auto. }
  repeat split.
  - intros l s r s' Hlen H.
    destruct (choose_compiler_picks E l s r s' Hlen H)
      as (text & i & c & H1 & H2 & H3 & H4 & H5 & H6).
    exists text, i, c. repeat split; auto. eapply picks_bound; eauto.
  - intros p l text rest s H. apply Hagain. apply compiler_turn_refuses. exact H.
  - intros s arch s' H.
    destruct (manual_architecture_selection_picks s arch s' H)
      as (text & i & desc & H1 & H2 & H3).
    exists text, i, desc. repeat split; auto. eapply picks_bound; eauto.
  - intros p text rest s H. apply Hagain. apply arch_turn_refuses. exact H.
  - apply choose_architecture_picks.
  - intros p a text rest s H1 H2. apply Hagain.
    apply architecture_turn_refuses; assumption.
  - apply choose_source_version_picks.
  - intros p text rest s H1 H2. apply Hagain.
    apply version_turn_refuses; assumption.
Qed.

Lemma menus_return_valid_choices_witness :
  manual_architecture_selection (init [Line "abc"; Line "0"; Line "12"; Line " 8 "])
  = (Ok "x86-32",
     snd (manual_architecture_selection
            (init [Line "abc"; Line "0"; Line "12"; Line " 8 "]))) /\
  picks (length archs) (Py.strip "abc") = None /\
  picks (length archs) (Py.strip "0") = None /\
  picks (length archs) (Py.strip "12") = None /\
  picks (length archs) (Py.strip " 8 ") = Some 7 /\
  exists text i desc,
    In (Line text) [Line "abc"; Line "0"; Line "12"; Line " 8 "] /\
    picks (length archs) (Py.strip text) = Some i /\ i < length archs /\
    nth_error archs i = Some ("x86-32", desc).
Proof.
  assert (H : manual_architecture_selection
                (init [Line "abc"; Line "0"; Line "12"; Line " 8 "])
              = (Ok "x86-32",
                 snd (manual_architecture_selection
                        (init [Line "abc"; Line "0"; Line "12"; Line " 8 "]))))
    by (vm_compute; reflexivity).
  split; [exact H|]. repeat (split; [vm_compute; reflexivity|]).
  destruct (menus_return_valid_choices bare_linux) as (_ & _ & Hmenu & _).
  exact (Hmenu _ _ _ H).
Defined.

(** * Further properties of the code

    Beyond the claims: what each method returns and when, what it does with
    failures of the host, what a run never does, and how the steps of a run
    fit together. *)

(** ** The tools a session relies on *)

Section Tools.

Variable E : Env.

(** X1. [find_make_executable] answers with the bare name [make] or with a
    file that exists: on Windows with a recorded compiler directory [p], one
    of [make.exe] and [mingw32-make.exe] in [p] and [usr/bin/make.exe] two
    levels above [p]; on any other system, or without a recorded directory,
    always [make]. *)
Theorem find_make_executable_sound (s : State) :
  (find_make_executable E s = "make" \/
   (is_windows E = true /\
    path_exists E (find_make_executable E s) = true /\
    exists p,
      compiler_path s = Some p /\
      In (find_make_executable E s)
         [joinpath E p "make.exe"; joinpath E p "mingw32-make.exe";
          joinpath E (joinpath E (joinpath E (parent E (parent E p)) "usr") "bin")
            "make.exe"])) /\
  (is_windows E = false \/ Py.truthy (compiler_path s) = false ->
   find_make_executable E s = "make").
Proof.
  unfold find_make_executable. split.
  - destruct (Py.truthy (compiler_path s)) eqn:Ht; cbn; [|left; reflexivity].
    destruct (is_windows E) eqn:Hw; cbn; [|left; reflexivity].
    destruct (compiler_path s) as [p|]; [|left; reflexivity].
    destruct (path_exists E (joinpath E p "make.exe")) eqn:H1.
    { right. split; [reflexivity|]. split; [exact H1|].
      exists p. split; [reflexivity | left; reflexivity]. }
    destruct (path_exists E (joinpath E p "mingw32-make.exe")) eqn:H2.
    { right. split; [reflexivity|]. split; [exact H2|].
      exists p. split; [reflexivity | right; left; reflexivity]. }
    match goal with |- context [path_exists E ?q] => destruct (path_exists E q) eqn:H3 end.
    { right. split; [reflexivity|]. split; [exact H3|].
      exists p. split; [reflexivity | right; right; left; reflexivity]. }
    left. reflexivity.
  - intros [Hw | Ht]; [rewrite Hw | rewrite Ht]; cbn.
    + rewrite orb_true_r. reflexivity.
    + reflexivity.
Qed.

(** X2. [check_compiler_in_path] never raises and reads nothing from the
    console.  It returns a candidate exactly when the compiler executable of
    the directory exists and answers [--version] with exit status 0; the
    candidate then records the kind ([gcc] for the name [g], [clang]
    otherwise), the first line of the answer and the directory. *)
Theorem check_compiler_in_path_spec (dir name : string) (s : State) :
  exists r s',
    check_compiler_in_path E dir name s = (Ok r, s') /\
    stdin s' = stdin s /\
    forall c,
      r = Some c <->
      path_exists E (joinpath E dir ((name ++ "++") ++ (if is_windows E then ".exe" else "")))
      = true /\
      exists out err,
        subprocess_run E
          [joinpath E dir ((name ++ "++") ++ (if is_windows E then ".exe" else ""));
           "--version"]
        = Completed 0 out err /\
        c = {| c_type := if String.eqb name "g" then "gcc" else "clang";
               c_name := if String.eqb name "g" then "MinGW GCC" else "Clang/LLVM";
               c_version := Py.first_line out;
               c_path := Some dir |}.
Proof.
  unfold check_compiler_in_path, run_process, bind, event, modify, ret.
  set (exe := joinpath E dir ((name ++ "++") ++ (if is_windows E then ".exe" else ""))).
  destruct (path_exists E exe) eqn:Hx; cbn.
  - destruct (subprocess_run E [exe; "--version"]) as [rc out err | msg] eqn:Hrun; cbn.
    + destruct (rc =? 0)%Z eqn:Hrc; cbn.
      * apply Z.eqb_eq in Hrc. subst rc.
        eexists; eexists. split; [reflexivity|]. split; [reflexivity|].
        intros c. split.
        -- intros [= <-]. split; [reflexivity|]. exists out, err.
           split; [reflexivity|]. destruct (String.eqb name "g"); reflexivity.
        -- intros (_ & out' & err' & [= <- <-] & ->).
           destruct (String.eqb name "g"); reflexivity.
      * eexists; eexists. split; [reflexivity|]. split; [reflexivity|].
        intros c. split; [discriminate|].
        intros (_ & out' & err' & [= -> _ _] & _). discriminate Hrc.
    + eexists; eexists. split; [reflexivity|]. split; [reflexivity|].
      intros c. split; [discriminate|].
      intros (_ & out' & err' & Hbad & _). discriminate Hbad.
  - eexists; eexists. split; [reflexivity|]. split; [reflexivity|].
    intros c. split; [discriminate|]. intros (Hbad & _). discriminate Hbad.
Qed.

End Tools.

(** ** The menus, further *)



(** ** Architecture detection, further *)

Lemma F_console_ok : frame_ok F_console.
Proof. intros ev s. reflexivity. Qed.

#[local] Hint Resolve F_console_ok : frame.

Section Console.

Variable E : Env.

Lemma detect_architecture_console b : framed F_console b (detect_architecture E).
Proof.
  unfold detect_architecture, detected, probe_architecture, probe_failed,
    report_chain, run_process, print_header.
  framing.
Qed.

End Console.

Lemma auto_tier_truthy arch : In arch auto_tiers -> Py.truthy (Some arch) = true.
Proof.
  intros H. cbn in H.
  repeat (destruct H as [<- | H]; [reflexivity|]). destruct H.
Qed.

(** X4. Detection followed by the architecture menu: when the user answers
    [1], the menu returns the tier that [detect_architecture] has just
    returned and recorded. *)
Theorem auto_choice_is_detected_tier (E : Env) (s : State) (text : string)
    (rest : list Key) :
  stdin s = Line text :: rest ->
  Py.strip text = "1" ->
  exists arch s1 s2,
    detect_architecture E s = (Ok arch, s1) /\
    choose_architecture s1 = (Ok arch, s2) /\
    stdin s2 = rest /\ arch_detected s2 = Some arch.
Proof.
  intros Hkeys Hone.
  destruct (detect_architecture_tier E s) as (arch & s1 & Hrun & Htier & Hrec & _).
  assert (Hin : stdin s1 = Line text :: rest).
  { destruct (detect_architecture_console E true s I) as (Hv & _).
    rewrite Hrun in Hv. cbn in Hv. congruence. }
  pose proof (auto_tier_truthy arch Htier) as Ht.
  exists arch, s1. eexists. split; [exact Hrun|].
  unfold choose_architecture, print_section, menu, bind, get, print, modify.
  cbn. rewrite Hin, Hrec. cbn [prompt_loop].
  unfold architecture_turn at 1. rewrite Hone.
  destruct arch as [|c r]; [discriminate Ht|]. cbn.
  split; [reflexivity|]. split; [reflexivity | exact Hrec].
Qed.

Lemma auto_choice_is_detected_tier_witness :
  stdin (set_compiler (Some "gcc") None (Some "gcc") (init [Line " 1 "; Line "x"]))
  = [Line " 1 "; Line "x"] /\
  exists arch s1 s2,
    detect_architecture linux_gcc
      (set_compiler (Some "gcc") None (Some "gcc") (init [Line " 1 "; Line "x"]))
    = (Ok arch, s1) /\
    choose_architecture s1 = (Ok arch, s2) /\
    stdin s2 = [Line "x"] /\ arch_detected s2 = Some arch.
Proof.
  split; [reflexivity|].
  apply (auto_choice_is_detected_tier linux_gcc
           (set_compiler (Some "gcc") None (Some "gcc") (init [Line " 1 "; Line "x"]))
           " 1 " [Line "x"]).
  - reflexivity.
  - vm_compute. reflexivity.
Defined.

(** X5. On an ARM host [detect_architecture] decides from the system and
    machine names alone: it runs no child process, reads nothing, and
    returns [apple-silicon] on Darwin, [armv8] for an [aarch64] or [arm64]
    machine and [armv7] otherwise. *)
Theorem arm_hosts_are_not_probed (E : Env) (s : State) :
  is_arm E = true ->
  exists s',
    detect_architecture E s
    = (Ok (if String.eqb (system E) "Darwin" then "apple-silicon"
           else if Py.contains "aarch64" (machine E) || Py.contains "arm64" (machine E)
                then "armv8" else "armv7"), s') /\
    stdin s' = stdin s /\
    forall argv, In (Spawn argv) (log s') -> In (Spawn argv) (log s).
Proof.
  intros Harm. unfold is_arm in Harm.
  unfold detect_architecture, detected, print_header, bind, print, modify, ret.
  cbn. rewrite Harm.
  destruct (String.eqb (system E) "Darwin");
    [|destruct (Py.contains "aarch64" (machine E) || Py.contains "arm64" (machine E))];
    cbn; eexists; (split; [reflexivity|]); (split; [reflexivity|]);
    intros argv Hin; cbn in Hin;
    repeat (destruct Hin as [Hin | Hin]; [discriminate Hin|]); exact Hin.
Qed.

Lemma arm_hosts_are_not_probed_witness :
  is_arm arm_board = true /\
  exists s',
    detect_architecture arm_board (with_compiler "gcc") = (Ok "armv8", s') /\
    stdin s' = stdin (with_compiler "gcc") /\
    forall argv, In (Spawn argv) (log s') -> In (Spawn argv) (log (with_compiler "gcc")).
Proof.
  split; [vm_compute; reflexivity|].
  apply (arm_hosts_are_not_probed arm_board (with_compiler "gcc")).
  vm_compute. reflexivity.
Defined.

Lemma gcc_chain_nothing_enabled out :
  Py.contains "[enabled]" out = false -> gcc_chain out = (None, "x86-64").
Proof.
  intros H. unfold gcc_chain, gcc_flag. rewrite H, !andb_false_r. reflexivity.
Qed.

(** X6. On the GCC path, a probe that exits with a non-zero status, or
    whose dump carries no [[enabled]] mark at all, yields the generic tier
    [x86-64]. *)
Theorem gcc_probe_falls_back_to_generic (E : Env) (s : State) (exe : string)
    (rc : Z) (out err : string) :
  is_arm E = false ->
  compiler_exe E s = Some exe ->
  is_kind "gcc" (compiler_type s) = true ->
  subprocess_run E [exe; "-Q"; "-march=native"; "--help=target"]
  = Completed rc out err ->
  rc <> 0%Z \/ Py.contains "[enabled]" (Py.lower out) = false ->
  exists s',
    detect_architecture E s = (Ok "x86-64", s') /\
    arch_detected s' = Some "x86-64".
Proof.
  intros Harm Hexe Hgcc Hrun Hcase.
  destruct (detect_architecture_x86 E s Harm) as (s' & Hdet & Hrec).
  assert (Hprobe : fst (probe_architecture E s) = Ok "x86-64").
  { destruct (rc =? 0)%Z eqn:Hrc.
    - apply Z.eqb_eq in Hrc. subst rc.
      destruct Hcase as [Hbad | Hnone]; [congruence|].
      rewrite (probe_gcc E s exe out err Hexe Hgcc Hrun).
      rewrite (gcc_chain_nothing_enabled _ Hnone). reflexivity.
    - unfold probe_architecture, run_process, bind, get, event, modify, ret.
      cbn. rewrite Hexe, Hgcc. cbn. rewrite Hrun, Hrc. reflexivity. }
  rewrite Hprobe in Hdet, Hrec. cbn in Hdet, Hrec.
  exists s'. split; assumption.
Qed.

Lemma gcc_probe_falls_back_to_generic_witness :
  Py.contains "mavx2" (Py.lower "  -mavx2    [enabled]") = true /\
  exists s',
    detect_architecture gcc_exit1_host (with_compiler "gcc") = (Ok "x86-64", s') /\
    arch_detected s' = Some "x86-64".
Proof.
  split; [vm_compute; reflexivity|].
  apply (gcc_probe_falls_back_to_generic gcc_exit1_host (with_compiler "gcc") "g++"
           1%Z "  -mavx2    [enabled]" "").
  - vm_compute. reflexivity.
  - vm_compute. reflexivity.
  - vm_compute. reflexivity.
  - vm_compute. reflexivity.
  - left. discriminate.
Defined.

(** X7. Without a selected compiler of kind [gcc] or [clang], detection on
    an x86 host runs no child process: the missing executable is reported as
    the reason, and the generic tier is returned and recorded. *)
Theorem detection_without_compiler_is_generic (E : Env) (s : State) :
  is_arm E = false ->
  is_kind "gcc" (compiler_type s) = false ->
  is_kind "clang" (compiler_type s) = false ->
  exists s',
    detect_architecture E s = (Ok "x86-64", s') /\
    arch_detected s' = Some "x86-64" /\
    In (Print "Reason: No compiler executable determined") (log s') /\
    forall argv, In (Spawn argv) (log s') -> In (Spawn argv) (log s).
Proof.
  intros Harm Hgcc Hclang. unfold is_arm in Harm.
  unfold detect_architecture, detected, probe_architecture, probe_failed,
    print_header, try_except, bind, get, print, modify, raise, ret.
  cbn. rewrite Harm. unfold compiler_exe. cbn. rewrite Hgcc, Hclang. cbn.
  destruct (Py.truthy (compiler_path s)); cbn;
    (eexists; split; [reflexivity|]; split; [reflexivity|]; split;
     [cbn; repeat (first [left; reflexivity | right])
     |intros argv Hin; cbn in Hin;
      repeat (destruct Hin as [Hin | Hin]; [discriminate Hin|]); exact Hin]).
Qed.

Lemma detection_without_compiler_is_generic_witness :
  compiler_type (init []) = None /\
  exists s',
    detect_architecture bare_linux (init []) = (Ok "x86-64", s') /\
    arch_detected s' = Some "x86-64" /\
    In (Print "Reason: No compiler executable determined") (log s') /\
    forall argv, In (Spawn argv) (log s') -> In (Spawn argv) (log (init [])).
Proof.
  split; [reflexivity|].
  apply (detection_without_compiler_is_generic bare_linux (init []));
    vm_compute; reflexivity.
Defined.

Lemma contains_here needle rest : Py.contains needle (needle ++ rest) = true.
Proof.
  assert (Hp : String.prefix needle (needle ++ rest) = true).
  { induction needle as [|c n IH]; cbn; [destruct rest; reflexivity|].
    destruct (ascii_dec c c); [exact IH | congruence]. }
  revert Hp. destruct (needle ++ rest); cbn; intros ->; reflexivity.
Qed.

Lemma contains_later needle a b :
  Py.contains needle b = true -> Py.contains needle (a ++ b) = true.
Proof.
  intros Hb. induction a as [|c a IH]; cbn; [exact Hb|].
  rewrite IH. apply orb_true_r.
Qed.

Lemma prefix_shorter a b t :
  String.prefix a t = false -> String.prefix (a ++ b) t = false.
Proof.
  revert t. induction a as [|c a IH]; intros t; cbn.
  { destruct t; intros H; discriminate H. }
  destruct t as [|d t]; cbn; [reflexivity|].
  destruct (ascii_dec c d); [apply IH | reflexivity].
Qed.

Lemma contains_longer a b t :
  Py.contains a t = false -> Py.contains (a ++ b) t = false.
Proof.
  induction t as [|d t IH]; cbn [Py.contains]; intros H; apply orb_false_iff in H;
    destruct H as (Hp & Ht); rewrite (prefix_shorter a b _ Hp); cbn [orb];
    [reflexivity | apply IH; exact Ht].
Qed.

Lemma lower_append a b : Py.lower (a ++ b) = Py.lower a ++ Py.lower b.
Proof. induction a as [|c a IH]; cbn; [reflexivity | rewrite IH; reflexivity]. Qed.

(** X8. The GCC dump is not read line by line: as soon as it mentions
    [-mavx2] and, anywhere after it, the mark [[enabled]], AVX2 counts as
    present, whatever lies between the two (the flag's own [[disabled]] mark,
    for one).  When the dump mentions no AVX-512 and no BMI2 flag, the tier is
    then [x86-64-avx2]. *)
Theorem gcc_flags_are_not_read_per_line (E : Env) (s : State) (exe : string)
    (before between after err : string) :
  is_arm E = false ->
  compiler_exe E s = Some exe ->
  is_kind "gcc" (compiler_type s) = true ->
  subprocess_run E [exe; "-Q"; "-march=native"; "--help=target"]
  = Completed 0
      (before ++ "-mavx2" ++ between ++ "[enabled]" ++ after) err ->
  Py.contains "mavx512" (Py.lower (before ++ "-mavx2" ++ between ++ "[enabled]" ++ after))
  = false ->
  Py.contains "mbmi2" (Py.lower (before ++ "-mavx2" ++ between ++ "[enabled]" ++ after))
  = false ->
  fst (detect_architecture E s) = Ok "x86-64-avx2".
Proof.
  intros Harm Hexe Hgcc Hrun H512 Hbmi2.
  destruct (detect_architecture_x86 E s Harm) as (s' & Hdet & _).
  rewrite Hdet, (probe_gcc E s exe _ err Hexe Hgcc Hrun). cbn [fst arch_after].
  set (out := Py.lower (before ++ "-mavx2" ++ between ++ "[enabled]" ++ after)) in *.
  assert (Havx2 : gcc_flag "mavx2" out = true).
  { unfold gcc_flag, out. rewrite !lower_append. apply andb_true_iff. split.
    - apply contains_later. change (Py.lower "-mavx2") with ("-" ++ "mavx2").
      rewrite append_assoc. apply contains_later, contains_here.
    - do 3 apply contains_later. apply contains_here. }
  assert (Hf : Py.contains ("mavx512" ++ "f") out = false)
    by exact (contains_longer "mavx512" "f" out H512).
  assert (Hvnni : Py.contains ("mavx512" ++ "vnni") out = false)
    by exact (contains_longer "mavx512" "vnni" out H512).
  cbn [append] in Hf, Hvnni.
  unfold gcc_chain. unfold gcc_flag at 1 2 3 4. rewrite Hvnni, Hf, Hbmi2. cbn.
  unfold gcc_flag in Havx2. rewrite Havx2. reflexivity.
Qed.

Lemma gcc_flags_are_not_read_per_line_witness :
  Py.contains "-mavx2                      [disabled]" avx2_disabled_report = true /\
  fst (detect_architecture avx2_disabled_host (with_compiler "gcc")) = Ok "x86-64-avx2".
Proof.
  split; [vm_compute; reflexivity|].
  apply (gcc_flags_are_not_read_per_line avx2_disabled_host (with_compiler "gcc") "g++"
           "  " ("                      [disabled]" ++ String Py.newline
                   "  -msse2                      ") ""
           avx2_disabled_report);
    vm_compute; reflexivity.
Defined.

(** ** The steps of the pipeline, one by one *)

Lemma returns_menu {A} (p : string) (turn : string -> Turn A) (Q : A -> Prop) :
  (forall c leave, turn c = Accept leave -> returns leave Q) ->
  returns (menu p turn) Q.
Proof.
  intros H s a Hrun. unfold menu in Hrun.
  destruct (prompt_loop p turn (stdin s) s) as [r s'] eqn:Hloop.
  cbn in Hrun. subst r.
  destruct (prompt_loop_accepts _ _ _ _ _ _ Hloop) as (t & leave & s1 & _ & Ht & Hl).
  apply (H _ _ Ht s1). rewrite Hl. reflexivity.
Qed.

Section StepByStep.

Variable E : Env.

(** The release a query answer stands for. *)
Lemma get_latest_release_returns :
  returns (get_latest_release E)
    (fun r => forall info, r = Some info ->
       url info <> "" /\
       exists data,
         latest_release E = Returned data /\ zipball_url data = Some (url info)).
Proof.
  intros s r Hrun info ->.
  unfold get_latest_release, try_except, bind, print, modify, raise, ret in Hrun.
  cbn in Hrun.
  destruct (latest_release E) as [data | msg]; cbn in Hrun; [|discriminate Hrun].
  destruct (zipball_url data) as [[|c u]|] eqn:Hurl; cbn in Hrun;
    try discriminate Hrun.
  injection Hrun as <-. cbn. split; [discriminate|].
  exists data. split; [reflexivity | exact Hurl].
Qed.


(** X10. The version menu returns the development archive, or a release
    with a non-empty download URL that the release query answered with;
    never a release without URL. *)
Theorem release_needs_download_url (s : State) (kind : string) (info : SourceInfo) :
  fst (choose_source_version E s) = Ok (kind, info) ->
  (kind = "dev" /\ info = master) \/
  (kind = "release" /\ url info <> "" /\
   exists data,
     latest_release E = Returned data /\ zipball_url data = Some (url info)).
Proof.
  intros Hrun.
  enough (R : returns (choose_source_version E)
                (fun r => (fst r = "dev" /\ snd r = master) \/
                          (fst r = "release" /\ url (snd r) <> "" /\
                           exists data,
                             latest_release E = Returned data /\
                             zipball_url data = Some (url (snd r)))))
    by exact (R s (kind, info) Hrun).
  unfold choose_source_version.
  do 4 apply returns_seq. apply returns_menu. intros c leave Hturn.
  unfold version_turn in Hturn.
  destruct (String.eqb c "1"); [|destruct (String.eqb c "2")];
    try discriminate Hturn; injection Hturn as <-.
  - eapply returns_bind; [apply get_latest_release_returns|].
    intros [rel|] Hrel.
    + apply returns_ret. right. cbn. destruct (Hrel rel eq_refl) as (Hne & Hdata).
      split; [reflexivity|]. split; assumption.
    + apply returns_seq, returns_ret. left. split; reflexivity.
  - apply returns_ret. left. split; reflexivity.
Qed.

End StepByStep.

Lemma release_needs_download_url_witness :
  fst (choose_source_version linux_online (init [Line "1"]))
  = Ok ("release", sf17_source) /\
  (("release" = "dev" /\ sf17_source = master) \/
   ("release" = "release" /\ url sf17_source <> "" /\
    exists data,
      latest_release linux_online = Returned data /\
      zipball_url data = Some (url sf17_source))).
Proof.
  split; [vm_compute; reflexivity|].
  apply (release_needs_download_url linux_online (init [Line "1"]) "release"
           sf17_source).
  vm_compute. reflexivity.
Defined.

(** An event of another kind than those a step added is an older one. *)
Ltac old_event H :=
  cbn in H; repeat (destruct H as [H | H]; [discriminate H|]); exact H.

(** The event is among those now in the log. *)
Ltac logged := cbn; repeat (first [left; reflexivity | right]).

Section BuildSteps.

Variable E : Env.

Lemma find_make_executable_emit ev s :
  find_make_executable E (emit ev s) = find_make_executable E s.
Proof. reflexivity. Qed.

Lemma on_disk_head d l s : created s = d :: l -> on_disk d s = true.
Proof. intros H. unfold on_disk. rewrite H. cbn. rewrite String.eqb_refl. reflexivity. Qed.

(** X11. The three outcomes of [download_source]: the [src] directory of
    the first extracted directory, which exists and is recorded; [None]
    after any failure of download or extraction, reported as such, with the
    staging directory recorded, still on disk and its removal not attempted;
    or the exception of [mkdtemp] itself, which is raised before the [try]
    and leaves the staging fields of the session as they were. *)
Theorem download_source_outcomes (info : SourceInfo) (s : State) :
  match download_source E info s with
  | (Ok (Some src), s') =>
      exists dir first rest,
        mkdtemp E = Returned dir /\
        urlretrieve E (url info) (joinpath E dir "stockfish.zip") = None /\
        extractall E (joinpath E dir "stockfish.zip") dir = Returned (first :: rest) /\
        src = joinpath E first "src" /\ path_exists E src = true /\
        source_dir s' = Some src /\ temp_dir s' = Some dir /\ on_disk dir s' = true
  | (Ok None, s') =>
      exists dir,
        mkdtemp E = Returned dir /\ temp_dir s' = Some dir /\ on_disk dir s' = true /\
        download_failed (log s') /\
        forall ok, In (Rmtree dir ok) (log s') -> In (Rmtree dir ok) (log s)
  | (Raise e, s') =>
      exists msg,
        mkdtemp E = Threw msg /\ e = Error msg /\
        temp_dir s' = temp_dir s /\ created s' = created s
  end.
Proof.
  unfold download_source, fetch_and_extract, print_header, try_except, bind,
    print, event, modify, raise, ret.
  cbn. destruct (mkdtemp E) as [dir | msg]; cbn.
  2: { exists msg. repeat split; reflexivity. }
  assert (Hdisk : forall l, (dir =? dir) || existsb (String.eqb dir) l = true).
  { intros l. rewrite String.eqb_refl. reflexivity. }
  assert (Hfail : forall text (l : list Event),
             download_failed (Print ("✗ Error downloading source: " ++ text) :: l)).
  { intros text l. exists text. left. reflexivity. }
  destruct (urlretrieve E (url info) (joinpath E dir "stockfish.zip")) as [msg|] eqn:Hget;
    cbn.
  { exists dir. repeat (split; [first [reflexivity | apply Hdisk | apply Hfail]|]).
    intros ok Hin. old_event Hin. }
  destruct (extractall E (joinpath E dir "stockfish.zip") dir) as [[|first rest] | msg]
    eqn:Hzip; cbn.
  1, 3: exists dir; repeat (split; [first [reflexivity | apply Hdisk | apply Hfail]|]);
    intros ok Hin; old_event Hin.
  destruct (path_exists E (joinpath E first "src")) eqn:Hsrc; cbn.
  - exists dir, first, rest.
    repeat (split; [first [reflexivity | assumption | apply Hdisk]|]). apply Hdisk.
  - exists dir. repeat (split; [first [reflexivity | apply Hdisk | apply Hfail]|]).
    intros ok Hin. old_event Hin.
Qed.

(** X12. [download_neural_network] returns [True] without asking when
    [make net] exits 0; otherwise it asks once, and what it returns is
    whether the answer is [y], in upper or lower case and blanks aside. *)
Theorem download_neural_network_outcomes (s : State) (b : bool) :
  fst (download_neural_network E s) = Ok b ->
  (b = true /\
   stdin (snd (download_neural_network E s)) = stdin s /\
   exists out err,
     subprocess_run E [find_make_executable E s; "net"] = Completed 0 out err) \/
  (exists text rest,
     stdin s = Line text :: rest /\
     stdin (snd (download_neural_network E s)) = rest /\
     b = String.eqb (Py.lower (Py.strip text)) "y" /\
     forall out err,
       subprocess_run E [find_make_executable E s; "net"] <> Completed 0 out err).
Proof.
  unfold download_neural_network, continue_anyway, print_section, run_process,
    try_except, bind, get, print, event, modify, raise, ret, input.
  cbn.
  change (find_make_executable E (emit _ (emit _ (emit _ (emit _ s)))))
    with (find_make_executable E s).
  destruct (subprocess_run E [find_make_executable E s; "net"])
    as [rc out err | msg] eqn:Hnet; cbn.
  - destruct (rc =? 0)%Z eqn:Hrc; cbn.
    + apply Z.eqb_eq in Hrc. subst rc. intros [= <-]. left.
      split; [reflexivity|]. split; [reflexivity|]. exists out, err. reflexivity.
    + destruct (stdin s) as [|[text|] rest] eqn:Hin; cbn.
      * rewrite andb_false_r. cbn. rewrite Hin. discriminate.
      * intros [= <-]. right. exists text, rest.
        repeat (split; [reflexivity|]). intros out' err' [= -> _ _]. discriminate Hrc.
      * discriminate.
  - destruct (is_windows E && Py.contains "cannot find the file specified" msg);
      [destruct (Py.truthy (compiler_path s))|]; cbn;
      (destruct (stdin s) as [|[text|] rest] eqn:Hin; cbn; try discriminate;
       intros [= <-]; right; exists text, rest;
       repeat (split; [reflexivity|]); discriminate).
Qed.

(** X13. When [make net] fails and the console is closed, the [EOFError]
    of the question is caught by the step's own handler: it is reported as
    an error of the download, the question is asked a second time, and the
    second [EOFError] leaves the step. *)
Theorem closed_console_is_reported_as_network_error (s : State) (rc : Z)
    (out err : string) :
  subprocess_run E [find_make_executable E s; "net"] = Completed rc out err ->
  rc <> 0%Z ->
  stdin s = [] ->
  fst (download_neural_network E s) = Raise EOFError /\
  exists evs,
    log (snd (download_neural_network E s))
    = (Input "Continue anyway? (y/n): " None
       :: Print "Error downloading network: EOF when reading a line"
       :: Input "Continue anyway? (y/n): " None
       :: Print "the network file manually later."
       :: evs)%list.
Proof.
  intros Hnet Hrc Hin. apply Z.eqb_neq in Hrc.
  unfold download_neural_network, continue_anyway, print_section, run_process,
    try_except, bind, get, print, event, modify, raise, ret, input.
  cbn.
  change (find_make_executable E (emit _ (emit _ (emit _ (emit _ s)))))
    with (find_make_executable E s).
  rewrite Hnet. cbn. rewrite Hrc. cbn. rewrite Hin. cbn.
  rewrite andb_false_r. cbn. rewrite Hin. cbn.
  split; [reflexivity|]. eexists. reflexivity.
Qed.

(** X14. [compile_stockfish] never raises and reads nothing.  With the CPU
    count of the host known, it runs the builder once, on [profile-build]
    with the given architecture, the recorded compiler tag and one job per
    CPU, and returns [True] exactly when that process exits 0. *)
Theorem compile_stockfish_reports_builder_exit (arch : string) (s : State) :
  exists b s',
    compile_stockfish E arch s = (Ok b, s') /\
    stdin s' = stdin s /\
    In (Spawn [find_make_executable E s; "-j" ++ Py.str_nat (cpu_count E);
               "profile-build"; "ARCH=" ++ arch;
               "COMP=" ++ show_opt (comp_command s)]) (log s') /\
    (b = true <->
     exists out err,
       subprocess_run E
         [find_make_executable E s; "-j" ++ Py.str_nat (cpu_count E);
          "profile-build"; "ARCH=" ++ arch; "COMP=" ++ show_opt (comp_command s)]
       = Completed 0 out err).
Proof.
  unfold compile_stockfish, report_build_path, print_header, run_process,
    try_except, bind, get, print, event, modify, raise, ret.
  cbn.
  repeat (match goal with
          | |- context [if ?c then _ else _] => destruct c eqn:?
          end; cbn).
  all: rewrite ?find_make_executable_emit.
  all: destruct (subprocess_run E _) as [rc out err | msg] eqn:Hrun; cbn;
    [destruct (rc =? 0)%Z eqn:Hrc; cbn|].
  all: eexists; eexists; (split; [reflexivity|]); (split; [reflexivity|]);
    (split; [logged|]).
  all: split; try discriminate; try (intros (out' & err' & Hbad); discriminate Hbad).
  all: try (intros _; apply Z.eqb_eq in Hrc; subst rc; eauto).
  all: try reflexivity.
  all: intros (out' & err' & [= -> _ _]); discriminate Hrc.
Qed.

(** X15. [strip_executable] returns [True] whatever the builder does (exit
    status, failure to start, time-out); it reads nothing and leaves the
    source directory alone. *)
Theorem strip_executable_never_fails (s : State) :
  exists s',
    strip_executable E s = (Ok true, s') /\
    stdin s' = stdin s /\ source_dir s' = source_dir s /\
    In (Spawn [find_make_executable E s; "strip";
               "COMP=" ++ show_opt (comp_command s)]) (log s').
Proof.
  unfold strip_executable, print_section, run_process, try_except, bind, get,
    print, event, modify, raise, ret.
  cbn. rewrite ?find_make_executable_emit.
  destruct (subprocess_run E _) as [rc out err | msg]; cbn;
    [destruct (rc =? 0)%Z; cbn|].
  all: eexists; (split; [reflexivity|]); (split; [reflexivity|]);
    (split; [reflexivity|]); logged.
Qed.

(** X16. [copy_executable] never raises.  A path it returns is
    [stockfish_<version>_<arch>] (with [.exe] on Windows) in the working
    directory; the executable of the source directory exists and was copied
    there; the copy was made executable on systems other than Windows, where
    no mode is changed. *)
Theorem copy_executable_publishes_in_cwd (arch v : string) (s : State) :
  exists r s',
    copy_executable E arch v s = (Ok r, s') /\
    stdin s' = stdin s /\ staging_view s' = staging_view s /\
    forall p,
      r = Some p ->
      p = joinpath E (cwd E)
            ("stockfish_" ++ v ++ "_" ++ arch ++ (if is_windows E then ".exe" else "")) /\
      exists d,
        source_dir s = Some d /\
        path_exists E (joinpath E d (exe_name E)) = true /\
        copy2 E (joinpath E d (exe_name E)) p = None /\
        In (Copy (joinpath E d (exe_name E)) p) (log s') /\
        if is_windows E
        then forall q, In (Chmod q) (log s') -> In (Chmod q) (log s)
        else chmod E p = None /\ In (Chmod p) (log s').
Proof.
  unfold copy_executable, print_section, try_except, bind, get, print, event,
    modify, raise, ret.
  cbn. destruct (source_dir s) as [d|] eqn:Hd; cbn.
  2: { eexists; eexists. repeat (split; [reflexivity|]). discriminate. }
  destruct (path_exists E (joinpath E d (exe_name E))) eqn:Hx; cbn.
  2: { eexists; eexists. repeat (split; [reflexivity|]). discriminate. }
  destruct (copy2 E _ _) as [msg|] eqn:Hcp; cbn.
  { eexists; eexists. repeat (split; [reflexivity|]). discriminate. }
  destruct (is_windows E) eqn:Hw; cbn.
  - destruct (stat_size E _) as [n | msg]; cbn.
    + eexists; eexists. repeat (split; [reflexivity|]). intros p [= <-].
      split; [reflexivity|]. exists d. repeat (split; [first [reflexivity | assumption]|]).
      split; [logged|]. intros q Hin. old_event Hin.
    + eexists; eexists. repeat (split; [reflexivity|]). discriminate.
  - destruct (chmod E _) as [msg|] eqn:Hch; cbn.
    { eexists; eexists. repeat (split; [reflexivity|]). discriminate. }
    destruct (stat_size E _) as [n | msg]; cbn.
    + eexists; eexists. repeat (split; [reflexivity|]). intros p [= <-].
      split; [reflexivity|]. exists d. repeat (split; [first [reflexivity | assumption]|]).
      split; [logged|]. split; [exact Hch | logged].
    + eexists; eexists. repeat (split; [reflexivity|]). discriminate.
Qed.

Lemma not_on_disk_after_removal d s : on_disk d (remove_dir d s) = false.
Proof.
  unfold on_disk, remove_dir. cbn. induction (created s) as [|x l IH]; cbn; [reflexivity|].
  destruct (String.eqb d x) eqn:Hdx; cbn; [exact IH|]. rewrite Hdx. exact IH.
Qed.

Lemma cleanup_nothing_to_do s :
  temp_dir s = None \/ (exists d, temp_dir s = Some d /\ on_disk d s = false) ->
  cleanup E s = (Ok tt, s).
Proof.
  unfold cleanup, bind, get, ret. cbn.
  intros [-> | (d & -> & Hoff)]; cbn; [reflexivity|].
  rewrite Hoff. reflexivity.
Qed.

(** X17. [cleanup] never raises.  It changes nothing when no staging
    directory is recorded or the recorded one is gone; once the removal has
    succeeded the directory is gone and a second [cleanup] changes nothing; a
    removal that fails is logged and leaves the directory. *)
Theorem cleanup_is_idempotent (s : State) :
  exists s1,
    cleanup E s = (Ok tt, s1) /\
    stdin s1 = stdin s /\ temp_dir s1 = temp_dir s /\
    (temp_dir s = None \/ (exists d, temp_dir s = Some d /\ on_disk d s = false) ->
     s1 = s) /\
    (forall d, temp_dir s = Some d -> rmtree E d = None ->
               on_disk d s1 = false /\ cleanup E s1 = (Ok tt, s1)) /\
    (forall d msg, temp_dir s = Some d -> on_disk d s = true -> rmtree E d = Some msg ->
                   on_disk d s1 = true /\ In (Rmtree d false) (log s1)).
Proof.
  destruct (temp_dir s) as [d|] eqn:Hd.
  2: { exists s. split; [apply cleanup_nothing_to_do; auto|].
       split; [reflexivity|]. split; [exact Hd|]. split; [reflexivity|].
       split; discriminate. }
  destruct (on_disk d s) eqn:Hon.
  2: { exists s. split; [apply cleanup_nothing_to_do; eauto|].
       split; [reflexivity|]. split; [exact Hd|]. split; [reflexivity|]. split.
       - intros d' [= <-] _. split; [exact Hon|].
         apply cleanup_nothing_to_do. eauto.
       - intros d' msg [= <-]. congruence. }
  unfold cleanup at 1. unfold bind, get, print, event, modify, ret.
  cbn. rewrite Hd. cbn. rewrite Hon.
  destruct (rmtree E d) as [msg|] eqn:Hrm; cbn.
  - eexists. split; [reflexivity|]. split; [reflexivity|]. split; [exact Hd|].
    split; [|split].
    + intros [Hbad | (d' & [= <-] & Hbad)]; congruence.
    + intros d' [= <-] Hok. congruence.
    + intros d' msg' [= <-] _ _. split; [exact Hon | logged].
  - eexists. split; [reflexivity|]. split; [reflexivity|]. split; [exact Hd|].
    split; [|split].
    + intros [Hbad | (d' & [= <-] & Hbad)]; congruence.
    + intros d' [= <-] _.
      assert (Hoff : on_disk d (remove_dir d s) = false) by apply not_on_disk_after_removal.
      split; [exact Hoff|].
      apply cleanup_nothing_to_do. right. exists d. split; [exact Hd | exact Hoff].
    + intros d' msg' [= <-] _ Hbad. congruence.
Qed.

End BuildSteps.

Lemma download_neural_network_outcomes_witness :
  fst (download_neural_network failing_tools_host (init [Line " Y"; Line "n"])) = Ok true /\
  ((true = true /\
    stdin (snd (download_neural_network failing_tools_host (init [Line " Y"; Line "n"])))
    = stdin (init [Line " Y"; Line "n"]) /\
    exists out err,
      subprocess_run failing_tools_host
        [find_make_executable failing_tools_host (init [Line " Y"; Line "n"]); "net"]
      = Completed 0 out err) \/
   (exists text rest,
      stdin (init [Line " Y"; Line "n"]) = Line text :: rest /\
      stdin (snd (download_neural_network failing_tools_host (init [Line " Y"; Line "n"])))
      = rest /\
      true = String.eqb (Py.lower (Py.strip text)) "y" /\
      forall out err,
        subprocess_run failing_tools_host
          [find_make_executable failing_tools_host (init [Line " Y"; Line "n"]); "net"]
        <> Completed 0 out err)).
Proof.
  split; [vm_compute; reflexivity|].
  apply (download_neural_network_outcomes failing_tools_host
           (init [Line " Y"; Line "n"]) true).
  vm_compute. reflexivity.
Defined.

Lemma closed_console_is_reported_as_network_error_witness :
  stdin (init []) = [] /\
  fst (download_neural_network failing_tools_host (init [])) = Raise EOFError /\
  exists evs,
    log (snd (download_neural_network failing_tools_host (init [])))
    = (Input "Continue anyway? (y/n): " None
       :: Print "Error downloading network: EOF when reading a line"
       :: Input "Continue anyway? (y/n): " None
       :: Print "the network file manually later."
       :: evs)%list.
Proof.
  split; [reflexivity|].
  apply (closed_console_is_reported_as_network_error failing_tools_host (init []) 2%Z
           "" "make: *** No rule to make target").
  - vm_compute. reflexivity.
  - discriminate.
  - reflexivity.
Defined.

(** ** The run as a whole *)

Lemma F_log_ok : frame_ok F_log.
Proof. intros ev s. reflexivity. Qed.

Lemma F_log_io : frame_io F_log.
Proof. split; intros; [reflexivity | exact I]. Qed.

#[local] Hint Resolve F_log_ok F_log_io : frame.

Lemma grows {A} b (m : M A) s :
  framed F_log b m -> exists evs, log (snd (m s)) = (evs ++ log s)%list.
Proof.
  intros H. destruct (H s I) as (_ & (evs & Hl & _) & _). exists evs. exact Hl.
Qed.

Lemma returns_bind_any {A B} (m : M A) (f : A -> M B) (Q : B -> Prop) :
  (forall a, returns (f a) Q) -> returns (bind m f) Q.
Proof.
  intros Hf. apply (returns_bind m f (fun _ => True)); [intros s a _; exact I | auto].
Qed.

(** The value of a step that only returns at its [ret]s. *)
Ltac returning :=
  repeat (intros; lazymatch goal with
  | |- returns (bind _ _) _ => apply returns_bind_any
  | |- returns (ret _) _ => apply returns_ret
  | |- returns (if ?c then _ else _) _ => destruct c
  | |- returns (match ?x with _ => _ end) _ => destruct x
  end).

Lemma built_grows E evs l : built E l -> built E (evs ++ l).
Proof.
  intros (argv & out & err & Hin & Hpb & Hrun). exists argv, out, err.
  split; [apply in_or_app; right; exact Hin | auto].
Qed.

Lemma bind_ok {A B} (m : M A) (f : A -> M B) s a s1 :
  m s = (Ok a, s1) -> bind m f s = f a s1.
Proof. intros H. unfold bind. rewrite H. reflexivity. Qed.

Lemma bind_inv {A B} (m : M A) (f : A -> M B) s b s' :
  bind m f s = (Ok b, s') -> exists a s1, m s = (Ok a, s1) /\ f a s1 = (Ok b, s').
Proof.
  unfold bind. destruct (m s) as [[a | e] s1]; [eauto | discriminate].
Qed.

Lemma post_of_returns {A} (m : M A) (P : A -> Prop) (Q : A -> State -> Prop) :
  returns m P -> (forall a s, P a -> Q a s) -> post m Q.
Proof.
  intros Hm HPQ s a s' Hrun. apply HPQ. apply (Hm s). rewrite Hrun. reflexivity.
Qed.

(** Postconditions that hold at every [ret] a step can end with. *)
Ltac posting :=
  repeat (intros; lazymatch goal with
  | |- post (bind _ _) _ => apply post_bind
  | |- post (ret _) _ => apply post_ret
  | |- post (if ?c then _ else _) _ => destruct c
  | |- post (match ?x with _ => _ end) _ => destruct x
  end).

Section WholeRun.

Variable E : Env.

Lemma compile_true_built arch s s1 :
  compile_stockfish E arch s = (Ok true, s1) -> built E (log s1).
Proof.
  intros H.
  unfold compile_stockfish, report_build_path, print_header, run_process,
    try_except, bind, get, print, event, modify, raise, ret in H.
  exec_in H; try discriminate H.
  all: injection H as <-.
  all: match goal with
       | Hrc : (?z =? 0)%Z = true |- _ => apply Z.eqb_eq in Hrc; subst z
       end.
  all: match goal with
       | Hr : subprocess_run E ?argv = Completed 0 ?o ?e |- _ => exists argv, o, e
       end.
  all: split; [logged|]; split; [logged | assumption].
Qed.

Lemma publish_grows arch info b :
  framed F_log b
    (strip_executable E ;;
     output_path <- copy_executable E arch (version info) ;;
     cleanup E ;;
     print_header "Compilation Complete!" ;;
     match output_path with
     | Some path =>
         print "Your optimized Stockfish executable is ready!" ;;
         print ("Location: " ++ path) ;;
         print ("Architecture: " ++ arch) ;;
         print ("Version: " ++ version info) ;;
         print (rule "=") ;;
         print "To use Stockfish:" ;;
         print ("  1. Run: " ++ path) ;;
         print "  2. Or use it with a chess GUI (e.g., Arena, ChessBase)" ;;
         print "For command-line use, type 'uci' then 'quit' to test."
     | None => ret tt
     end ;;
     input "Press Enter to exit..." ;;
     ret 0%Z).
Proof.
  unfold strip_executable, copy_executable, cleanup, print_header, print_section,
    run_process.
  framing.
Qed.

Lemma build_and_publish_built arch info :
  post (build_and_publish E arch info) (fun z s' => z = 0%Z -> built E (log s')).
Proof.
  intros s z s' Hrun Hz. subst z. unfold build_and_publish in Hrun.
  apply bind_inv in Hrun. destruct Hrun as ([|] & s1 & Hc & Htail);
    cbv beta iota delta [negb] in Htail.
  - destruct (grows false _ s1 (publish_grows arch info false)) as (evs & Hl).
    rewrite Htail in Hl. cbn in Hl. rewrite Hl.
    apply built_grows, (compile_true_built arch s s1 Hc).
  - apply bind_inv in Htail. destruct Htail as (? & ? & _ & Htail).
    apply bind_inv in Htail. destruct Htail as (? & ? & _ & Htail).
    discriminate Htail.
Qed.

Lemma run_built : post (run E) (fun z s' => z = 0%Z -> built E (log s')).
Proof.
  unfold run, configure_and_build, acquire_and_build.
  posting. all: try congruence. all: intros; apply build_and_publish_built.
Qed.

Lemma run_returns_status : returns (run E) (fun z => z = 0%Z \/ z = 1%Z).
Proof.
  unfold run, configure_and_build, acquire_and_build, build_and_publish.
  returning. all: auto.
Qed.

(** X18. [main] returns 0 or 1, or an exception leaves it: then the run
    had ended with an exception other than a user interrupt, reported as
    unexpected error, and the prompt of that report met Ctrl-C or a closed
    console. *)
Theorem main_outcomes (keys : list Key) :
  fst (main E keys) = Ok 0%Z \/ fst (main E keys) = Ok 1%Z \/
  exists e k msg,
    fst (main E keys) = Raise e /\ (e = EOFError \/ e = KeyboardInterrupt) /\
    bad_key k = true /\
    exists l,
      log (snd (main E keys))
      = Input "Press Enter to exit..." k :: Print ("Unexpected error: " ++ msg) :: l.
Proof.
  unfold main. destruct (run E (init keys)) as [[z | e] s] eqn:Hrun.
  - destruct (run_returns_status (init keys) z) as [-> | ->];
      [rewrite Hrun; reflexivity | left | right; left]; reflexivity.
  - assert (Hhandler :
      forall msg,
        let out := (print ("Unexpected error: " ++ msg) ;;
                    input "Press Enter to exit..." ;; ret 1%Z) s in
        fst out = Ok 1%Z \/
        exists e k,
          fst out = Raise e /\ (e = EOFError \/ e = KeyboardInterrupt) /\
          bad_key k = true /\
          exists l, log (snd out)
                    = Input "Press Enter to exit..." k
                      :: Print ("Unexpected error: " ++ msg) :: l).
    { intros msg. unfold bind, print, modify, input, ret. cbn.
      destruct (stdin s) as [|[text|] rest]; cbn.
      - right. exists EOFError, None. repeat split; auto. eexists. reflexivity.
      - left. reflexivity.
      - right. exists KeyboardInterrupt, (Some CtrlC). repeat split; auto.
        eexists. reflexivity. }
    destruct e as [| | |msg].
    + destruct (Hhandler (exn_str ValueError)) as [H | (e & k & H)];
        [right; left; exact H | right; right; exists e, k; eauto].
    + destruct (Hhandler (exn_str EOFError)) as [H | (e & k & H)];
        [right; left; exact H | right; right; exists e, k; eauto].
    + right. left. reflexivity.
    + destruct (Hhandler (exn_str (Error msg))) as [H | (e & k & H)];
        [right; left; exact H | right; right; exists e, k; eauto].
Qed.

(** X19. Exit status 0 means that the builder ran on [profile-build] and
    exited 0. *)
Theorem exit_status_0_means_built (keys : list Key) :
  fst (main E keys) = Ok 0%Z -> built E (log (snd (main E keys))).
Proof.
  unfold main. destruct (run E (init keys)) as [[z | e] s] eqn:Hrun; cbn.
  - intros [= ->]. exact (run_built _ _ _ Hrun eq_refl).
  - destruct e; unfold bind, print, modify, input, ret; cbn;
      try destruct (stdin s) as [|[text|] rest]; cbn; discriminate.
Qed.

End WholeRun.

Lemma exit_status_0_means_built_witness :
  fst (main linux_gcc keys_default) = Ok 0%Z /\
  built linux_gcc (log (snd (main linux_gcc keys_default))).
Proof.
  split; [vm_compute; reflexivity|].
  apply (exit_status_0_means_built linux_gcc keys_default).
  vm_compute. reflexivity.
Defined.

(** ** A failed download *)

Section FailedDownload.

Variable E : Env.

(** A failed download leaves the session with its staging directory. *)
Lemma download_source_none info s :
  fst (download_source E info s) = Ok None ->
  exists dir s1,
    download_source E info s = (Ok None, s1) /\
    mkdtemp E = Returned dir /\ temp_dir s1 = Some dir /\
    on_disk dir s1 = true /\ stdin s1 = stdin s /\
    forall ok, In (Rmtree dir ok) (log s1) -> In (Rmtree dir ok) (log s).
Proof.
  unfold download_source, fetch_and_extract, print_header, try_except, bind,
    print, event, modify, raise, ret.
  cbn. destruct (mkdtemp E) as [dir | msg]; cbn; [|discriminate].
  assert (Hdisk : forall l, (dir =? dir) || existsb (String.eqb dir) l = true).
  { intros l. rewrite String.eqb_refl. reflexivity. }
  destruct (urlretrieve E (url info) (joinpath E dir "stockfish.zip")) as [msg|]; cbn.
  2: destruct (extractall E (joinpath E dir "stockfish.zip") dir)
       as [[|first rest] | msg]; cbn.
  3: destruct (path_exists E (joinpath E first "src")); cbn; [discriminate|].
  all: intros _; exists dir; eexists; (split; [reflexivity|]);
    (split; [reflexivity|]); (split; [reflexivity|]); (split; [apply Hdisk|]);
    (split; [reflexivity|]); intros ok Hin; old_event Hin.
Qed.

(** X20. When [download_source] returns [None] in step 5, [run] asks for
    Enter and returns 1 without calling [cleanup]: the staging directory
    stays recorded and on disk, and no removal is attempted. *)
Theorem failed_download_keeps_staging_directory (arch : string) (info : SourceInfo)
    (s : State) :
  fst (download_source E info (emit Clear s)) = Ok None ->
  exists dir,
    mkdtemp E = Returned dir /\
    temp_dir (snd (acquire_and_build E arch info s)) = Some dir /\
    on_disk dir (snd (acquire_and_build E arch info s)) = true /\
    (forall ok, In (Rmtree dir ok) (log (snd (acquire_and_build E arch info s))) ->
                In (Rmtree dir ok) (log s)) /\
    fst (acquire_and_build E arch info s)
    = match stdin s with
      | Line _ :: _ => Ok 1%Z
      | CtrlC :: _ => Raise KeyboardInterrupt
      | [] => Raise EOFError
      end.
Proof.
  intros Hdl.
  destruct (download_source_none info (emit Clear s) Hdl)
    as (dir & s1 & Hrun & Hmk & Htmp & Hdisk & Hin & Hkept).
  exists dir. split; [exact Hmk|].
  assert (Hout : acquire_and_build E arch info s
                 = (input "Press Enter to exit..." ;; ret 1%Z) s1).
  { unfold acquire_and_build, clear_screen.
    rewrite (bind_ok (event Clear) _ s tt (emit Clear s) eq_refl).
    rewrite (bind_ok _ _ _ _ _ Hrun). reflexivity. }
  rewrite Hout. unfold bind, input, ret. cbn in Hin. rewrite Hin.
  destruct (stdin s) as [|[text|] keys]; cbn;
    (split; [exact Htmp|]); (split; [exact Hdisk|]);
    (split; [|reflexivity]); intros ok [Hbad | Hold];
    try discriminate Hbad; apply (Hkept ok) in Hold; old_event Hold.
Qed.

End FailedDownload.

Lemma failed_download_keeps_staging_directory_witness :
  fst (download_source linux_offline master (emit Clear (init [Line ""]))) = Ok None /\
  exists dir,
    mkdtemp linux_offline = Returned dir /\
    temp_dir (snd (acquire_and_build linux_offline "x86-64" master (init [Line ""])))
    = Some dir /\
    on_disk dir (snd (acquire_and_build linux_offline "x86-64" master (init [Line ""])))
    = true /\
    (forall ok,
        In (Rmtree dir ok)
           (log (snd (acquire_and_build linux_offline "x86-64" master (init [Line ""])))) ->
        In (Rmtree dir ok) (log (init [Line ""]))) /\
    fst (acquire_and_build linux_offline "x86-64" master (init [Line ""])) = Ok 1%Z.
Proof.
  split; [vm_compute; reflexivity|].
  apply (failed_download_keeps_staging_directory linux_offline "x86-64" master
           (init [Line ""])).
  vm_compute. reflexivity.
Defined.

(** ** Ctrl-C *)

Lemma interrupted_cons ev l :
  (forall p, ev <> Input p (Some CtrlC)) -> ~ interrupted l -> ~ interrupted (ev :: l).
Proof.
  intros Hev Hl (p & [H | H]); [exact (Hev p H) | apply Hl; exists p; exact H].
Qed.

Lemma unswallowed_ret {A} (a : A) : unswallowed (ret a).
Proof. intros s Hs. right. exact Hs. Qed.

Lemma unswallowed_get {A} (f : State -> A) : unswallowed (get f).
Proof. intros s Hs. right. exact Hs. Qed.

Lemma unswallowed_raise {A} (e : exn) : unswallowed (raise (A := A) e).
Proof. intros s Hs. right. exact Hs. Qed.

Lemma unswallowed_emit (ev : Event) :
  (forall p, ev <> Input p (Some CtrlC)) -> unswallowed (modify (emit ev)).
Proof. intros Hev s Hs. right. cbn. apply interrupted_cons; assumption. Qed.

Lemma unswallowed_print (t : string) : unswallowed (print t).
Proof. apply unswallowed_emit. discriminate. Qed.

Lemma unswallowed_event (ev : Event) :
  (forall p, ev <> Input p (Some CtrlC)) -> unswallowed (event ev).
Proof. apply unswallowed_emit. Qed.

Lemma unswallowed_modify (f : State -> State) :
  (forall s, log (f s) = log s) -> unswallowed (modify f).
Proof. intros Hl s Hs. right. cbn. rewrite Hl. exact Hs. Qed.

Lemma unswallowed_bind {A B} (m : M A) (f : A -> M B) :
  unswallowed m -> (forall a, unswallowed (f a)) -> unswallowed (bind m f).
Proof.
  intros Hm Hf s Hs. unfold bind. specialize (Hm s Hs).
  destruct (m s) as [[a | e] s1]; cbn in *.
  - destruct Hm as [Hm | Hm]; [discriminate Hm|]. apply Hf. exact Hm.
  - destruct Hm as [[= ->] | Hm]; [left; reflexivity | right; exact Hm].
Qed.

Lemma unswallowed_try {A} (body : M A) (handler : exn -> M A) :
  unswallowed body -> (forall e, unswallowed (handler e)) ->
  unswallowed (try_except body handler).
Proof.
  intros Hm Hh s Hs. unfold try_except. specialize (Hm s Hs).
  destruct (body s) as [[a | e] s1]; cbn in *.
  - exact Hm.
  - destruct e; cbn; try (destruct Hm as [Hm | Hm]; [discriminate Hm|]; apply Hh; exact Hm).
    left. reflexivity.
Qed.

Lemma unswallowed_for_each {A B} (xs : list A) (body : A -> B -> M B) :
  (forall x acc, unswallowed (body x acc)) ->
  forall acc, unswallowed (for_each xs body acc).
Proof.
  intros Hb. induction xs as [|x xs IH]; intros acc; cbn.
  - apply unswallowed_ret.
  - apply unswallowed_bind; auto.
Qed.

Lemma unswallowed_input (p : string) : unswallowed (input p).
Proof.
  intros s Hs. unfold input. destruct (stdin s) as [|[text|] rest]; cbn.
  - right. apply interrupted_cons; [discriminate | exact Hs].
  - right. apply interrupted_cons; [discriminate | exact Hs].
  - left. reflexivity.
Qed.

Lemma unswallowed_menu {A} (p : string) (turn : string -> Turn A) :
  (forall c leave, turn c = Accept leave -> unswallowed leave) ->
  unswallowed (menu p turn).
Proof.
  intros Hacc s. unfold menu. generalize (stdin s) as keys. intros keys. revert s.
  induction keys as [|[text|] rest IH]; intros s Hs; cbn.
  - right. apply interrupted_cons; [discriminate | exact Hs].
  - assert (Hs1 : ~ interrupted
                    (log (emit (Input p (Some (Line text))) (set_stdin rest s)))).
    { cbn. apply interrupted_cons; [discriminate | exact Hs]. }
    destruct (turn (Py.strip text)) as [leave | [msg|]] eqn:Ht.
    + apply (Hacc _ _ Ht). exact Hs1.
    + apply IH. cbn. apply interrupted_cons; [discriminate | exact Hs1].
    + apply IH. exact Hs1.
  - left. reflexivity.
Qed.

Create HintDb interrupt.

Ltac passing :=
  repeat (intros; lazymatch goal with
  | |- unswallowed (bind _ _) => apply unswallowed_bind
  | |- unswallowed (ret _) => apply unswallowed_ret
  | |- unswallowed (get _) => apply unswallowed_get
  | |- unswallowed (raise _) => apply unswallowed_raise
  | |- unswallowed (print _) => apply unswallowed_print
  | |- unswallowed (event _) => apply unswallowed_event; discriminate
  | |- unswallowed (modify _) => apply unswallowed_modify; reflexivity
  | |- unswallowed (input _) => apply unswallowed_input
  | |- unswallowed (menu _ _) => apply unswallowed_menu
  | |- unswallowed (try_except _ _) => apply unswallowed_try
  | |- unswallowed (for_each _ _ _) => apply unswallowed_for_each
  | |- unswallowed (if ?c then _ else _) => destruct c eqn:?
  | |- unswallowed (match ?x with _ => _ end) => destruct x eqn:?
  | |- unswallowed _ => solve [eauto with interrupt]
  end).

Section Interrupts.

Variable E : Env.

Lemma detect_compiler_unswallowed : unswallowed (detect_compiler E).
Proof.
  unfold detect_compiler, find_candidates, locate, scan_install, scan_subenv,
    manual_override, manual_subdir, check_search_path, check_compiler_in_path,
    choose_compiler, list_compiler, run_process, print_header.
  passing.
  all: intros; try match goal with H : compiler_turn _ _ _ = Accept _ |- _ =>
         unfold compiler_turn in H; cbv zeta in H; turn_cases H end.
  all: unfold select_compiler; passing.
Qed.

Lemma detect_architecture_unswallowed : unswallowed (detect_architecture E).
Proof.
  unfold detect_architecture, detected, probe_architecture, probe_failed,
    report_chain, run_process, print_header.
  passing.
Qed.

Lemma manual_architecture_selection_unswallowed :
  unswallowed manual_architecture_selection.
Proof.
  unfold manual_architecture_selection, clear_screen, print_header. passing.
  intros. match goal with H : arch_turn _ = Accept _ |- _ =>
    unfold arch_turn in H; cbv zeta in H; turn_cases H end.
  all: passing.
Qed.

Lemma choose_architecture_unswallowed : unswallowed choose_architecture.
Proof.
  unfold choose_architecture, print_section. passing.
  all: intros; match goal with H : architecture_turn _ _ = _ |- _ =>
         unfold architecture_turn in H; turn_cases H end.
  all: passing. apply manual_architecture_selection_unswallowed.
Qed.

Lemma choose_source_version_unswallowed : unswallowed (choose_source_version E).
Proof.
  unfold choose_source_version, print_section. passing.
  all: intros; match goal with H : version_turn _ _ = _ |- _ =>
         unfold version_turn in H; turn_cases H end.
  all: unfold get_latest_release; passing.
Qed.

Lemma build_and_publish_unswallowed arch info :
  unswallowed (build_and_publish E arch info).
Proof.
  unfold build_and_publish, compile_stockfish, report_build_path, strip_executable,
    copy_executable, cleanup, print_header, print_section, run_process.
  passing.
Qed.

#[local] Hint Resolve detect_compiler_unswallowed detect_architecture_unswallowed
  choose_architecture_unswallowed choose_source_version_unswallowed
  build_and_publish_unswallowed : interrupt.

Lemma run_unswallowed : unswallowed (run E).
Proof.
  unfold run, greet, configure_and_build, acquire_and_build, download_source,
    fetch_and_extract, download_neural_network, continue_anyway, cleanup,
    clear_screen, print_header, print_section, run_process.
  passing.
Qed.

(** X21. A Ctrl-C is never swallowed: if one was typed at any prompt,
    [main] returns 1 right after reporting the cancellation, or, when it was
    typed at the prompt of the unexpected-error report, [KeyboardInterrupt]
    leaves [main]. *)
Theorem interrupt_ends_the_run (keys : list Key) :
  interrupted (log (snd (main E keys))) ->
  (fst (main E keys) = Ok 1%Z /\
   hd_error (log (snd (main E keys))) = Some (Print "Operation cancelled by user.")) \/
  (fst (main E keys) = Raise KeyboardInterrupt /\
   exists msg l,
     log (snd (main E keys))
     = Input "Press Enter to exit..." (Some CtrlC)
       :: Print ("Unexpected error: " ++ msg) :: l).
Proof.
  unfold main.
  assert (Hfresh : ~ interrupted (log (init keys))) by (intros (p & []) ).
  pose proof (run_unswallowed (init keys) Hfresh) as Hrun.
  destruct (run E (init keys)) as [[z | e] s]; cbn in Hrun.
  - cbn. intros Hint. destruct Hrun as [Hrun | Hrun]; [discriminate Hrun | contradiction].
  - assert (Hhandler :
      forall msg,
        ~ interrupted (log s) ->
        let out := (print ("Unexpected error: " ++ msg) ;;
                    input "Press Enter to exit..." ;; ret 1%Z) s in
        interrupted (log (snd out)) ->
        fst out = Raise KeyboardInterrupt /\
        exists msg l,
          log (snd out)
          = Input "Press Enter to exit..." (Some CtrlC)
            :: Print ("Unexpected error: " ++ msg) :: l).
    { intros msg Hs. unfold bind, print, modify, input, ret. cbn.
      destruct (stdin s) as [|[text|] rest]; cbn.
      - intros (p & [H | [H | H]]); try discriminate H. destruct Hs. exists p. exact H.
      - intros (p & [H | [H | H]]); try discriminate H. destruct Hs. exists p. exact H.
      - intros _. split; [reflexivity|]. eexists; eexists. reflexivity. }
    destruct e as [| | |msg]; intros Hint.
    + right. apply (Hhandler _ ltac:(destruct Hrun as [H | H]; [discriminate H | exact H]) Hint).
    + right. apply (Hhandler _ ltac:(destruct Hrun as [H | H]; [discriminate H | exact H]) Hint).
    + left. split; reflexivity.
    + right. apply (Hhandler _ ltac:(destruct Hrun as [H | H]; [discriminate H | exact H]) Hint).
Qed.

End Interrupts.

Lemma interrupt_ends_the_run_witness :
  interrupted (log (snd (main linux_gcc keys_interrupt))) /\
  ((fst (main linux_gcc keys_interrupt) = Ok 1%Z /\
    hd_error (log (snd (main linux_gcc keys_interrupt)))
    = Some (Print "Operation cancelled by user.")) \/
   (fst (main linux_gcc keys_interrupt) = Raise KeyboardInterrupt /\
    exists msg l,
      log (snd (main linux_gcc keys_interrupt))
      = Input "Press Enter to exit..." (Some CtrlC)
        :: Print ("Unexpected error: " ++ msg) :: l)).
Proof.
  assert (Hint : interrupted (log (snd (main linux_gcc keys_interrupt)))).
  { exists "Press Enter to continue...". vm_compute. right. left. reflexivity. }
  split; [exact Hint|].
  apply (interrupt_ends_the_run linux_gcc keys_interrupt). exact Hint.
Defined.

(** ** Hosts other than Windows *)

Lemma F_path_ok : frame_ok F_path.
Proof. intros ev s. reflexivity. Qed.

Lemma F_path_io : frame_io F_path.
Proof. split; intros; [reflexivity | exact I]. Qed.

#[local] Hint Resolve F_path_ok F_path_io : frame.

Lemma framed_bind_returns (F : Frame) {A B} b (m : M A) (f : A -> M B)
    (P : A -> Prop) :
  framed F b m -> returns m P -> (forall a, P a -> framed F b (f a)) ->
  framed F b (bind m f).
Proof.
  intros Hm Hr Hf s Hs. unfold bind.
  destruct (Hm s Hs) as (Hv & (evs & Hl & Hok) & Hraise).
  specialize (Hr s).
  destruct (m s) as [[a | e] s1]; cbn in *.
  - assert (Hs1 : pre F (view F s1)) by (rewrite Hv; exact Hs).
    destruct (Hf a (Hr a eq_refl) s1 Hs1) as (Hv2 & (evs2 & Hl2 & Hok2) & Hr2).
    split; [congruence|]. split; [|exact Hr2].
    exists (evs2 ++ evs)%list. split.
    + rewrite Hl2, Hl. apply app_assoc.
    + apply Forall_app; auto.
  - split; [exact Hv|]. split; [eauto|].
    intros e' [= <-] Hb. apply (Hraise e eq_refl Hb).
Qed.

Section Unix.

Variable E : Env.
Hypothesis not_windows : is_windows E = false.

Lemma find_make_executable_unix s : find_make_executable E s = "make".
Proof.
  unfold find_make_executable. rewrite not_windows. cbn.
  rewrite orb_true_r. reflexivity.
Qed.

Lemma compiler_exe_unix s exe :
  compiler_path s = None -> compiler_exe E s = Some exe ->
  exe = "g++" \/ exe = "clang++".
Proof.
  unfold compiler_exe. intros ->. cbn.
  destruct (is_kind "gcc" (compiler_type s)); [intros [= <-]; auto|].
  destruct (is_kind "clang" (compiler_type s)); [intros [= <-]; auto | discriminate].
Qed.

Lemma check_search_path_unix b exe ty display found l :
  In exe path_tools ->
  framed F_path b (check_search_path E exe ty display found l).
Proof. intros Hexe. unfold check_search_path, run_process. framing. Qed.

Lemma locate_unix_returns :
  returns (locate E) (Forall (fun c => c_path c = None)).
Proof.
  unfold locate. rewrite not_windows.
  assert (Hstep : forall exe ty display found l,
             Forall (fun c => c_path c = None) l ->
             returns (check_search_path E exe ty display found l)
               (Forall (fun c => c_path c = None))).
  { intros exe ty display found l Hl. unfold check_search_path, run_process.
    returning; try assumption.
    apply Forall_app. split; [assumption | repeat constructor]. }
  eapply returns_bind; [apply Hstep; constructor|]. intros l Hl. apply Hstep, Hl.
Qed.

Lemma find_candidates_unix_returns :
  returns (find_candidates E)
    (fun r => forall l, r = Some l -> Forall (fun c => c_path c = None) l).
Proof.
  unfold find_candidates. eapply returns_bind; [apply locate_unix_returns|].
  intros l Hl. destruct l as [|c l].
  - unfold manual_override. rewrite not_windows. returning. discriminate.
  - apply returns_ret. intros l' [= <-]. exact Hl.
Qed.

Lemma select_compiler_unix b label c :
  c_path c = None -> framed F_path b (select_compiler E label c).
Proof.
  intros Hc. unfold select_compiler. rewrite Hc. cbn [Py.truthy].
  apply framed_bind; [|intros; framing].
  intros s Hs. cbn in Hs |- *. split; [symmetry; exact Hs|]. split.
  - exists []. split; [reflexivity | constructor].
  - discriminate.
Qed.

Lemma choose_compiler_unix b l :
  Forall (fun c => c_path c = None) l -> framed F_path b (choose_compiler E l).
Proof.
  intros Hl. unfold choose_compiler, list_compiler.
  destruct l as [|c [|c' l']].
  - framing. intros. match goal with H : compiler_turn _ _ _ = Accept _ |- _ =>
      unfold compiler_turn in H; cbv zeta in H; turn_cases H end.
    match goal with H : nth_error [] _ = Some _ |- _ =>
      destruct (Z.to_nat _) in H; discriminate H end.
  - apply select_compiler_unix. inversion Hl; assumption.
  - framing. intros. match goal with H : compiler_turn _ _ _ = Accept _ |- _ =>
      unfold compiler_turn in H; cbv zeta in H; turn_cases H end.
    apply select_compiler_unix.
    rewrite Forall_forall in Hl. apply Hl. eapply nth_error_In. eassumption.
Qed.

Lemma detect_compiler_unix b : framed F_path b (detect_compiler E).
Proof.
  unfold detect_compiler. apply framed_bind; [|intros _].
  { unfold print_header. framing. }
  apply (framed_bind_returns F_path b _ _
           (fun r => forall l, r = Some l -> Forall (fun c => c_path c = None) l)).
  - unfold find_candidates, locate, manual_override. rewrite not_windows.
    framing. all: apply check_search_path_unix; cbn; auto.
  - apply find_candidates_unix_returns.
  - intros [l|] Hl; [apply choose_compiler_unix; auto | framing].
Qed.

Lemma detect_architecture_unix b : framed F_path b (detect_architecture E).
Proof.
  unfold detect_architecture, detected, probe_architecture, probe_failed,
    report_chain, run_process, print_header.
  framing.
  all: match goal with
       | Hp : pre F_path (view F_path ?x), He : compiler_exe E ?x = Some ?exe |- _ =>
           destruct (compiler_exe_unix x exe Hp He) as [-> | ->]
       end.
  all: cbn; auto.
Qed.

(** A step whose only child process is the builder. *)
Ltac builder_only :=
  framing;
  repeat match goal with
         | H : find_make_executable E _ = _ |- _ =>
             rewrite find_make_executable_unix in H; subst
         end;
  cbn; auto.

Lemma download_neural_network_unix b : framed F_path b (download_neural_network E).
Proof.
  unfold download_neural_network, continue_anyway, print_section, run_process.
  builder_only.
Qed.

Lemma build_and_publish_unix arch info :
  framed F_path false (build_and_publish E arch info).
Proof.
  unfold build_and_publish, compile_stockfish, report_build_path, strip_executable,
    copy_executable, cleanup, print_header, print_section, run_process.
  builder_only.
Qed.

Lemma choose_architecture_unix b : framed F_path b choose_architecture.
Proof.
  unfold choose_architecture, print_section. framing.
  all: intros; match goal with H : architecture_turn _ _ = _ |- _ =>
         unfold architecture_turn in H; turn_cases H end.
  all: framing.
  unfold manual_architecture_selection, clear_screen, print_header. framing.
  intros. match goal with H : arch_turn _ = Accept _ |- _ =>
    unfold arch_turn in H; cbv zeta in H; turn_cases H end.
  all: framing.
Qed.

Lemma choose_source_version_unix b : framed F_path b (choose_source_version E).
Proof.
  unfold choose_source_version, print_section. framing.
  all: intros; match goal with H : version_turn _ _ = _ |- _ =>
         unfold version_turn in H; turn_cases H end.
  all: unfold get_latest_release; framing.
Qed.

Lemma run_unix : framed F_path false (run E).
Proof.
  unfold run, greet, configure_and_build, acquire_and_build, download_source,
    fetch_and_extract, cleanup, clear_screen, print_header.
  framing.
  all: first [ apply detect_compiler_unix | apply detect_architecture_unix
             | apply choose_architecture_unix | apply choose_source_version_unix
             | apply download_neural_network_unix | apply build_and_publish_unix ].
Qed.


End Unix.


Section UnixDetect.

Variable E : Env.
Hypothesis not_windows : is_windows E = false.

(** What one look at the search path adds to the candidates. *)
Lemma check_search_path_runs exe ty display found l s :
  exists version s',
    check_search_path E exe ty display found l s
    = (Ok (if usable E exe
           then (l ++ [{| c_type := ty; c_name := display;
                          c_version := version; c_path := None |}])%list
           else l), s') /\
    stdin s' = stdin s /\ compiler_view s' = compiler_view s.
Proof.
  unfold check_search_path, usable, run_process, bind, event, print, modify, ret.
  destruct (Py.truthy (which E exe)); cbn.
  - destruct (subprocess_run E [exe; "--version"]) as [rc out err | msg]; cbn.
    + destruct (rc =? 0)%Z; cbn.
      * exists (Py.first_line out). eexists. repeat split.
      * exists "". eexists. repeat split.
    + exists "". eexists. repeat split.
  - exists "". eexists. repeat split.
Qed.

Lemma select_compiler_runs label ty display version s :
  exists s',
    select_compiler E label
      {| c_type := ty; c_name := display; c_version := version; c_path := None |} s
    = (Ok (Some ty), s') /\
    stdin s' = stdin s /\ compiler_view s' = (Some ty, None, Some ty).
Proof.
  unfold select_compiler, comp_tag, bind, print, modify, ret. cbn.
  rewrite not_windows. cbn. eexists. repeat split.
Qed.

Lemma locate_unix_runs s :
  exists v1 v2 s',
    locate E s
    = (Ok ((if usable E "g++"
            then [{| c_type := "gcc"; c_name := "GCC"; c_version := v1;
                     c_path := None |}]
            else [])
           ++ (if usable E "clang++"
               then [{| c_type := "clang"; c_name := "Clang"; c_version := v2;
                        c_path := None |}]
               else []))%list, s') /\
    stdin s' = stdin s /\ compiler_view s' = compiler_view s.
Proof.
  unfold locate. rewrite not_windows.
  destruct (check_search_path_runs "g++" "gcc" "GCC" "✓ Found: " [] s)
    as (v1 & s1 & H1 & Hin1 & Hv1).
  rewrite (bind_ok _ _ _ _ _ H1).
  destruct (check_search_path_runs "clang++" "clang" "Clang" "✓ Found: "
              (if usable E "g++"
               then ([] ++ [{| c_type := "gcc"; c_name := "GCC"; c_version := v1;
                               c_path := None |}])%list
               else []) s1)
    as (v2 & s2 & H2 & Hin2 & Hv2).
  exists v1, v2, s2. rewrite H2. split; [|split; congruence].
  destruct (usable E "g++"), (usable E "clang++"); reflexivity.
Qed.

(** X23. [detect_compiler] on a system other than Windows: with neither
    [g++] nor [clang++] usable it returns [None] and leaves the session
    alone; with exactly one of them it selects that one without asking; with
    both it asks, GCC being option 1 and Clang option 2. *)
Theorem unix_detect_compiler (s : State) :
  exists r s',
    detect_compiler E s = (r, s') /\
    match usable E "g++", usable E "clang++" with
    | false, false =>
        r = Ok None /\ stdin s' = stdin s /\ compiler_view s' = compiler_view s
    | true, false =>
        r = Ok (Some "gcc") /\ stdin s' = stdin s /\
        compiler_view s' = (Some "gcc", None, Some "gcc")
    | false, true =>
        r = Ok (Some "clang") /\ stdin s' = stdin s /\
        compiler_view s' = (Some "clang", None, Some "clang")
    | true, true =>
        match stdin s with
        | Line text :: rest =>
            (Py.strip text = "1" ->
             r = Ok (Some "gcc") /\ stdin s' = rest /\
             compiler_view s' = (Some "gcc", None, Some "gcc")) /\
            (Py.strip text = "2" ->
             r = Ok (Some "clang") /\ stdin s' = rest /\
             compiler_view s' = (Some "clang", None, Some "clang"))
        | CtrlC :: _ => r = Raise KeyboardInterrupt
        | [] => r = Raise EOFError
        end
    end.
Proof.
  unfold detect_compiler, find_candidates, print_header.
  rewrite (bind_ok (print _ ;; print _ ;; print _) _ s tt _ eq_refl).
  match goal with |- context [bind _ _ ?s0] => set (s1 := s0) end.
  destruct (locate_unix_runs s1) as (v1 & v2 & s2 & Hloc & Hin & Hv).
  assert (Hin2 : stdin s2 = stdin s) by (rewrite Hin; reflexivity).
  assert (Hv2 : compiler_view s2 = compiler_view s) by (rewrite Hv; reflexivity).
  clear Hin Hv. unfold bind at 1 2. rewrite Hloc. clearbody s1. clear Hloc.
  destruct (usable E "g++"), (usable E "clang++"); cbn [app].
  - (* both: the menu *)
    unfold choose_compiler, list_compiler, menu, bind, print, modify, ret.
    cbn. rewrite Hin2.
    destruct (stdin s) as [|[text|] rest]; cbn [prompt_loop].
    + eexists; eexists. split; reflexivity.
    + set (gcc := {| c_type := "gcc"; c_name := "GCC"; c_version := v1;
                     c_path := None |}).
      set (clang := {| c_type := "clang"; c_name := "Clang"; c_version := v2;
                       c_path := None |}).
      destruct (String.eqb (Py.strip text) "1") eqn:H1.
      { apply String.eqb_eq in H1. rewrite H1.
        change (compiler_turn E [gcc; clang] "1")
          with (Accept (select_compiler E "Selected: " gcc)).
        cbv iota.
        match goal with |- context [select_compiler E _ _ ?st] =>
          destruct (select_compiler_runs "Selected: " "gcc" "GCC" v1 st)
            as (s3 & Hsel & Hin3 & Hv3) end.
        exists (Ok (Some "gcc")), s3. split; [exact Hsel|].
        split; [intros _; repeat split; assumption | discriminate]. }
      destruct (String.eqb (Py.strip text) "2") eqn:H2.
      { apply String.eqb_eq in H2. rewrite H2.
        change (compiler_turn E [gcc; clang] "2")
          with (Accept (select_compiler E "Selected: " clang)).
        cbv iota.
        match goal with |- context [select_compiler E _ _ ?st] =>
          destruct (select_compiler_runs "Selected: " "clang" "Clang" v2 st)
            as (s3 & Hsel & Hin3 & Hv3) end.
        exists (Ok (Some "clang")), s3. split; [exact Hsel|].
        split; [discriminate | intros _; repeat split; assumption]. }
      apply String.eqb_neq in H1, H2.
      match goal with |- exists r s', ?x = _ /\ _ => destruct x as [r0 s3] end.
      exists r0, s3. split; [reflexivity|]. split; intros Hbad; congruence.
    + eexists; eexists. split; reflexivity.
  - (* g++ only *)
    unfold choose_compiler. unfold ret at 1. cbv beta iota.
    destruct (select_compiler_runs "Using: " "gcc" "GCC" v1 s2) as (s3 & -> & Hin3 & Hv3).
    eexists; eexists. split; [reflexivity|]. repeat split; congruence.
  - (* clang++ only *)
    unfold choose_compiler. unfold ret at 1. cbv beta iota.
    destruct (select_compiler_runs "Using: " "clang" "Clang" v2 s2)
      as (s3 & -> & Hin3 & Hv3).
    eexists; eexists. split; [reflexivity|]. repeat split; congruence.
  - (* none *)
    unfold manual_override. rewrite not_windows.
    unfold bind, print, modify, ret. cbn.
    eexists; eexists. split; [reflexivity|]. repeat split; assumption.
Qed.

End UnixDetect.

Lemma unix_detect_compiler_witness :
  is_windows linux_gcc = false /\
  usable linux_gcc "g++" = true /\ usable linux_gcc "clang++" = false /\
  exists r s',
    detect_compiler linux_gcc (init []) = (r, s') /\
    r = Ok (Some "gcc") /\ stdin s' = stdin (init []) /\
    compiler_view s' = (Some "gcc", None, Some "gcc").
Proof.
  split; [reflexivity|]. split; [vm_compute; reflexivity|].
  split; [vm_compute; reflexivity|].
  exact (unix_detect_compiler linux_gcc eq_refl (init [])).
Defined.

(** ** Candidates with a recorded root *)

Lemma returns_for_each_in {A B} (xs : list A) (body : A -> B -> M B) (Q : B -> Prop) :
  (forall x acc, In x xs -> Q acc -> returns (body x acc) Q) ->
  forall acc, Q acc -> returns (for_each xs body acc) Q.
Proof.
  induction xs as [|x xs IH]; intros Hb acc Hacc; cbn.
  - apply returns_ret. exact Hacc.
  - eapply returns_bind; [apply Hb; [left; reflexivity | exact Hacc]|].
    intros acc' Hacc'. apply IH; [|exact Hacc'].
    intros y a Hy. apply Hb. right. exact Hy.
Qed.

Lemma append_nonempty (a b : string) : b <> "" -> a ++ b <> "".
Proof. destruct a; cbn; [auto | discriminate]. Qed.

Lemma joinpath_truthy E p c : c <> "" -> Py.truthy (Some (joinpath E p c)) = true.
Proof.
  intros Hc. unfold joinpath.
  destruct (p ++ sep E ++ c) eqn:H; [|reflexivity].
  exfalso. revert H. apply append_nonempty, append_nonempty, Hc.
Qed.

Section Installed.

Variable E : Env.

Lemma all_installed_snoc l c :
  all_installed E l ->
  (forall p, c_path c = Some p -> exists exe, installed E c p exe) ->
  all_installed E (l ++ [c]).
Proof.
  intros Hl Hc. apply Forall_app. split; [exact Hl | constructor; [exact Hc | constructor]].
Qed.

(** What [check_compiler_in_path] has seen when it returns a candidate of
    the sub-environment [sub] of [root]. *)
Lemma check_compiler_in_path_installed root sub :
  path_exists E root = true -> In sub subenvs ->
  returns
    (check_compiler_in_path E (joinpath E (joinpath E root sub) "bin")
       (if negb (String.eqb sub "clang64") then "g" else "clang"))
    (fun r => forall ci, r = Some ci ->
       exists exe,
         c_path ci = Some (joinpath E (joinpath E root sub) "bin") /\
         installed E ci (joinpath E (joinpath E root sub) "bin") exe).
Proof.
  intros Hroot Hsub s r Hrun ci ->.
  unfold check_compiler_in_path, run_process, bind, event, modify, ret in Hrun.
  set (dir := joinpath E (joinpath E root sub) "bin") in *.
  set (name := if negb (String.eqb sub "clang64") then "g" else "clang") in *.
  set (exe := joinpath E dir ((name ++ "++") ++ (if is_windows E then ".exe" else "")))
    in *.
  destruct (path_exists E exe) eqn:Hx; cbn in Hrun; [|discriminate Hrun].
  destruct (subprocess_run E [exe; "--version"]) as [rc out err | msg] eqn:Hv;
    cbn in Hrun; [|discriminate Hrun].
  destruct (rc =? 0)%Z eqn:Hrc; cbn in Hrun; [|discriminate Hrun].
  apply Z.eqb_eq in Hrc. subst rc. injection Hrun as <-.
  assert (Hkind : (if String.eqb name "g" then "gcc" else "clang")
                  = if String.eqb sub "clang64" then "clang" else "gcc").
  { unfold name. destruct (String.eqb sub "clang64"); reflexivity. }
  assert (Hexe : exe = joinpath E dir
                         ((if String.eqb (if String.eqb name "g" then "gcc" else "clang")
                                         "gcc"
                           then "g++" else "clang++")
                          ++ (if is_windows E then ".exe" else ""))).
  { unfold exe, name. destruct (String.eqb sub "clang64"); reflexivity. }
  exists exe. split; [reflexivity|]. split; [|split; [|split]].
  - exists root, sub. cbn. repeat split; assumption.
  - exact Hexe.
  - exact Hx.
  - exists out, err. split; [exact Hv | reflexivity].
Qed.

Lemma scan_subenv_installed root sub found l :
  path_exists E root = true -> In sub subenvs -> all_installed E l ->
  returns
    (scan_subenv E root sub (if negb (String.eqb sub "clang64") then "g" else "clang")
       found l)
    (all_installed E).
Proof.
  intros Hroot Hsub Hl. unfold scan_subenv.
  destruct (path_exists E (joinpath E (joinpath E root sub) "bin"));
    [|apply returns_ret; exact Hl].
  eapply returns_bind; [apply check_compiler_in_path_installed; assumption|].
  intros [ci|] Hci; [|apply returns_ret; exact Hl].
  destruct (negb _); [|apply returns_ret; exact Hl].
  apply returns_seq, returns_ret. apply all_installed_snoc; [exact Hl|].
  intros p Hp. destruct (Hci ci eq_refl) as (exe & Hpath & Hinst).
  exists exe. congruence.
Qed.

Lemma check_search_path_installed exe ty display found l :
  all_installed E l ->
  returns (check_search_path E exe ty display found l) (all_installed E).
Proof.
  intros Hl. unfold check_search_path, run_process. returning; try exact Hl.
  apply all_installed_snoc; [exact Hl | discriminate].
Qed.

Lemma locate_installed : returns (locate E) (all_installed E).
Proof.
  unfold locate. destruct (is_windows E).
  - eapply returns_bind; [apply check_search_path_installed; constructor|].
    intros l1 Hl1.
    eapply returns_bind; [apply check_search_path_installed; exact Hl1|].
    intros l2 Hl2. apply returns_seq.
    apply returns_for_each_in; [|exact Hl2].
    intros root l Hroot Hl. unfold find_msys2_installations in Hroot.
    assert (Hx : path_exists E root = true).
    { apply in_app_or in Hroot. destruct Hroot as [H | H];
        apply filter_In in H; apply H. }
    unfold scan_install. apply returns_seq.
    eapply returns_bind;
      [apply (scan_subenv_installed root "mingw64"); [exact Hx | cbn; auto | exact Hl]|].
    intros l3 Hl3.
    eapply returns_bind;
      [apply (scan_subenv_installed root "ucrt64"); [exact Hx | cbn; auto | exact Hl3]|].
    intros l4 Hl4.
    apply (scan_subenv_installed root "clang64"); [exact Hx | cbn; auto | exact Hl4].
  - eapply returns_bind; [apply check_search_path_installed; constructor|].
    intros l1 Hl1. apply check_search_path_installed. exact Hl1.
Qed.

Lemma manual_subdir_installed root sub l :
  path_exists E root = true -> In sub subenvs -> all_installed E l ->
  returns (manual_subdir E root sub l) (all_installed E).
Proof.
  intros Hroot Hsub Hl. unfold manual_subdir.
  destruct (path_exists E (joinpath E (joinpath E root sub) "bin"));
    [|apply returns_ret; exact Hl].
  eapply returns_bind; [apply check_compiler_in_path_installed; assumption|].
  intros [ci|] Hci; [|apply returns_ret; exact Hl].
  apply returns_seq, returns_ret. apply all_installed_snoc; [exact Hl|].
  intros p Hp. destruct (Hci ci eq_refl) as (exe & Hpath & Hinst).
  exists exe. congruence.
Qed.

Lemma manual_override_installed :
  returns (manual_override E) (fun r => forall l, r = Some l -> all_installed E l).
Proof.
  unfold manual_override. apply returns_seq.
  destruct (is_windows E); [|returning; discriminate].
  apply returns_seq, returns_bind_any. intros choice.
  destruct (String.eqb _ "y"); [|apply returns_ret; discriminate].
  apply returns_bind_any. intros manual_path.
  destruct (negb (path_exists E (Py.strip manual_path))) eqn:Hx;
    [returning; discriminate|].
  apply negb_false_iff in Hx. apply returns_seq.
  apply (returns_bind _ _ (all_installed E)).
  - apply returns_for_each_in; [|apply Forall_nil].
    intros sub l Hsub Hl. apply manual_subdir_installed; assumption.
  - intros [|c l] Hl; [returning; discriminate|].
    apply returns_ret. intros l' [= <-]. exact Hl.
Qed.

Lemma find_candidates_installed :
  returns (find_candidates E) (fun r => forall l, r = Some l -> all_installed E l).
Proof.
  unfold find_candidates. eapply returns_bind; [apply locate_installed|].
  intros [|c l] Hl; [apply manual_override_installed|].
  apply returns_ret. intros l' [= <-]. exact Hl.
Qed.

(** X24. A candidate with a recorded root is an installed compiler (see
    [installed]), and once it is selected, the executable that
    [detect_architecture] probes is the very one that
    [check_compiler_in_path] saw answer [--version]: the two places that
    build its name agree. *)
Theorem recorded_compiler_is_the_probed_one (s : State) (l : list Candidate)
    (c : Candidate) (p : string) :
  fst (find_candidates E s) = Ok (Some l) ->
  In c l ->
  c_path c = Some p ->
  exists exe,
    installed E c p exe /\
    forall label s0,
      compiler_exe E (snd (select_compiler E label c s0)) = Some exe.
Proof.
  intros Hrun Hin Hp.
  pose proof (find_candidates_installed s _ Hrun l eq_refl) as Hall.
  unfold all_installed in Hall. rewrite Forall_forall in Hall.
  destruct (Hall c Hin p Hp) as (exe & Hinst). exists exe. split; [exact Hinst|].
  intros label s0.
  destruct Hinst as ((root & sub & _ & _ & Hdir & Hkind) & Hexe & _).
  unfold select_compiler, bind, print, modify, ret. cbn. rewrite Hp. cbn.
  assert (Htruthy : Py.truthy (Some p) = true).
  { rewrite Hdir. apply joinpath_truthy. discriminate. }
  destruct p as [|a p']; [discriminate Htruthy|]. cbn.
  unfold compiler_exe. cbn. rewrite Hexe, Hkind.
  destruct (String.eqb sub "clang64"), (is_windows E); reflexivity.
Qed.

End Installed.

Lemma recorded_compiler_is_the_probed_one_witness :
  fst (find_candidates windows_msys (init [])) = Ok (Some [path_gcc; msys_gcc]) /\
  exists exe,
    installed windows_msys msys_gcc "C:\Users\u\msys64\mingw64\bin" exe /\
    forall label s0,
      compiler_exe windows_msys (snd (select_compiler windows_msys label msys_gcc s0))
      = Some exe.
Proof.
  split; [vm_compute; reflexivity|].
  apply (recorded_compiler_is_the_probed_one windows_msys (init [])
           [path_gcc; msys_gcc] msys_gcc "C:\Users\u\msys64\mingw64\bin").
  - vm_compute. reflexivity.
  - right. left. reflexivity.
  - reflexivity.
Defined.

(** ** Where the builder is looked for *)

Lemma rev_string_append a b acc :
  Py.rev_string (a ++ b) acc = Py.rev_string b (Py.rev_string a acc).
Proof.
  revert acc. induction a as [|x a IH]; intros acc; cbn; [reflexivity | apply IH].
Qed.

Lemma rev_string_acc a acc : Py.rev_string a acc = Py.rev_string a "" ++ acc.
Proof.
  revert acc. induction a as [|x a IH]; intros acc; cbn; [reflexivity|].
  rewrite IH, (IH (String x "")), append_assoc. reflexivity.
Qed.

Lemma rev_string_involutive a : Py.rev_string (Py.rev_string a "") "" = a.
Proof.
  induction a as [|x a IH]; cbn; [reflexivity|].
  rewrite (rev_string_acc a), rev_string_append, IH. reflexivity.
Qed.

Section MakeLocation.

Variable E : Env.

Lemma cut_component_skips c y acc :
  occurs c y = false ->
  cut_component c (Py.rev_string y acc) = cut_component c acc.
Proof.
  revert acc. induction y as [|a y IH]; intros acc Hy; cbn; [reflexivity|].
  cbn in Hy. apply orb_false_iff in Hy. destruct Hy as (Ha & Hy).
  rewrite (IH _ Hy). cbn. rewrite Ha. reflexivity.
Qed.

(** [parent] undoes a join with a component free of separators. *)
Lemma parent_joinpath c p comp :
  sep E = String c EmptyString -> occurs c comp = false ->
  parent E (joinpath E p comp) = p.
Proof.
  intros Hsep Hc. unfold parent, joinpath. rewrite Hsep. cbn [append].
  rewrite rev_string_append. cbn [Py.rev_string].
  rewrite (cut_component_skips c comp _ Hc). cbn. rewrite Ascii.eqb_refl.
  apply rev_string_involutive.
Qed.

(** X25. For a compiler selected in [<root>/<subenv>/bin], two [parent]
    steps lead back to [<root>]; so when the compiler directory has neither
    [make.exe] nor [mingw32-make.exe], the builder is
    [<root>/usr/bin/make.exe] if that exists, and the bare [make]
    otherwise. *)
Theorem make_is_sought_in_the_msys2_root (s : State) (root sub : string) :
  is_windows E = true ->
  sep E = "/" \/ sep E = backslash ->
  In sub subenvs ->
  compiler_path s = Some (joinpath E (joinpath E root sub) "bin") ->
  path_exists E (joinpath E (joinpath E (joinpath E root sub) "bin") "make.exe") = false ->
  path_exists E (joinpath E (joinpath E (joinpath E root sub) "bin") "mingw32-make.exe")
  = false ->
  parent E (parent E (joinpath E (joinpath E root sub) "bin")) = root /\
  find_make_executable E s
  = if path_exists E
         (joinpath E (joinpath E (joinpath E root "usr") "bin") "make.exe")
    then joinpath E (joinpath E (joinpath E root "usr") "bin") "make.exe"
    else "make".
Proof.
  intros Hw Hsep Hsub Hp H1 H2.
  assert (Hroot : parent E (parent E (joinpath E (joinpath E root sub) "bin")) = root).
  { destruct Hsep as [Hsep | Hsep].
    - rewrite (parent_joinpath "/" _ "bin" Hsep eq_refl).
      apply (parent_joinpath "/" _ sub Hsep).
      cbn in Hsub. repeat (destruct Hsub as [<- | Hsub]; [reflexivity|]). destruct Hsub.
    - rewrite (parent_joinpath (ascii_of_nat 92) _ "bin" Hsep eq_refl).
      apply (parent_joinpath (ascii_of_nat 92) _ sub Hsep).
      cbn in Hsub. repeat (destruct Hsub as [<- | Hsub]; [reflexivity|]). destruct Hsub. }
  split; [exact Hroot|].
  unfold find_make_executable. rewrite Hp, Hw.
  rewrite (joinpath_truthy E _ "bin") by discriminate. cbn [negb orb].
  rewrite H1, H2, Hroot. reflexivity.
Qed.

End MakeLocation.

Lemma make_is_sought_in_the_msys2_root_witness :
  is_windows msys_make_host = true /\
  parent msys_make_host (parent msys_make_host "C:\Users\u\msys64\mingw64\bin")
  = "C:\Users\u\msys64" /\
  find_make_executable msys_make_host with_msys_gcc
  = "C:\Users\u\msys64\usr\bin\make.exe".
Proof.
  split; [reflexivity|].
  apply (make_is_sought_in_the_msys2_root msys_make_host with_msys_gcc
           "C:\Users\u\msys64" "mingw64").
  - reflexivity.
  - right. reflexivity.
  - left. reflexivity.
  - reflexivity.
  - vm_compute. reflexivity.
  - vm_compute. reflexivity.
Defined.

(** ** What a run downloads, and what it asks the builder for *)

Lemma F_fetch_ok E : frame_ok (F_fetch E).
Proof. intros ev s. reflexivity. Qed.

Lemma F_fetch_io E : frame_io (F_fetch E).
Proof. split; intros; [reflexivity | exact I]. Qed.

Lemma F_spawn_ok : frame_ok F_spawn.
Proof. intros ev s. reflexivity. Qed.

Lemma F_spawn_io : frame_io F_spawn.
Proof. split; intros; [reflexivity | exact I]. Qed.

Lemma F_archs_ok : frame_ok F_archs.
Proof. intros ev s. reflexivity. Qed.

Lemma F_archs_io : frame_io F_archs.
Proof. split; intros; [reflexivity | exact I]. Qed.

#[local] Hint Resolve F_fetch_ok F_fetch_io F_spawn_ok F_spawn_io F_archs_ok
  F_archs_io : frame.

(** The log after a step that respects a frame without view. *)
Lemma log_kept (F : Frame) {A} b (m : M A) s :
  framed F b m -> pre F (view F s) -> Forall (okev F) (log s) ->
  Forall (okev F) (log (snd (m s))).
Proof.
  intros Hm Hs Hl. destruct (Hm s Hs) as (_ & (evs & -> & Hev) & _).
  apply Forall_app. split; assumption.
Qed.

(** The turns of the four menus, case by case. *)
Ltac menu_turns :=
  intros;
  try match goal with
      | H : compiler_turn _ _ _ = Accept _ |- _ =>
          unfold compiler_turn in H; cbv zeta in H; turn_cases H
      | H : arch_turn _ = Accept _ |- _ =>
          unfold arch_turn in H; cbv zeta in H; turn_cases H
      | H : architecture_turn _ _ = Accept _ |- _ =>
          unfold architecture_turn in H; turn_cases H
      | H : version_turn _ _ = Accept _ |- _ =>
          unfold version_turn in H; turn_cases H
      end.

(** The steps of a run that neither download nor build, in a frame that
    asks nothing of what they do. *)
Ltac plain_steps :=
  unfold greet, detect_compiler, find_candidates, locate, scan_install, scan_subenv,
    manual_override, manual_subdir, check_search_path, check_compiler_in_path,
    choose_compiler, list_compiler, detect_architecture, detected,
    probe_architecture, probe_failed, report_chain, choose_architecture,
    choose_source_version, download_neural_network, continue_anyway,
    strip_executable, copy_executable, cleanup, clear_screen, print_header,
    print_section, run_process;
  framing;
  menu_turns;
  unfold select_compiler, manual_architecture_selection, get_latest_release,
    clear_screen, print_header;
  framing;
  menu_turns;
  framing.

Section Sources.

Variable E : Env.

Lemma choose_source_version_returns :
  returns (choose_source_version E) (fun r => known_source E (url (snd r))).
Proof.
  unfold choose_source_version.
  do 4 apply returns_seq. apply returns_menu. intros c leave Hturn.
  unfold version_turn in Hturn.
  destruct (String.eqb c "1"); [|destruct (String.eqb c "2")];
    try discriminate Hturn; injection Hturn as <-.
  - eapply returns_bind; [apply get_latest_release_returns|].
    intros [rel|] Hrel.
    + apply returns_ret. right. cbn. destruct (Hrel rel eq_refl) as (_ & Hdata).
      exact Hdata.
    + apply returns_seq, returns_ret. left. reflexivity.
  - apply returns_ret. left. reflexivity.
Qed.

Lemma download_source_fetch info :
  known_source E (url info) -> framed (F_fetch E) false (download_source E info).
Proof.
  intros Hinfo. unfold download_source, fetch_and_extract, print_header.
  framing. all: cbn; eauto.
Qed.

Lemma run_fetch : framed (F_fetch E) false (run E).
Proof.
  unfold run. apply framed_bind; [plain_steps | intros _].
  apply framed_bind; [plain_steps | intros compiler].
  destruct (negb (Py.truthy compiler)); [framing|].
  unfold configure_and_build.
  do 7 (apply framed_bind; [plain_steps | intros]).
  apply (framed_bind_returns (F_fetch E) _ _ _
           (fun r => known_source E (url (snd r)))).
  - plain_steps.
  - apply choose_source_version_returns.
  - intros chosen Hknown. unfold acquire_and_build.
    apply framed_bind; [plain_steps | intros _].
    apply framed_bind; [apply download_source_fetch; exact Hknown | intros source].
    unfold build_and_publish, compile_stockfish, report_build_path.
    plain_steps.
Qed.

(** X26. A run downloads only the development archive or the archive of
    the release the query answered with, and only to [stockfish.zip] in the
    staging directory. *)
Theorem downloads_come_from_known_sources (keys : list Key) (u dest : string) :
  In (Fetch u dest) (log (snd (main E keys))) ->
  known_source E u /\
  exists dir, mkdtemp E = Returned dir /\ dest = joinpath E dir "stockfish.zip".
Proof.
  assert (Hmain : Forall (fetch_ok E) (log (snd (main E keys)))).
  { unfold main.
    pose proof (log_kept (F_fetch E) false (run E) (init keys) run_fetch I
                  (Forall_nil _)) as Hrun.
    destruct (run E (init keys)) as [[z | e] s]; cbn in Hrun; [exact Hrun|].
    destruct e.
    - apply (log_kept (F_fetch E) false (print _ ;; input _ ;; ret 1%Z));
        [framing | exact I | exact Hrun].
    - apply (log_kept (F_fetch E) false (print _ ;; input _ ;; ret 1%Z));
        [framing | exact I | exact Hrun].
    - apply (log_kept (F_fetch E) false (print _ ;; ret 1%Z));
        [framing | exact I | exact Hrun].
    - apply (log_kept (F_fetch E) false (print _ ;; input _ ;; ret 1%Z));
        [framing | exact I | exact Hrun]. }
  intros Hin. rewrite Forall_forall in Hmain. exact (Hmain _ Hin).
Qed.

End Sources.

Lemma downloads_come_from_known_sources_witness :
  In (Fetch (url master) "/tmp/sf/stockfish.zip")
     (log (snd (main linux_gcc keys_default))) /\
  known_source linux_gcc (url master) /\
  exists dir,
    mkdtemp linux_gcc = Returned dir /\
    "/tmp/sf/stockfish.zip" = joinpath linux_gcc dir "stockfish.zip".
Proof.
  assert (Hin : In (Fetch (url master) "/tmp/sf/stockfish.zip")
                  (log (snd (main linux_gcc keys_default)))).
  { vm_compute. repeat (first [left; reflexivity | right]). }
  split; [exact Hin|].
  apply (downloads_come_from_known_sources linux_gcc keys_default (url master)
           "/tmp/sf/stockfish.zip").
  exact Hin.
Defined.

Lemma framed_bind_post (F : Frame) {A B} b (m : M A) (f : A -> M B)
    (P : A -> Prop) :
  framed F b m ->
  (forall s a s', pre F (view F s) -> m s = (Ok a, s') -> P a) ->
  (forall a, P a -> framed F b (f a)) ->
  framed F b (bind m f).
Proof.
  intros Hm Hp Hf s Hs. unfold bind.
  destruct (Hm s Hs) as (Hv & (evs & Hl & Hok) & Hraise).
  specialize (Hp s).
  destruct (m s) as [[a | e] s1]; cbn in *.
  - assert (Hs1 : pre F (view F s1)) by (rewrite Hv; exact Hs).
    destruct (Hf a (Hp a s1 Hs eq_refl) s1 Hs1) as (Hv2 & (evs2 & Hl2 & Hok2) & Hr2).
    split; [congruence|]. split; [|exact Hr2].
    exists (evs2 ++ evs)%list. split.
    + rewrite Hl2, Hl. apply app_assoc.
    + apply Forall_app; auto.
  - split; [exact Hv|]. split; [eauto|].
    intros e' [= <-] Hb. apply (Hraise e eq_refl Hb).
Qed.

Lemma log_bind (F : Frame) {A B} b (m : M A) (f : A -> M B) s :
  framed F b m -> pre F (view F s) -> Forall (okev F) (log s) ->
  (forall a s1, m s = (Ok a, s1) -> Forall (okev F) (log s1) ->
                Forall (okev F) (log (snd (f a s1)))) ->
  Forall (okev F) (log (snd (bind m f s))).
Proof.
  intros Hm Hs Hl Hf. pose proof (log_kept F b m s Hm Hs Hl) as H1.
  unfold bind. destruct (m s) as [[a | e] s1]; cbn in *; [|exact H1].
  apply Hf; [reflexivity | exact H1].
Qed.

Lemma auto_tier_known arch : In arch auto_tiers -> In arch (map fst archs).
Proof.
  intros H. cbn in H |- *.
  repeat (destruct H as [<- | H]; [tauto|]). destruct H.
Qed.

Section Architectures.

Variable E : Env.

Lemma choose_architecture_known s arch s' :
  (forall t, arch_detected s = Some t -> In t (map fst archs)) ->
  choose_architecture s = (Ok arch, s') -> In arch (map fst archs).
Proof.
  intros Hs Hrun.
  destruct (choose_architecture_picks s arch s' Hrun) as (text & _ & [(_ & ->) | (_ & H)]);
    [|exact H].
  destruct (arch_detected s) as [[|c t]|] eqn:Hd; cbn; try tauto.
  apply Hs. reflexivity.
Qed.

Lemma acquire_and_build_archs arch info :
  In arch (map fst archs) -> framed F_archs false (acquire_and_build E arch info).
Proof.
  intros Harch.
  unfold acquire_and_build, build_and_publish, compile_stockfish, report_build_path,
    download_source, fetch_and_extract.
  plain_steps.
  cbn. constructor; [exact Harch | constructor].
Qed.

(** Steps 3 to 10 of [run], which start with the tier recorded. *)
Lemma after_detection_archs :
  framed F_archs false
    (input "Press Enter to continue..." ;;
     clear_screen ;;
     arch <- choose_architecture ;;
     clear_screen ;;
     chosen <- choose_source_version E ;;
     acquire_and_build E arch (snd chosen)).
Proof.
  do 2 (apply framed_bind; [plain_steps | intros]).
  apply (framed_bind_post F_archs _ _ _ (fun arch => In arch (map fst archs))).
  - plain_steps.
  - intros s arch s' Hs Hrun. exact (choose_architecture_known s arch s' Hs Hrun).
  - intros arch Harch.
    do 2 (apply framed_bind; [plain_steps | intros]).
    apply acquire_and_build_archs. exact Harch.
Qed.

Lemma run_archs s :
  Forall arch_ok (log s) -> Forall arch_ok (log (snd (run E s))).
Proof.
  intros Hs. unfold run.
  apply (log_bind F_spawn false); [plain_steps | exact I | exact Hs|].
  intros _ s1 _ H1.
  apply (log_bind F_spawn false); [plain_steps | exact I | exact H1|].
  intros compiler s2 _ H2.
  destruct (negb (Py.truthy compiler)).
  { apply (log_kept F_spawn false); [framing | exact I | exact H2]. }
  unfold configure_and_build.
  apply (log_bind F_spawn false); [plain_steps | exact I | exact H2|].
  intros _ s3 _ H3.
  apply (log_bind F_spawn false); [plain_steps | exact I | exact H3|].
  intros _ s4 _ H4.
  apply (log_bind F_spawn false); [plain_steps | exact I | exact H4|].
  intros tier s5 Hdet H5.
  apply (log_kept F_archs false); [apply after_detection_archs| |exact H5].
  destruct (detect_architecture_tier E s4) as (arch & s' & Hrun & Htier & Hrec & _).
  rewrite Hrun in Hdet. injection Hdet as <- <-.
  cbn. intros t. rewrite Hrec. intros [= <-]. apply auto_tier_known, Htier.
Qed.

(** X27. Every [ARCH=] parameter a run passes to the builder is one of the
    eleven architecture names of the manual list. *)
Theorem builder_is_asked_for_a_known_architecture (keys : list Key)
    (argv : list string) (a : string) :
  In (Spawn argv) (log (snd (main E keys))) ->
  In a (arch_params argv) ->
  In a (map fst archs).
Proof.
  assert (Hmain : Forall arch_ok (log (snd (main E keys)))).
  { unfold main. pose proof (run_archs (init keys) (Forall_nil _)) as Hrun.
    destruct (run E (init keys)) as [[z | e] s]; cbn in Hrun; [exact Hrun|].
    destruct e.
    - apply (log_kept F_spawn false (print _ ;; input _ ;; ret 1%Z));
        [framing | exact I | exact Hrun].
    - apply (log_kept F_spawn false (print _ ;; input _ ;; ret 1%Z));
        [framing | exact I | exact Hrun].
    - apply (log_kept F_spawn false (print _ ;; ret 1%Z));
        [framing | exact I | exact Hrun].
    - apply (log_kept F_spawn false (print _ ;; input _ ;; ret 1%Z));
        [framing | exact I | exact Hrun]. }
  intros Hin Ha. rewrite Forall_forall in Hmain.
  pose proof (Hmain _ Hin) as Hev. cbn in Hev. rewrite Forall_forall in Hev.
  exact (Hev _ Ha).
Qed.

End Architectures.

Lemma builder_is_asked_for_a_known_architecture_witness :
  In (Spawn ["make"; "-j4"; "profile-build"; "ARCH=x86-64-avx2"; "COMP=gcc"])
     (log (snd (main linux_gcc keys_default))) /\
  In "x86-64-avx2"
     (arch_params ["make"; "-j4"; "profile-build"; "ARCH=x86-64-avx2"; "COMP=gcc"]) /\
  In "x86-64-avx2" (map fst archs).
Proof.
  assert (Hin : In (Spawn ["make"; "-j4"; "profile-build"; "ARCH=x86-64-avx2";
                           "COMP=gcc"])
                  (log (snd (main linux_gcc keys_default)))).
  { vm_compute. repeat (first [left; reflexivity | right]). }
  assert (Ha : In "x86-64-avx2"
                 (arch_params ["make"; "-j4"; "profile-build"; "ARCH=x86-64-avx2";
                               "COMP=gcc"])).
  { vm_compute. left. reflexivity. }
  split; [exact Hin|]. split; [exact Ha|].
  exact (builder_is_asked_for_a_known_architecture linux_gcc keys_default _ _ Hin Ha).
Defined.
